(** * AmbiDream: the background-task core of the sleep tracker

    A shallow embedding of [tracker/models.py], [tracker/google_calendar.py],
    [tracker/notifications.py], [tracker/tasks.py] and the views of
    [tracker/views.py] that use them, and the properties of the duration
    calculator, the statistics aggregator, the reminder scheduler and the
    calendar sync adapter.

    Conventions of the embedding.
    - A database table is the list of its rows, in the order the store
      yields them.  A queryset is a [filter] over that list.
    - An aware [datetime] (settings: [USE_TZ = True], [TIME_ZONE = 'UTC'])
      is its number of microseconds since 1970-01-01T00:00:00Z; a [date] is
      its number of days since 1970-01-01.
    - A [Decimal] is the rational it denotes; its division rounds to the
      28 significant digits of the default context, and a column with
      two decimal places holds the value rounded to them.  A Python
      [float] is an IEEE binary64 value ([spec_float] with 53 bits of
      precision).
    - The statistics tasks, the weekly report and the summary read the
      clock once in what they compute, the instant [now].  The reminder
      tasks read it again at every [timezone.now()]; they are given the
      sequence of the instants their reads return.
    - [user.profile] is the row of [UserProfile] of the user when there
      is one; without one the access raises and [hasattr] is false.
    - The mail transport and the calendar API are oracles handed to the
      tasks; what a task sends to them is logged in the state it returns.
    - A task that can raise returns an [outcome]: the writes made before
      the exception stay in the state, as each [save()] is its own
      transaction.
    - The keywords of a [filter()] call are taken as the source spells
      them and resolved against the fields of the model, as Django does:
      a keyword that names no field raises [FieldError].  Where the text
      of the source does not parse (a [;] for the [:] of a dictionary
      entry) it is read as the only thing it can stand for. *)

From Stdlib Require Import ZArith QArith Qround Qabs Qpower Lqa.
From Stdlib Require Import List Permutation Bool String Ascii Lia.
From Stdlib Require Import Floats.SpecFloat.
Import ListNotations.

Local Open Scope Z_scope.

(* ------------------------------------------------------------------ *)
(** ** Exceptions and outcomes *)

Inductive exn : Type :=
| UnboundLocalError (name : string)
| MultipleObjectsReturned
| DoesNotExist
| RelatedObjectDoesNotExist
| FieldError
| IntegrityError
| HttpError
| OtherError (msg : string).

(** The result of running a task body on a state: it ran to its end, or an
    exception left it with the state reached so far. *)
Inductive outcome (S : Type) : Type :=
| Done (s : S)
| Raised (e : exn) (s : S).

Arguments Done {S} s.
Arguments Raised {S} e s.

Definition final {S : Type} (o : outcome S) : S :=
  match o with
  | Done s => s
  | Raised _ s => s
  end.

(** [for x in xs: body] over a state. *)
Fixpoint for_each {A S : Type} (body : A -> S -> outcome S)
         (xs : list A) (s : S) : outcome S :=
  match xs with
  | [] => Done s
  | x :: rest =>
      match body x s with
      | Done s' => for_each body rest s'
      | Raised e s' => Raised e s'
      end
  end.

(* ------------------------------------------------------------------ *)
(** ** Dates and times *)

Module Clock.

Definition datetime := Z.
Definition date := Z.
Definition timedelta := Z.

Record time : Type := mk_time {
  hour : Z;
  minute : Z;
  second : Z;
  microsecond : Z
}.

Definition us_per_second : Z := 1000000.
Definition us_per_minute : Z := 60 * us_per_second.
Definition us_per_hour : Z := 60 * us_per_minute.
Definition us_per_day : Z := 24 * us_per_hour.

(** [dt.date()] *)
Definition date_of (t : datetime) : date := t / us_per_day.

(** [dt.time()] *)
Definition time_of (t : datetime) : time :=
  let r := t mod us_per_day in
  {| hour := r / us_per_hour;
     minute := (r / us_per_minute) mod 60;
     second := (r / us_per_second) mod 60;
     microsecond := r mod us_per_second |}.

(** [d.weekday()]: Monday is 0; 1970-01-01 was a Thursday. *)
Definition weekday (d : date) : Z := (d + 3) mod 7.

(** [d - timedelta(days=n)] *)
Definition minus_days (d : date) (n : Z) : date := d - n.

Definition plus_days (d : date) (n : Z) : date := d + n.

(** What the successive calls of [timezone.now()] of one run return:
    the k-th call returns [reads k]. *)
Definition Reads := nat -> datetime.

(** [datetime(1970,1,1) + days, h:m] for writing examples. *)
Definition at_ (day h m : Z) : datetime :=
  day * us_per_day + h * us_per_hour + m * us_per_minute.

End Clock.

(* ------------------------------------------------------------------ *)
(** ** Python floats, as far as [round(td.total_seconds() / 3600, 2)]
       needs them *)

Module PyFloat.

Definition prec : Z := 53.
Definition emax : Z := 1024.

(** An integer as the operand of a correctly rounded division. *)
Definition of_int (z : Z) : spec_float :=
  match z with
  | Z0 => S754_zero false
  | Zpos p => S754_finite false p 0
  | Zneg p => S754_finite true p 0
  end.

(** [a / b] on two ints: the binary64 nearest the quotient. *)
Definition int_truediv (a b : Z) : spec_float :=
  SFdiv prec emax (of_int a) (of_int b).

(** [x / n] for a float [x] and a small int [n]. *)
Definition truediv (x : spec_float) (n : Z) : spec_float :=
  SFdiv prec emax x (binary_normalize prec emax n 0 false).

(** [timedelta.total_seconds()]:
    [(days * 86400 + seconds) * 10**6 + microseconds) / 10**6]. *)
Definition total_seconds (td : Clock.timedelta) : spec_float :=
  int_truediv td (10 ^ 6).

(** [a / b] rounded to the nearest integer, ties to even, for [0 < b]. *)
Definition div_half_even (a b : Z) : Z :=
  let q := a / b in
  let r := a mod b in
  match (2 * r ?= b) with
  | Lt => q
  | Gt => q + 1
  | Eq => if Z.even q then q else q + 1
  end.

(** The integer nearest [100 * x], ties to even, of a finite [x]. *)
Definition hundredths (x : spec_float) : Z :=
  match x with
  | S754_finite s m e =>
      let n := match e with
               | Zneg p => div_half_even (Zpos m * 100) (2 ^ Zpos p)
               | _ => Zpos m * 100 * 2 ^ e
               end in
      if s then - n else n
  | _ => 0
  end.

(** [round(x, 2)].  CPython rounds the exact binary value of [x] to two
    decimals, ties to even, and returns the float nearest that decimal;
    the embedding keeps the decimal itself, which is also what a
    [DecimalField(decimal_places=2)] holds for that float.  An infinity
    or a NaN has no decimal. *)
Definition round2 (x : spec_float) : Q := hundredths x # 100.


End PyFloat.

(* ------------------------------------------------------------------ *)
(** ** Python decimals, as far as the statistics need them *)

Module Decimal.

(** The precision of the default context: 28 significant digits,
    rounded [ROUND_HALF_EVEN]. *)
Definition prec : Z := 28.

(** A value as a column with two decimal places keeps it
    ([quantize(Decimal('0.01'))], and [round(x, 2)] on a [Decimal]):
    rounded to the nearest hundredth, ties to even. *)
Definition two_places (q : Q) : Q :=
  PyFloat.div_half_even (Qnum q * 100) (Zpos (Qden q)) # 100.

(** The number of decimal digits of a positive integer. *)
Fixpoint digits_from (fuel : nat) (n : Z) : Z :=
  match fuel with
  | O => 0
  | S rest => if n <? 10 then 1 else 1 + digits_from rest (n / 10)
  end.

Definition digits (n : Z) : Z := digits_from (S (Z.to_nat (Z.log2 n))) n.

(** The exponent of the leading digit of [a / b], for positive [a] and
    [b]: the [e] with [10 ^ e <= a / b < 10 ^ (e + 1)]. *)
Definition adjusted (a b : Z) : Z :=
  let e := digits a - digits b in
  if 0 <=? e
  then (if b * 10 ^ e <=? a then e else e - 1)
  else (if b <=? a * 10 ^ (- e) then e else e - 1).

(** A value rounded to [prec] significant digits, ties to even: what
    the context makes of the exact result of an operation. *)
Definition round_sig (q : Q) : Q :=
  let a := Z.abs (Qnum (Qred q)) in
  let b := Zpos (Qden (Qred q)) in
  let x := adjusted a b - (prec - 1) in
  let v := if 0 <=? x
           then inject_Z (PyFloat.div_half_even a (b * 10 ^ x) * 10 ^ x)
           else PyFloat.div_half_even (a * 10 ^ (- x)) b # Z.to_pos (10 ^ (- x)) in
  match Qnum (Qred q) with
  | Z0 => 0%Q
  | Zpos _ => v
  | Zneg _ => Qopp v
  end.

(** [a / n] for a decimal [a] and an int [n]. *)
Definition divide (a : Q) (n : Z) : Q := round_sig (a / inject_Z n).

End Decimal.

(* ------------------------------------------------------------------ *)
(** ** tracker/models.py *)

Module Models.
Import Clock.

Definition user_id := Z.

Record UserProfile : Type := mk_profile {
  notification_enabled : bool;
  google_calendar_enabled : bool
}.

(** The table of profiles, read through the one-to-one relation
    [user.profile]: the row of the user, or none. *)
Definition Profiles := user_id -> option UserProfile.

(** [hasattr(user, 'profile') and user.profile.google_calendar_enabled] *)
Definition calendar_enabled_for (profile : Profiles) (user : user_id) : bool :=
  match profile user with
  | Some p => google_calendar_enabled p
  | None => false
  end.

Record SleepSession : Type := mk_session {
  session_id : Z;
  session_user : user_id;
  sleep_time : option datetime;
  wake_time : option datetime;
  quality_rating : option Z;
  duration_hours : option Q;
  synced_to_calendar : bool;
  calendar_event_id : option string
}.

Inductive ReminderType : Type := bedtime | wake | log.

Record SleepReminder : Type := mk_reminder {
  reminder_id : Z;
  reminder_user : user_id;
  reminder_type : ReminderType;
  reminder_time : time;
  is_active : bool;
  last_sent : option datetime
}.

Inductive PeriodType : Type := daily | weekly | monthly.

Record SleepStatistics : Type := mk_statistics {
  stat_user : user_id;
  stat_date : date;
  period_type : PeriodType;
  total_sleep_hours : Q;
  average_sleep_hours : Q;
  average_quality : option Q;
  sessions_count : Z;
  goal_achievement_rate : option Q
}.

Definition set_duration_hours (d : option Q) (s : SleepSession) : SleepSession :=
  {| session_id := session_id s;
     session_user := session_user s;
     sleep_time := sleep_time s;
     wake_time := wake_time s;
     quality_rating := quality_rating s;
     duration_hours := d;
     synced_to_calendar := synced_to_calendar s;
     calendar_event_id := calendar_event_id s |}.

Definition set_calendar (synced : bool) (event_id : option string)
           (s : SleepSession) : SleepSession :=
  {| session_id := session_id s;
     session_user := session_user s;
     sleep_time := sleep_time s;
     wake_time := wake_time s;
     quality_rating := quality_rating s;
     duration_hours := duration_hours s;
     synced_to_calendar := synced;
     calendar_event_id := event_id |}.

Definition set_last_sent (t : option datetime) (r : SleepReminder) : SleepReminder :=
  {| reminder_id := reminder_id r;
     reminder_user := reminder_user r;
     reminder_type := reminder_type r;
     reminder_time := reminder_time r;
     is_active := is_active r;
     last_sent := t |}.

(** [round(duration.total_seconds() / 3600, 2)] *)
Definition hours_of (duration : timedelta) : Q :=
  PyFloat.round2 (PyFloat.truediv (PyFloat.total_seconds duration) 3600).

(** The body of [SleepSession.save] before [super().save()]: the duration
    is derived from the two timestamps when both are there (a datetime
    is always true in Python, so the test is for [None]). *)
Definition compute_duration (self : SleepSession) : SleepSession :=
  match sleep_time self, wake_time self with
  | Some sleep, Some wake_ =>
      let duration : timedelta := wake_ - sleep in
      set_duration_hours (Some (hours_of duration)) self
  | _, _ => self
  end.

(** The row with the instance's primary key is replaced, or the
    instance is inserted when there is none. *)
Definition write (self : SleepSession) (table : list SleepSession) : list SleepSession :=
  if existsb (fun r => Z.eqb (session_id r) (session_id self)) table
  then map (fun r => if Z.eqb (session_id r) (session_id self) then self else r) table
  else table ++ [self].

(** The columns [sleep_time] and [wake_time] are not nullable. *)
Definition not_null (self : SleepSession) : bool :=
  match sleep_time self, wake_time self with
  | Some _, Some _ => true
  | _, _ => false
  end.

(** [super().save()]: the store refuses a row with a null in a column
    that is not nullable, and is left as it was. *)
Definition store (self : SleepSession) (table : list SleepSession)
  : outcome (list SleepSession) :=
  if not_null self then Done (write self table) else Raised IntegrityError table.

(** [SleepSession.save] *)
Definition save (self : SleepSession) (table : list SleepSession)
  : outcome (list SleepSession) :=
  store (compute_duration self) table.

(** [SleepSession.objects.get(id=...)], on a table whose ids are unique. *)
Definition get (id : Z) (table : list SleepSession) : option SleepSession :=
  find (fun r => Z.eqb (session_id r) id) table.

(** [SleepReminder.save()] of a row read from the table. *)
Definition save_reminder (r : SleepReminder) (table : list SleepReminder) : list SleepReminder :=
  map (fun x => if Z.eqb (reminder_id x) (reminder_id r) then r else x) table.

(** *** The keywords of [SleepReminder.objects.filter] *)

(** The value a keyword is compared with. *)
Inductive Value : Type :=
| Str (s : string)
| Boolean (b : bool)
| Int (z : Z)
| TimeOfDay (t : time)
| Moment (t : option datetime).

Definition Value_eqb (a b : Value) : bool :=
  match a, b with
  | Str x, Str y => String.eqb x y
  | Boolean x, Boolean y => Bool.eqb x y
  | Int x, Int y => Z.eqb x y
  | TimeOfDay x, TimeOfDay y =>
      (hour x =? hour y) && (minute x =? minute y)
      && (second x =? second y) && (microsecond x =? microsecond y)
  | Moment (Some x), Moment (Some y) => Z.eqb x y
  | _, _ => false
  end.

Local Open Scope string_scope.

(** The value of [reminder_type] in the column. *)
Definition type_name (k : ReminderType) : string :=
  match k with
  | bedtime => "bedtime"
  | wake => "wake"
  | log => "log"
  end.

(** A keyword cut at each [__] ([LOOKUP_SEP]). *)
Fixpoint lookup_parts (part : string) (keyword : string) : list string :=
  match keyword with
  | EmptyString => [part]
  | String "_"%char (String "_"%char rest) => part :: lookup_parts "" rest
  | String c rest => lookup_parts (part ++ String c "") rest
  end.

(** What a keyword of [SleepReminder.objects.filter] reads of a row: its
    first part names a field of the model (of those the embedding
    keeps: [id], [user], [reminder_type], [reminder_time], [is_active],
    [last_sent]), the next a transform of that field ([hour], [minute]
    and [second] of a [TimeField]).  A keyword whose first part is no
    field of the model cannot be resolved: [filter] raises
    [FieldError]. *)
Definition resolve (keyword : string) : option (SleepReminder -> Value) :=
  match lookup_parts "" keyword with
  | ["id"] => Some (fun r => Int (reminder_id r))
  | ["user"] => Some (fun r => Int (reminder_user r))
  | ["reminder_type"] => Some (fun r => Str (type_name (reminder_type r)))
  | ["is_active"] => Some (fun r => Boolean (is_active r))
  | ["reminder_time"; "hour"] => Some (fun r => Int (hour (reminder_time r)))
  | ["reminder_time"; "minute"] => Some (fun r => Int (minute (reminder_time r)))
  | ["reminder_time"; "second"] => Some (fun r => Int (second (reminder_time r)))
  | ["reminder_time"] => Some (fun r => TimeOfDay (reminder_time r))
  | ["last_sent"] => Some (fun r => Moment (last_sent r))
  | _ => None
  end.

(** The test the keyword arguments of a [filter] call make, when all of
    them resolve. *)
Fixpoint conditions (kwargs : list (string * Value)) : option (SleepReminder -> bool) :=
  match kwargs with
  | [] => Some (fun _ => true)
  | (keyword, v) :: rest =>
      match resolve keyword, conditions rest with
      | Some column, Some others =>
          Some (fun r => Value_eqb (column r) v && others r)
      | _, _ => None
      end
  end.

(** [SleepReminder.objects.filter] with keyword arguments: the rows that meet every
    condition, or [None] where Django raises [FieldError]. *)
Definition filter_reminders (kwargs : list (string * Value)) (table : list SleepReminder)
  : option (list SleepReminder) :=
  match conditions kwargs with
  | Some test => Some (filter test table)
  | None => None
  end.

End Models.

(* ------------------------------------------------------------------ *)
(** ** tracker/notifications.py *)

Module Notifications.
Import Clock Models.

(** The [statistics] dictionary of the weekly report. *)
Record Payload : Type := mk_payload {
  avg_hours : Q;
  sessions : Z;
  avg_quality : Q;
  goal_achievement : Q
}.

(** One call of a method of [EmailNotificationService], with its
    arguments. *)
Inductive Message : Type :=
| BedtimeReminder (user : user_id) (bedtime_ : time)
| WakeReminder (user : user_id) (wake_time_ : time)
| LogReminder (user : user_id)
| WeeklyReport (user : user_id) (statistics : Payload).

Definition recipient (m : Message) : user_id :=
  match m with
  | BedtimeReminder u _ => u
  | WakeReminder u _ => u
  | LogReminder u => u
  | WeeklyReport u _ => u
  end.

(** The mail transport: what [email.send()] answers to the k-th message
    handed to it, the number of emails sent; [_send_email] turns an
    exception of the transport into 0. *)
Definition Transport := nat -> nat.

(** A message handed to the transport while the loop was at the row
    [origin], and what the transport answered. *)
Record Dispatch (R : Type) : Type := mk_dispatch {
  origin : R;
  message : Message;
  delivered : nat
}.

Arguments mk_dispatch {R} origin message delivered.
Arguments origin {R} d.
Arguments message {R} d.
Arguments delivered {R} d.

(** [EmailNotificationService._send_email], reached through one of the
    four [send_*] methods: the answer and the extended log. *)
Definition send_email {R : Type} (smtp : Transport) (outbox : list (Dispatch R))
           (at_row : R) (m : Message) : nat * list (Dispatch R) :=
  let answer := smtp (List.length outbox) in
  (answer, outbox ++ [mk_dispatch at_row m answer]).

(** Python's [if result:] on an int. *)
Definition truthy (n : nat) : bool := negb (Nat.eqb n 0).

End Notifications.

(* ------------------------------------------------------------------ *)
(** ** tracker/google_calendar.py *)

Module GoogleCalendar.
Import Models.

(** A request sent to the calendar API. *)
Inductive Request : Type :=
| EventsInsert (body : SleepSession)
| EventsUpdate (eventId : string) (body : SleepSession).

(** What [.execute()] does: it returns the event resource, of which the
    code reads [.get('id')], or it raises. *)
Inductive Response : Type :=
| Executed (id : option string)
| RaisesHttpError
| RaisesOther (msg : string).

(** What [get_service] does: it returns the service handle, it returns
    [None] ([build] raised [HttpError]), or it raises (no credentials
    file, the OAuth flow fails). *)
Inductive Handle : Type :=
| Service
| NoService
| ServiceRaises (msg : string).

Record API : Type := mk_api {
  get_service : UserProfile -> Handle;
  execute : Request -> Response
}.

(** A method returns a value or lets an exception through. *)
Inductive returned (A : Type) : Type :=
| Return (a : A)
| Raise (msg : string).

Arguments Return {A} a.
Arguments Raise {A} msg.

(** The session a request is about. *)
Definition body_of (rq : Request) : SleepSession :=
  match rq with
  | EventsInsert s => s
  | EventsUpdate _ s => s
  end.

(** The shared body of [create_sleep_event] and [update_sleep_event]:
    no service gives [None]; the event is built from the session, and
    [sleep_time.isoformat()] or [wake_time.isoformat()] on [None] raises
    an [AttributeError] that the method does not catch; an [HttpError]
    of the request is caught and gives [None]; the requests sent are
    logged. *)
Definition call (api : API) (user_profile : UserProfile) (rq : Request)
  : returned (option string) * list Request :=
  match get_service api user_profile with
  | NoService => (Return None, [])
  | ServiceRaises msg => (Raise msg, [])
  | Service =>
      if not_null (body_of rq)
      then
        match execute api rq with
        | Executed id => (Return id, [rq])
        | RaisesHttpError => (Return None, [rq])
        | RaisesOther msg => (Raise msg, [rq])
        end
      else (Raise "'NoneType' object has no attribute 'isoformat'", [])
  end.

Definition create_sleep_event (api : API) (user_profile : UserProfile)
           (sleep_session : SleepSession) :=
  call api user_profile (EventsInsert sleep_session).

Definition update_sleep_event (api : API) (user_profile : UserProfile)
           (event_id : string) (sleep_session : SleepSession) :=
  call api user_profile (EventsUpdate event_id sleep_session).

Definition is_insert (rq : Request) : bool :=
  match rq with
  | EventsInsert _ => true
  | EventsUpdate _ _ => false
  end.

End GoogleCalendar.

(* ------------------------------------------------------------------ *)
(** ** tracker/tasks.py *)

Module Tasks.
Import Clock Models Notifications GoogleCalendar.

(** *** The reminder scheduler *)

(** The state of one run of a reminder task: the reminder table, the
    mail log, the local variables [sent_count] and [result] ([None]
    while [result] is not bound yet), and the number of times the run
    has read the clock. *)
Record ReminderRun : Type := mk_run {
  reminders : list SleepReminder;
  outbox : list (Dispatch SleepReminder);
  sent_count : Z;
  result : option nat;
  clock_reads : nat
}.

(** [timezone.now()] *)
Definition now_ (reads : Reads) (st : ReminderRun) : datetime * ReminderRun :=
  (reads (clock_reads st),
   {| reminders := reminders st;
      outbox := outbox st;
      sent_count := sent_count st;
      result := result st;
      clock_reads := S (clock_reads st) |}).

(** [reminder.last_sent = timezone.now(); reminder.save(); sent_count += 1] *)
Definition mark_sent (reads : Reads) (reminder : SleepReminder) (st : ReminderRun)
  : ReminderRun :=
  let '(now, st1) := now_ reads st in
  {| reminders := save_reminder (set_last_sent (Some now) reminder) (reminders st1);
     outbox := outbox st1;
     sent_count := sent_count st1 + 1;
     result := result st1;
     clock_reads := clock_reads st1 |}.

(** [result = EmailNotificationService.send_...(...)] *)
Definition dispatch (smtp : Transport) (reminder : SleepReminder) (m : Message)
           (st : ReminderRun) : ReminderRun :=
  let '(answer, log') := send_email smtp (outbox st) reminder m in
  {| reminders := reminders st;
     outbox := log';
     sent_count := sent_count st;
     result := Some answer;
     clock_reads := clock_reads st |}.

(** [if result: ...] of the three loops. *)
Definition mark_if_sent (reads : Reads) (reminder : SleepReminder) (st : ReminderRun)
  : outcome ReminderRun :=
  match result st with
  | None => Raised (UnboundLocalError "result") st
  | Some answer => if truthy answer then Done (mark_sent reads reminder st) else Done st
  end.

(** The loop body of [send_bedtime_reminders].  The test [if result:]
    stands at the level of the first [if], after it: it also runs when
    the owner has notifications off, on the [result] of an earlier
    iteration, and raises when there is none. *)
Definition bedtime_body (profile : Profiles) (smtp : Transport) (reads : Reads)
           (reminder : SleepReminder) (st : ReminderRun) : outcome ReminderRun :=
  match profile (reminder_user reminder) with
  | None => Raised RelatedObjectDoesNotExist st
  | Some user_profile =>
      let st1 :=
        if notification_enabled user_profile
        then dispatch smtp reminder
               (BedtimeReminder (reminder_user reminder) (reminder_time reminder)) st
        else st in
      mark_if_sent reads reminder st1
  end.

(** [send_bedtime_reminders]: the fourth keyword of the filter is
    spelt [reminder_time_minute]. *)
Definition send_bedtime_reminders (profile : Profiles) (smtp : Transport)
           (reads : Reads) (table : list SleepReminder) : outcome ReminderRun :=
  let '(now, st) := now_ reads (mk_run table [] 0 None 0) in
  let current_time := time_of now in
  match filter_reminders
          [("reminder_type", Str "bedtime");
           ("is_active", Boolean true);
           ("reminder_time__hour", Int (hour current_time));
           ("reminder_time_minute", Int (minute current_time))]%string
          table with
  | None => Raised FieldError st
  | Some reminders => for_each (bedtime_body profile smtp reads) reminders st
  end.

(** The loop body of [send_wake_reminders]: here [if result:] is inside
    the first [if]. *)
Definition wake_body (profile : Profiles) (smtp : Transport) (reads : Reads)
           (reminder : SleepReminder) (st : ReminderRun) : outcome ReminderRun :=
  match profile (reminder_user reminder) with
  | None => Raised RelatedObjectDoesNotExist st
  | Some user_profile =>
      if notification_enabled user_profile
      then
        mark_if_sent reads reminder
          (dispatch smtp reminder
             (WakeReminder (reminder_user reminder) (reminder_time reminder)) st)
      else Done st
  end.

(** [send_wake_reminders]: the keywords of the filter are spelt
    [reminder_time_hour] and [reminder_time_minute]. *)
Definition send_wake_reminders (profile : Profiles) (smtp : Transport)
           (reads : Reads) (table : list SleepReminder) : outcome ReminderRun :=
  let '(now, st) := now_ reads (mk_run table [] 0 None 0) in
  let current_time := time_of now in
  match filter_reminders
          [("reminder_type", Str "wake");
           ("is_active", Boolean true);
           ("reminder_time_hour", Int (hour current_time));
           ("reminder_time_minute", Int (minute current_time))]%string
          table with
  | None => Raised FieldError st
  | Some reminders => for_each (wake_body profile smtp reads) reminders st
  end.

(** [sleep_time__date=d] *)
Definition slept_on (d : date) (s : SleepSession) : bool :=
  match sleep_time s with
  | Some t => date_of t =? d
  | None => false
  end.

(** [SleepSession.objects.filter(user=user, sleep_time__date=d)] *)
Definition sessions_on (user : user_id) (d : date) (table : list SleepSession)
  : list SleepSession :=
  filter (fun s => (session_user s =? user) && slept_on d s) table.

(** [queryset.exists()] *)
Definition exists_ {A : Type} (rows : list A) : bool :=
  match rows with
  | [] => false
  | _ :: _ => true
  end.

(** The loop body of [send_log_reminders]: the day before is taken
    from a read of the clock of its own. *)
Definition log_body (profile : Profiles) (smtp : Transport) (reads : Reads)
           (sleep_sessions : list SleepSession)
           (reminder : SleepReminder) (st : ReminderRun) : outcome ReminderRun :=
  match profile (reminder_user reminder) with
  | None => Raised RelatedObjectDoesNotExist st
  | Some user_profile =>
      if notification_enabled user_profile
      then
        let '(now, st1) := now_ reads st in
        let yesterday := minus_days (date_of now) 1 in
        let has_logged :=
          exists_ (sessions_on (reminder_user reminder) yesterday sleep_sessions) in
        if negb has_logged
        then mark_if_sent reads reminder
               (dispatch smtp reminder (LogReminder (reminder_user reminder)) st1)
        else Done st1
      else Done st
  end.

(** [send_log_reminders]: the keywords of the filter are spelt
    [reminder_time_hour] and [reminder_time_minute]. *)
Definition send_log_reminders (profile : Profiles) (smtp : Transport)
           (reads : Reads) (sleep_sessions : list SleepSession)
           (table : list SleepReminder) : outcome ReminderRun :=
  let '(now, st) := now_ reads (mk_run table [] 0 None 0) in
  let current_time := time_of now in
  match filter_reminders
          [("reminder_type", Str "log");
           ("is_active", Boolean true);
           ("reminder_time_hour", Int (hour current_time));
           ("reminder_time_minute", Int (minute current_time))]%string
          table with
  | None => Raised FieldError st
  | Some reminders =>
      for_each (log_body profile smtp reads sleep_sessions) reminders st
  end.

(** *** The calendar sync adapter *)

(** The string a run of [sync_sleep_to_calendar] returns. *)
Inductive SyncResult : Type :=
| NotEnabled
| Updated (event_id : option string)
| Created (event_id : string)
| FailedToSync
| NotFound (sleep_session_id : Z)
| ErrorSyncing (msg : string).

(** Python's truth value of a string: it is not empty. *)
Definition nonempty (s : string) : bool := negb (String.eqb s "").

(** What one run of [sync_sleep_to_calendar] leaves: the string it
    returns, the session table, and the requests it sent to the
    calendar API. *)
Record SyncRun : Type := mk_sync {
  returned_ : SyncResult;
  sessions_after : list SleepSession;
  sent : list Request
}.

(** The [try] block of [sync_sleep_to_calendar] with its two [except]
    clauses: [except Exception] also catches the missing profile and an
    exception of [save()]. *)
Definition sync_sleep_to_calendar (api : API) (profile : Profiles)
           (table : list SleepSession) (sleep_session_id : Z) : SyncRun :=
  match get sleep_session_id table with
  | None => mk_sync (NotFound sleep_session_id) table []
  | Some sleep_session =>
      match profile (session_user sleep_session) with
      | None => mk_sync (ErrorSyncing "User has no profile.") table []
      | Some user_profile =>
          if negb (google_calendar_enabled user_profile)
          then mk_sync NotEnabled table []
          else
            let create_new_event :=
              match create_sleep_event api user_profile sleep_session with
              | (Return (Some event_id), requests) =>
                  if nonempty event_id
                  then
                    match save (set_calendar true (Some event_id) sleep_session) table with
                    | Done table' => mk_sync (Created event_id) table' requests
                    | Raised _ _ =>
                        mk_sync (ErrorSyncing "NOT NULL constraint failed") table requests
                    end
                  else mk_sync FailedToSync table requests
              | (Return None, requests) => mk_sync FailedToSync table requests
              | (Raise msg, requests) => mk_sync (ErrorSyncing msg) table requests
              end in
            match calendar_event_id sleep_session with
            | Some stored =>
                if synced_to_calendar sleep_session && nonempty stored
                then
                  match update_sleep_event api user_profile stored sleep_session with
                  | (Return event_id, requests) => mk_sync (Updated event_id) table requests
                  | (Raise msg, requests) => mk_sync (ErrorSyncing msg) table requests
                  end
                else create_new_event
            | None => create_new_event
            end
      end
  end.

(** The text of the returned string (the session id of the
    not-found message is left out). *)
Definition render (r : SyncResult) : string :=
  match r with
  | NotEnabled => "Google Calendar not enabled for this user"
  | Updated (Some id) => "Updated calendar event: " ++ id
  | Updated None => "Updated calendar event: None"
  | Created id => "Created calendar event: " ++ id
  | FailedToSync => "Failed to sync to calendar"
  | NotFound _ => "Sleep session not found"
  | ErrorSyncing msg => "Error syncing to calendar: " ++ msg
  end.

(** The returns that report that the remote call did not go through:
    the [return] after the failed [if event_id:] and the [except]
    clauses. *)
Definition failure_signal (r : SyncResult) : bool :=
  match r with
  | FailedToSync | NotFound _ | ErrorSyncing _ => true
  | NotEnabled | Updated _ | Created _ => false
  end.

(** *** The statistics aggregator *)

Definition PeriodType_eqb (a b : PeriodType) : bool :=
  match a, b with
  | daily, daily => true
  | weekly, weekly => true
  | monthly, monthly => true
  | _, _ => false
  end.

(** The [defaults] dictionary of [update_or_create]: two decimals, a
    float or [None], and an int. *)
Record Defaults : Type := mk_defaults {
  d_total_sleep_hours : Q;
  d_average_sleep_hours : Q;
  d_average_quality : option spec_float;
  d_sessions_count : Z
}.

(** The lookup [user=..., date=..., period_type=...]. *)
Definition has_key (user : user_id) (d : date) (p : PeriodType)
           (r : SleepStatistics) : bool :=
  (stat_user r =? user) && (stat_date r =? d) && PeriodType_eqb (period_type r) p.

(** What the column [average_quality], a decimal with two places,
    holds for the float [avg_quality]. *)
Definition quality_column (avg_quality : option spec_float) : option Q :=
  match avg_quality with
  | Some x => Some (PyFloat.round2 x)
  | None => None
  end.

(** [setattr(obj, k, v) for k, v in defaults.items()] and [obj.save()]:
    the four metric fields, as their columns of two decimal places hold
    them; the key and [goal_achievement_rate] stay. *)
Definition apply_defaults (defaults : Defaults) (r : SleepStatistics) : SleepStatistics :=
  {| stat_user := stat_user r;
     stat_date := stat_date r;
     period_type := period_type r;
     total_sleep_hours := Decimal.two_places (d_total_sleep_hours defaults);
     average_sleep_hours := Decimal.two_places (d_average_sleep_hours defaults);
     average_quality := quality_column (d_average_quality defaults);
     sessions_count := d_sessions_count defaults;
     goal_achievement_rate := goal_achievement_rate r |}.

(** [SleepStatistics(user=..., date=..., period_type=..., **defaults)]
    saved: [goal_achievement_rate] takes its field default, null. *)
Definition create (user : user_id) (d : date) (p : PeriodType) (defaults : Defaults)
  : SleepStatistics :=
  {| stat_user := user;
     stat_date := d;
     period_type := p;
     total_sleep_hours := Decimal.two_places (d_total_sleep_hours defaults);
     average_sleep_hours := Decimal.two_places (d_average_sleep_hours defaults);
     average_quality := quality_column (d_average_quality defaults);
     sessions_count := d_sessions_count defaults;
     goal_achievement_rate := None |}.

(** [SleepStatistics.objects.update_or_create(user=..., date=...,
    period_type=..., defaults=...)]: [get] the row with the key; update
    it, or create it when there is none; [get] raises when there are
    several. *)
Definition update_or_create (user : user_id) (d : date) (p : PeriodType)
           (defaults : Defaults) (table : list SleepStatistics)
  : outcome (list SleepStatistics) :=
  match filter (has_key user d p) table with
  | [] => Done (table ++ [create user d p defaults])
  | [_] => Done (map (fun r => if has_key user d p r
                               then apply_defaults defaults r else r) table)
  | _ :: _ :: _ => Raised MultipleObjectsReturned table
  end.

(** [sum(s.duration_hours or 0 for s in sessions)] *)
Definition total_hours_of (sessions : list SleepSession) : Q :=
  fold_left (fun acc s => acc + match duration_hours s with
                                | Some h => h
                                | None => 0
                                end)%Q sessions 0%Q.

(** [sessions.filter(quality_rating__isnull=False)] *)
Definition rated (s : SleepSession) : bool :=
  match quality_rating s with
  | Some _ => true
  | None => false
  end.

(** [sum(s.quality_rating for s in quality_sessions)] *)
Definition ratings_sum (quality_sessions : list SleepSession) : Z :=
  fold_left (fun acc s => acc + match quality_rating s with
                                | Some q => q
                                | None => 0
                                end) quality_sessions 0.

(** [sessions.count()] *)
Definition count {A : Type} (rows : list A) : Z := Z.of_nat (List.length rows).

(** The computation both statistics tasks run on the selected
    sessions, from [total_hours = ...] to the [defaults] dictionary
    (the same lines in [calculate_daily_statistics] and in
    [calculate_weekly_statistics]): [avg_hours] is a decimal divided by
    an int, [avg_quality] an int divided by an int, a float. *)
Definition aggregate (sessions : list SleepSession) : Defaults :=
  let total_hours := total_hours_of sessions in
  let avg_hours := Decimal.divide total_hours (count sessions) in
  let quality_sessions := filter rated sessions in
  let avg_quality :=
    if exists_ quality_sessions
    then Some (PyFloat.int_truediv (ratings_sum quality_sessions)
                                   (count quality_sessions))
    else None in
  {| d_total_sleep_hours := total_hours;
     d_average_sleep_hours := avg_hours;
     d_average_quality := avg_quality;
     d_sessions_count := count sessions |}.

(** The state of one run of a statistics task. *)
Record StatsRun : Type := mk_stats_run {
  statistics : list SleepStatistics;
  stats_created : Z
}.

(** [User.objects.filter(...).distinct()]: the owners of the selected
    sessions, each once. *)
Definition distinct_users (selected : list SleepSession) : list user_id :=
  nodup Z.eq_dec (map session_user selected).

(** The loop body of both statistics tasks: [sessions] is the queryset
    of the user's sessions in the window. *)
Definition upsert_for (anchor : date) (p : PeriodType)
           (select : user_id -> list SleepSession)
           (user : user_id) (st : StatsRun) : outcome StatsRun :=
  let sessions := select user in
  if exists_ sessions
  then
    match update_or_create user anchor p (aggregate sessions) (statistics st) with
    | Done table' => Done (mk_stats_run table' (stats_created st + 1))
    | Raised e _ => Raised e st
    end
  else Done st.

Definition calculate_daily_statistics (now : datetime)
           (sleep_sessions : list SleepSession) (table : list SleepStatistics)
  : outcome StatsRun :=
  let yesterday := minus_days (date_of now) 1 in
  let users := distinct_users (filter (slept_on yesterday) sleep_sessions) in
  for_each
    (upsert_for yesterday daily (fun user => sessions_on user yesterday sleep_sessions))
    users (mk_stats_run table 0).

(** [sleep_time__date__gte=week_start, sleep_time__date__lte=week_end] *)
Definition slept_between (first last_ : date) (s : SleepSession) : bool :=
  match sleep_time s with
  | Some t => (first <=? date_of t) && (date_of t <=? last_)
  | None => false
  end.

Definition sessions_between (user : user_id) (first last_ : date)
           (table : list SleepSession) : list SleepSession :=
  filter (fun s => (session_user s =? user) && slept_between first last_ s) table.

Definition calculate_weekly_statistics (now : datetime)
           (sleep_sessions : list SleepSession) (table : list SleepStatistics)
  : outcome StatsRun :=
  let today := date_of now in
  let week_start := minus_days today (weekday today) in
  let week_end := plus_days week_start 6 in
  let users := distinct_users (filter (slept_between week_start week_end) sleep_sessions) in
  for_each
    (upsert_for week_start weekly
                (fun user => sessions_between user week_start week_end sleep_sessions))
    users (mk_stats_run table 0).

(** *** The weekly report *)

(** [float(x) if x else 0] on a nullable decimal. *)
Definition float_or_0 (x : option Q) : Q :=
  match x with
  | Some q => q
  | None => 0%Q
  end.

Definition payload_of (stat : SleepStatistics) : Payload :=
  {| avg_hours := average_sleep_hours stat;
     sessions := sessions_count stat;
     avg_quality := float_or_0 (average_quality stat);
     goal_achievement := float_or_0 (goal_achievement_rate stat) |}.

(** The state of one run of [send_weekly_reports]: the mail log and the
    local variables [sent_count] and [statistics] ([None] while it is
    not bound yet). *)
Record ReportRun : Type := mk_report_run {
  report_outbox : list (Dispatch SleepStatistics);
  report_sent_count : Z;
  statistics_var : option Payload
}.

(** The loop body of [send_weekly_reports].  Only the assignment of
    [statistics] is under [if ...notification_enabled]; the call of
    [send_weekly_report] follows for every row and raises when
    [statistics] has never been assigned. *)
Definition report_body (profile : Profiles) (smtp : Transport)
           (stat : SleepStatistics) (st : ReportRun) : outcome ReportRun :=
  match profile (stat_user stat) with
  | None => Raised RelatedObjectDoesNotExist st
  | Some user_profile =>
      let st1 :=
        if notification_enabled user_profile
        then mk_report_run (report_outbox st) (report_sent_count st)
                           (Some (payload_of stat))
        else st in
      match statistics_var st1 with
      | None => Raised (UnboundLocalError "statistics") st1
      | Some statistics =>
          let '(answer, log') :=
            send_email smtp (report_outbox st1) stat
                       (WeeklyReport (stat_user stat) statistics) in
          Done (mk_report_run log'
                  (if truthy answer
                   then report_sent_count st1 + 1 else report_sent_count st1)
                  (statistics_var st1))
      end
  end.

(** [SleepStatistics.objects.filter(date=week_start, period_type='weekly')] *)
Definition weekly_rows (week_start : date) (table : list SleepStatistics)
  : list SleepStatistics :=
  filter (fun r => (stat_date r =? week_start) && PeriodType_eqb (period_type r) weekly)
         table.

(** [today - timedelta(days=today.weekday() + 7)] *)
Definition last_monday (now : datetime) : date :=
  let today := date_of now in
  minus_days today (weekday today + 7).

Definition send_weekly_reports (profile : Profiles) (smtp : Transport)
           (now : datetime) (table : list SleepStatistics) : outcome ReportRun :=
  let stats := weekly_rows (last_monday now) table in
  for_each (report_body profile smtp) stats (mk_report_run [] 0 None).

End Tasks.

(* ------------------------------------------------------------------ *)
(** ** tracker/views.py *)

Module Views.
Import Clock Models GoogleCalendar Tasks.











End Views.

(* ------------------------------------------------------------------ *)
(** ** What the properties are stated with *)

Module Contracts.
Import Clock Models Notifications GoogleCalendar Tasks.

(** *** Numbers *)

(** A decimal with two places. *)
Definition two_decimals (q : Q) : Prop := exists n : Z, (q == n # 100)%Q.

(** [d] is [q] rounded to two decimal places: a decimal with two
    places, and none is nearer to [q]. *)
Definition nearest_hundredth (q d : Q) : Prop :=
  two_decimals d /\ (Qabs (d - q) <= 1 # 200)%Q.




(** The sum of a list of decimals. *)
Definition sum_Q (l : list Q) : Q := fold_right Qplus 0%Q l.

(** The mean of a list of integers. *)
Definition mean (l : list Z) : Q :=
  (inject_Z (fold_right Z.add 0%Z l) / inject_Z (Z.of_nat (List.length l)))%Q.

(** *** The duration calculator *)


(** *** The calendar sync adapter *)

(** The number of events a list of requests asks the calendar to
    create. *)
Definition inserts (requests : list Request) : nat :=
  List.length (filter is_insert requests).

(** The number of events the calendar [api] has created for a list of
    requests: the inserts it carried out. *)
Definition events_created (api : API) (requests : list Request) : nat :=
  List.length (filter (fun rq => is_insert rq
                                 && match execute api rq with
                                    | Executed _ => true
                                    | _ => false
                                    end) requests).

(** The sync claim as it is stated, for a session whose owner has the
    calendar integration enabled: a run on a session that is in the
    table and has no event id sends one insert and leaves the session
    marked as synced, with an event id, and a second run sends no
    further insert. *)
Definition syncs_once (api : API) (profile : Profiles)
           (table : list SleepSession) (sleep_session_id : Z) : Prop :=
  forall s, get sleep_session_id table = Some s ->
            calendar_event_id s = None ->
            calendar_enabled_for profile (session_user s) = true ->
            let run1 := sync_sleep_to_calendar api profile table sleep_session_id in
            let run2 := sync_sleep_to_calendar api profile (sessions_after run1)
                                               sleep_session_id in
            inserts (sent run1) = 1%nat
            /\ (exists s' event_id,
                   get sleep_session_id (sessions_after run1) = Some s'
                   /\ synced_to_calendar s' = true
                   /\ calendar_event_id s' = Some event_id)
            /\ inserts (sent run1 ++ sent run2) = 1%nat.

(** *** The weekly report *)

(** The owner of a statistics row has a profile. *)
Definition has_profile (profile : Profiles) (r : SleepStatistics) : bool :=
  match profile (stat_user r) with
  | Some _ => true
  | None => false
  end.

(** The owner of a statistics row has a profile with notifications
    enabled. *)
Definition notified (profile : Profiles) (r : SleepStatistics) : bool :=
  match profile (stat_user r) with
  | Some p => notification_enabled p
  | None => false
  end.

(** Among the rows visited earlier in a run, the last one whose owner
    has notifications enabled. *)
Definition last_notified (profile : Profiles)
           (earlier : list SleepStatistics) : option SleepStatistics :=
  find (notified profile) (rev earlier).

(** *** The statistics aggregator *)

(** The keys of a statistics table. *)
Definition key_of (r : SleepStatistics) : user_id * date * PeriodType :=
  (stat_user r, stat_date r, period_type r).

(** The uniqueness constraint [unique_together = ['user', 'date',
    'period_type']]. *)
Definition unique_keys (table : list SleepStatistics) : Prop :=
  NoDup (map key_of table).

(** The rows of a table under one key. *)
Definition rows_at (user : user_id) (d : date) (p : PeriodType)
           (table : list SleepStatistics) : list SleepStatistics :=
  filter (has_key user d p) table.

(** The row [update_or_create] leaves under a key, from the rows found
    under it: the new row, or the found row with the four metric fields
    overwritten. *)
Definition upserted (user : user_id) (d : date) (p : PeriodType)
           (defaults : Defaults) (found : list SleepStatistics) : SleepStatistics :=
  match found with
  | [] => create user d p defaults
  | r :: _ => apply_defaults defaults r
  end.

(** The field [goal_achievement_rate] of the row found under a key,
    null when there is no row. *)
Definition goal_rate_at (found : list SleepStatistics) : option Q :=
  match found with
  | [] => None
  | r :: _ => goal_achievement_rate r
  end.

(** The four metric fields of a row. *)
Definition metrics (r : SleepStatistics) : Q * Q * option Q * Z :=
  (total_sleep_hours r, average_sleep_hours r, average_quality r, sessions_count r).

(** The duration of each session, 0 where it is missing. *)
Definition durations (sessions : list SleepSession) : list Q :=
  map (fun s => match duration_hours s with
                | Some h => h
                | None => 0%Q
                end) sessions.

(** The quality ratings of the sessions that have one. *)
Fixpoint ratings (sessions : list SleepSession) : list Z :=
  match sessions with
  | [] => []
  | s :: rest =>
      match quality_rating s with
      | Some q => q :: ratings rest
      | None => ratings rest
      end
  end.

(** The loop of a statistics task over the users [users]. *)
Definition stats_loop (anchor : date) (p : PeriodType)
           (select : user_id -> list SleepSession) (users : list user_id)
           (st : StatsRun) : outcome StatsRun :=
  for_each (upsert_for anchor p select) users st.

(** The users of [users] for whom the loop body reaches
    [update_or_create]. *)
Definition upserts (select : user_id -> list SleepSession) (users : list user_id) : Z :=
  count (filter (fun u => exists_ (select u)) users).

(** The anchor dates of the two statistics tasks at the instant
    [now]. *)
Definition yesterday_of (now : datetime) : date := minus_days (date_of now) 1.

Definition week_start_of (now : datetime) : date :=
  minus_days (date_of now) (weekday (date_of now)).

Definition week_end_of (now : datetime) : date := plus_days (week_start_of now) 6.

(** The sessions each task selects for a user. *)
Definition daily_selection (now : datetime) (sleep_sessions : list SleepSession)
           (user : user_id) : list SleepSession :=
  sessions_on user (yesterday_of now) sleep_sessions.

Definition weekly_selection (now : datetime) (sleep_sessions : list SleepSession)
           (user : user_id) : list SleepSession :=
  sessions_between user (week_start_of now) (week_end_of now) sleep_sessions.

(** The run ended without raising and left the one row [row] under the
    key. *)
Definition leaves_row (run : outcome StatsRun) (user : user_id) (d : date)
           (p : PeriodType) (row : SleepStatistics) : Prop :=
  exists table1 n,
    run = Done (mk_stats_run table1 n) /\ rows_at user d p table1 = [row].

(** What a statistics run does to the table it started from, [table]:
    it ends without raising; under the key of every user with selected
    sessions it leaves one row, whose four metric fields are those of a
    row made afresh from those sessions, whatever the key held, and
    whose [goal_achievement_rate] is the one the key held before, null
    when it held no row; under every other key it leaves what was
    there. *)
Definition overwrites_metrics_only (run : outcome StatsRun) (anchor : date)
           (p : PeriodType) (select : user_id -> list SleepSession)
           (table : list SleepStatistics) : Prop :=
  exists table1 n,
    run = Done (mk_stats_run table1 n)
    /\ (forall user, select user <> [] ->
           exists row,
             rows_at user anchor p table1 = [row]
             /\ goal_achievement_rate row = goal_rate_at (rows_at user anchor p table)
             /\ metrics row = metrics (create user anchor p (aggregate (select user))))
    /\ (forall user d' p',
           ~ (select user <> [] /\ d' = anchor /\ p' = p) ->
           rows_at user d' p' table1 = rows_at user d' p' table).

(** Sessions as the store holds them: every duration is a decimal with
    two places, and they sum to less than 10^20 hours either way. *)
Definition as_stored (sessions : list SleepSession) : Prop :=
  (forall d, In d (durations sessions) -> two_decimals d)
  /\ (Qabs (sum_Q (durations sessions)) <= inject_Z (10 ^ 20))%Q.

(** The totals of the statistics claim, of a row against the sessions
    selected for it: the count is their number; and, for sessions as
    the store holds them, the total is the sum of their durations and
    the average is that total divided by their number, at the two
    decimal places of its column, ties to even. *)
Definition totals_of (selected : list SleepSession) (row : SleepStatistics) : Prop :=
  sessions_count row = Z.of_nat (List.length selected)
  /\ (as_stored selected ->
      (total_sleep_hours row == sum_Q (durations selected))%Q
      /\ nearest_hundredth
           (total_sleep_hours row / inject_Z (Z.of_nat (List.length selected)))
           (average_sleep_hours row)
      /\ (average_sleep_hours row
          == Decimal.two_places
               (total_sleep_hours row / inject_Z (Z.of_nat (List.length selected))))%Q).

(** The average quality of the statistics claim as it is stated: the
    mean of the ratings there are, null when there is none. *)
Definition quality_is_mean (selected : list SleepSession) (row : SleepStatistics) : Prop :=
  match ratings selected with
  | [] => average_quality row = None
  | _ :: _ => exists q, average_quality row = Some q
                        /\ (q == mean (ratings selected))%Q
  end.

(** Ratings as the model admits them and a store can hold them: each
    between 1 and 5, fewer than 10^12 of them. *)
Definition rated_1_to_5 (selected : list SleepSession) : Prop :=
  (forall r, In r (ratings selected) -> 1 <= r <= 5)
  /\ Z.of_nat (List.length (ratings selected)) < 10 ^ 12.

(** The average quality as the column holds it: the mean of the
    ratings there are at two decimal places, null when there is
    none. *)
Definition quality_is_rounded_mean (selected : list SleepSession)
           (row : SleepStatistics) : Prop :=
  match ratings selected with
  | [] => average_quality row = None
  | _ :: _ => exists q, average_quality row = Some q
                        /\ nearest_hundredth (mean (ratings selected)) q
  end.

End Contracts.

(* ------------------------------------------------------------------ *)
(** ** What the further properties are stated with *)

Module Laws.
Import Clock Models Notifications GoogleCalendar Tasks Contracts.

(** The window of the weekly task, as a test on sessions. *)
Definition in_week (now : datetime) : SleepSession -> bool :=
  slept_between (week_start_of now) (week_end_of now).

(** The window of the daily task. *)
Definition on_yesterday (now : datetime) : SleepSession -> bool :=
  slept_on (yesterday_of now).

(** The owners the loop of a statistics task visits for a window. *)
Definition owners_in (window : SleepSession -> bool)
           (sleep_sessions : list SleepSession) : list user_id :=
  distinct_users (filter window sleep_sessions).

(** The table a run left, whether it ended or raised. *)
Definition table_after (run : outcome StatsRun) : list SleepStatistics :=
  statistics (final run).

(** The transport accepted the message. *)
Definition accepted {R : Type} (d : Dispatch R) : bool := truthy (delivered d).

(** [p] holds of the [fuel] integers from [z] on. *)
Fixpoint all_from (fuel : nat) (z : Z) (p : Z -> bool) : bool :=
  match fuel with
  | O => true
  | S rest => p z && all_from rest (z + 1) p
  end.

(** The duration [save] computes for a timedelta of [m] minutes is the
    exact quotient [m / 60] at two decimal places. *)
Definition exact_on_minutes (m : Z) : bool :=
  let h := hours_of (m * us_per_minute) in
  (Qnum h =? Qnum (Decimal.two_places (m # 60))) && Pos.eqb (Qden h) 100.



(** The row the store holds for the statistics of a selection: the
    row made from its aggregates. *)
Definition stored_row (sessions : list SleepSession) : SleepStatistics :=
  create 0 0 daily (aggregate sessions).

(** The first weekly row of a list whose owner has no profile, with
    the rows before it. *)
Fixpoint until_no_profile (profile : Profiles) (rows : list SleepStatistics)
  : list SleepStatistics * option SleepStatistics :=
  match rows with
  | [] => ([], None)
  | r :: rest =>
      if has_profile profile r
      then let '(before, stop) := until_no_profile profile rest in (r :: before, stop)
      else ([], Some r)
  end.

End Laws.

(* ------------------------------------------------------------------ *)
(** ** What the proofs about binary64 are stated with *)

Module Binary64.

(** What a location says of a remainder [r] of a division by [m]:
    where [r / m] lies against one half. *)
Definition located (l : location) (r m : Z) : Prop :=
  match l with
  | loc_Exact => r = 0
  | loc_Inexact Lt => 0 < r /\ 2 * r < m
  | loc_Inexact Eq => 2 * r = m
  | loc_Inexact Gt => m < 2 * r
  end.

(** The end of [binary_round_aux]: a mantissa that the rounding has
    carried to 2^53 is brought back to 53 bits. *)
Definition renormalized (sx : bool) (mr e : Z) : spec_float :=
  let '(mrs, e') := shr_fexp PyFloat.prec PyFloat.emax mr e loc_Exact in
  match shr_m mrs with
  | Z0 => S754_zero sx
  | Z.pos m =>
      if e' <=? PyFloat.emax - PyFloat.prec
      then S754_finite sx m e' else S754_infinity sx
  | Z.neg _ => S754_nan
  end.

End Binary64.

(* ------------------------------------------------------------------ *)
(** ** Concrete data the properties are tried on *)

Module Examples.
Import Clock Models Notifications GoogleCalendar Tasks.

(** Day 19000 is 2022-01-08, a Saturday. *)
Definition evening : datetime := at_ 19000 22 0.
Definition morning : datetime := at_ 19001 6 0.

(** A night from 22:00 to 06:00. *)
Definition night : SleepSession :=
  mk_session 1 7 (Some evening) (Some morning) (Some 4) None false None.




(** A session that is already on the calendar. *)
Definition on_calendar : SleepSession :=
  mk_session 3 7 (Some evening) (Some morning) None (Some (8 # 1)) true (Some "evt-1"%string).

Definition calendar_on : Profiles := fun _ => Some (mk_profile true true).
Definition calendar_off : Profiles := fun _ => Some (mk_profile true false).

(** A calendar that accepts every request and names every event
    [evt-1]. *)
Definition calendar_up : API :=
  mk_api (fun _ => Service) (fun _ => Executed (Some "evt-1"%string)).

(** A calendar that carries out every request and answers without an
    event id. *)
Definition calendar_no_id : API :=
  mk_api (fun _ => Service) (fun _ => Executed None).

(** A calendar that answers every request with an HTTP error. *)
Definition calendar_down : API :=
  mk_api (fun _ => Service) (fun _ => RaisesHttpError).

(** Day 19002 is 2022-01-10, a Monday; the Monday before is day
    18995. *)
Definition monday_morning : datetime := at_ 19002 8 0.

(** Users 1 and 3 have notifications on, user 2 has them off. *)
Definition quiet_2 : Profiles :=
  fun u => Some (mk_profile (negb (u =? 2)) false).

(** The same, but user 3 has no profile. *)
Definition quiet_2_without_3 : Profiles :=
  fun u => if u =? 3 then None else quiet_2 u.

Definition week_of (u : user_id) (avg : Q) (n : Z) : SleepStatistics :=
  mk_statistics u 18995 weekly (avg * inject_Z n) avg None n None.

(** Three sessions of user 7 on day 19001, of 7.5, 8 and 6.5 hours,
    rated 3, not rated and rated 5, as [save] stores them. *)
Definition nap (id : Z) (from_h from_m to_h to_m : Z) (rating : option Z)
  : SleepSession :=
  compute_duration
    (mk_session id 7 (Some (at_ 19001 from_h from_m)) (Some (at_ 19001 to_h to_m))
                rating None false None).

Definition three_sessions : list SleepSession :=
  [nap 11 0 0 7 30 (Some 3); nap 12 8 0 16 0 None; nap 13 17 0 23 30 (Some 5)].

(** Three sessions of user 7 on day 19001, rated 4, 3 and 4. *)
Definition three_rated : list SleepSession :=
  [nap 21 0 0 7 30 (Some 4); nap 22 8 0 16 0 (Some 3); nap 23 17 0 23 30 (Some 4)].

(** Day 19002, 03:00: the daily statistics run for day 19001. *)
Definition next_night : datetime := at_ 19002 3 0.

(** A statistics table that already holds a row for user 7 and day
    19001, with figures of an earlier state of the sessions and a goal
    achievement rate of 80, and a row of user 8. *)
Definition stale_table : list SleepStatistics :=
  [mk_statistics 7 19001 daily (5 # 1) (5 # 1) None 1 (Some (80 # 1));
   mk_statistics 8 19001 daily (6 # 1) (6 # 1) (Some (2 # 1)) 1 None].

(** Bedtime reminders at 22:00 for users 1, 2 and 3, and a wake
    reminder at 06:00 for user 1. *)
Definition at_22 : time := mk_time 22 0 0 0.
Definition at_06 : time := mk_time 6 0 0 0.

Definition reminder_table : list SleepReminder :=
  [mk_reminder 1 1 bedtime at_22 true None;
   mk_reminder 2 2 bedtime at_22 true None;
   mk_reminder 3 3 bedtime at_22 true None;
   mk_reminder 4 1 wake at_06 true None].

(** The first message is accepted, every later one refused. *)
Definition smtp_first_only : Transport :=
  fun k => match k with
           | O => 1%nat
           | S _ => 0%nat
           end.

(** The clock of a run that reads [now] at each of its reads. *)
Definition always (now : datetime) : Reads := fun _ => now.

(** A log reminder at 09:00 for user 7, who logged the night of day
    19000. *)
Definition log_reminder : SleepReminder :=
  mk_reminder 5 7 log (mk_time 9 0 0 0) true None.

Definition nine_next_day : datetime := at_ 19001 9 0.

(** Every message is accepted. *)
Definition smtp_up : Transport := fun _ => 1%nat.

End Examples.

(* ================================================================== *)
(** * Properties *)

Import Clock Models Notifications GoogleCalendar Tasks Contracts Examples.

(* ------------------------------------------------------------------ *)
(** ** Numbers *)


Section Nearest.
Import PyFloat Decimal.

(** [div_half_even a b] is an integer nearest [a / b]. *)
Lemma div_half_even_near (a b : Z) :
  0 < b -> - b <= 2 * (div_half_even a b * b - a) <= b.
Proof.
  intros Hb. unfold div_half_even.
  pose proof (Z.div_mod a b ltac:(lia)) as Hdm.
  pose proof (Z.mod_pos_bound a b Hb) as Hr.
  generalize dependent (a mod b). generalize dependent (a / b). intros q r Hdm Hr.
  destruct (Z.compare_spec (2 * r) b) as [E|E|E].
  - subst a. destruct (Z.even q); cbv iota.
    + replace (q * b - (b * q + r)) with (- r) by ring. lia.
    + replace ((q + 1) * b - (b * q + r)) with (b - r) by ring. lia.
  - cbv iota. subst a.
    replace (q * b - (b * q + r)) with (- r) by ring. lia.
  - cbv iota. subst a.
    replace ((q + 1) * b - (b * q + r)) with (b - r) by ring. lia.
Qed.

(** It is the only one when [a / b] is not halfway between two
    integers. *)
Lemma div_half_even_only (a b j : Z) :
  0 < b -> - b < 2 * (j * b - a) < b -> div_half_even a b = j.
Proof.
  intros Hb Hj. pose proof (div_half_even_near a b Hb) as Hn. nia.
Qed.

(** Scaling numerator and denominator changes nothing. *)
Lemma div_half_even_scale (a b c : Z) :
  0 < b -> 0 < c -> div_half_even (c * a) (c * b) = div_half_even a b.
Proof.
  intros Hb Hc. unfold div_half_even.
  rewrite Z.div_mul_cancel_l by lia.
  rewrite Z.mul_mod_distr_l by lia.
  replace (2 * (c * (a mod b))) with (c * (2 * (a mod b))) by ring.
  rewrite <- Zmult_compare_compat_l by lia. reflexivity.
Qed.

Lemma two_places_near (q : Q) : nearest_hundredth q (two_places q).
Proof.
  split.
  - eexists. reflexivity.
  - unfold two_places. destruct q as [n d]. cbn [Qnum Qden].
    pose proof (div_half_even_near (n * 100) (Z.pos d) ltac:(lia)) as H.
    apply Qabs_Qle_condition. unfold Qle, Qminus, Qplus, Qopp. cbn [Qnum Qden]. nia.
Qed.

Lemma two_places_only (q : Q) (j : Z) :
  (Qabs ((j # 100) - q) < 1 # 200)%Q -> two_places q = j # 100.
Proof.
  intros H. unfold two_places. f_equal. destruct q as [n d]. cbn [Qnum Qden].
  apply div_half_even_only; [lia|].
  apply Qabs_Qlt_condition in H. unfold Qlt, Qminus, Qplus, Qopp in H. cbn [Qnum Qden] in H. nia.
Qed.

Lemma two_places_proper (q q' : Q) : (q == q')%Q -> two_places q = two_places q'.
Proof.
  intros H. unfold two_places. f_equal. unfold Qeq in H.
  destruct q as [n d], q' as [n' d']. cbn [Qnum Qden] in *.
  rewrite <- (div_half_even_scale (n * 100) (Z.pos d) (Z.pos d')) by lia.
  rewrite <- (div_half_even_scale (n' * 100) (Z.pos d') (Z.pos d)) by lia.
  f_equal; nia.
Qed.

(** A decimal with two places is kept as it is. *)
Lemma two_places_exact (q : Q) : two_decimals q -> (two_places q == q)%Q.
Proof.
  intros [n Hn]. rewrite (two_places_proper _ _ Hn). rewrite Hn.
  rewrite (two_places_only (n # 100) n); [reflexivity|].
  setoid_replace ((n # 100) - (n # 100))%Q with 0%Q by ring. reflexivity.
Qed.


(** Rounding to two places does not pass a decimal with two places. *)
Lemma nearest_hundredth_above (q d lo : Q) :
  nearest_hundredth q d -> two_decimals lo -> (lo <= q)%Q -> (lo <= d)%Q.
Proof.
  intros [[n Hn] Hd] [m Hm] Hle. rewrite Hn in *. rewrite Hm in *.
  apply Qabs_Qle_condition in Hd.
  destruct (Z_lt_le_dec n m) as [Hlt | Hge].
  - exfalso. assert ((n # 100) <= (m # 100) - (1 # 100))%Q as H.
    { unfold Qle, Qminus, Qplus, Qopp. cbn [Qnum Qden]. lia. }
    lra.
  - unfold Qle. cbn [Qnum Qden]. lia.
Qed.

Lemma nearest_hundredth_below (q d hi : Q) :
  nearest_hundredth q d -> two_decimals hi -> (q <= hi)%Q -> (d <= hi)%Q.
Proof.
  intros [[n Hn] Hd] [m Hm] Hle. rewrite Hn in *. rewrite Hm in *.
  apply Qabs_Qle_condition in Hd.
  destruct (Z_lt_le_dec m n) as [Hlt | Hge].
  - exfalso. assert ((m # 100) + (1 # 100) <= (n # 100))%Q as H.
    { unfold Qle, Qplus. cbn [Qnum Qden]. lia. }
    lra.
  - unfold Qle. cbn [Qnum Qden]. lia.
Qed.

End Nearest.


Section DecimalDigits.
Import PyFloat Decimal.

Lemma log2_tenth (n : Z) : 10 <= n -> Z.log2 (n / 10) < Z.log2 n.
Proof.
  intros Hn.
  assert (0 < n / 10) as Hpos by (apply Z.div_str_pos; lia).
  assert (2 * (n / 10) <= n) as Hle.
  { pose proof (Z.mul_div_le n 10 ltac:(lia)). lia. }
  apply Z.log2_le_mono in Hle. rewrite Z.log2_double in Hle by assumption. lia.
Qed.

Lemma digits_from_bounds (fuel : nat) :
  forall n, 0 < n -> Z.log2 n < Z.of_nat fuel ->
            1 <= digits_from fuel n
            /\ 10 ^ (digits_from fuel n - 1) <= n < 10 ^ digits_from fuel n.
Proof.
  induction fuel as [|fuel IH]; intros n Hn Hlog.
  - pose proof (Z.log2_nonneg n). lia.
  - cbn [digits_from]. destruct (Z.ltb_spec n 10) as [Hlt | Hge].
    + split; [lia|]. change (10 ^ (1 - 1)) with 1. change (10 ^ 1) with 10. lia.
    + assert (0 < n / 10) as Hpos by (apply Z.div_str_pos; lia).
      pose proof (log2_tenth n Hge) as Hl.
      destruct (IH (n / 10) Hpos ltac:(lia)) as (H1 & Hlo & Hhi).
      set (d := digits_from fuel (n / 10)) in *.
      split; [lia|].
      replace (1 + d - 1) with (Z.succ (d - 1)) by lia.
      replace (1 + d) with (Z.succ d) by lia.
      rewrite !Z.pow_succ_r by lia.
      pose proof (Z.mul_div_le n 10 ltac:(lia)).
      pose proof (Z.mul_succ_div_gt n 10 ltac:(lia)). lia.
Qed.

Lemma digits_bounds (n : Z) :
  0 < n -> 1 <= digits n /\ 10 ^ (digits n - 1) <= n < 10 ^ digits n.
Proof.
  intros Hn. unfold digits. apply digits_from_bounds; [assumption|].
  pose proof (Z.log2_nonneg n). rewrite Nat2Z.inj_succ, Z2Nat.id; lia.
Qed.

(** [adjusted a b] does not overshoot: [10 ^ adjusted a b <= a / b]. *)
Lemma adjusted_below (a b : Z) :
  0 < a -> 0 < b ->
  (0 <= adjusted a b /\ b * 10 ^ adjusted a b <= a)
  \/ (adjusted a b < 0 /\ b <= a * 10 ^ (- adjusted a b)).
Proof.
  intros Ha Hb.
  destruct (digits_bounds a Ha) as (Ha1 & Halo & _).
  destruct (digits_bounds b Hb) as (Hb1 & _ & Hbhi).
  unfold adjusted. set (da := digits a) in *. set (db := digits b) in *.
  destruct (Z.leb_spec 0 (da - db)) as [He | He].
  - destruct (Z.leb_spec (b * 10 ^ (da - db)) a) as [Hle | Hgt].
    + left. split; assumption.
    + destruct (Z.eq_dec (da - db) 0) as [E0 | E0].
      * right. split; [lia|]. rewrite E0. change (- (0 - 1)) with 1.
        change (10 ^ 1) with 10.
        assert (10 ^ db = 10 ^ Z.succ (da - 1)) as E by (f_equal; lia).
        rewrite Z.pow_succ_r in E by lia. lia.
      * left. split; [lia|].
        assert (10 ^ (da - 1) = 10 ^ db * 10 ^ (da - db - 1)) as E
          by (rewrite <- Z.pow_add_r by lia; f_equal; lia).
        assert (0 < 10 ^ (da - db - 1)) by (apply Z.pow_pos_nonneg; lia).
        nia.
  - destruct (Z.leb_spec b (a * 10 ^ (- (da - db)))) as [Hle | Hgt].
    + right. split; assumption.
    + right. split; [lia|].
      assert (10 ^ db = 10 ^ (da - 1) * 10 ^ (- (da - db - 1))) as E
        by (rewrite <- Z.pow_add_r by lia; f_equal; lia).
      assert (0 < 10 ^ (- (da - db - 1))) by (apply Z.pow_pos_nonneg; lia).
      nia.
Qed.

End DecimalDigits.


Section DecimalRounding.
Import PyFloat Decimal.

(** The 28 digits of a positive value below 10^25: the value is kept
    to a power of ten [P] of at least 1000 in the denominator, to the
    nearest, and [P] is large against the value. *)
Lemma round_sig_small (q : Q) (n : positive) (d : positive) :
  Qred q = Z.pos n # d ->
  Z.pos n < 10 ^ 25 * Z.pos d ->
  exists P c m,
    0 < P /\ P = 1000 * m /\ 0 < m
    /\ round_sig q = c # Z.to_pos P
    /\ c = div_half_even (Z.pos n * P) (Z.pos d)
    /\ 10 ^ 27 * Z.pos d <= Z.pos n * P.
Proof.
  intros Hred Hsmall. unfold round_sig. rewrite Hred. cbn [Qnum Qden Z.abs].
  set (e := adjusted (Z.pos n) (Z.pos d)).
  assert (e <= 24) as He.
  { destruct (Z_le_gt_dec e 24) as [H | H]; [assumption | exfalso].
    pose proof (adjusted_below (Z.pos n) (Z.pos d) ltac:(lia) ltac:(lia)) as Hb.
    fold e in Hb. destruct Hb as [[_ Hlo] | [Hneg _]]; [|lia].
    assert (10 ^ 25 <= 10 ^ e) by (apply Z.pow_le_mono_r; lia). nia. }
  change (prec - 1) with 27.
  destruct (Z.leb_spec 0 (e - 27)) as [H | _]; [lia|].
  exists (10 ^ (- (e - 27))), (div_half_even (Z.pos n * 10 ^ (- (e - 27))) (Z.pos d)),
    (10 ^ (24 - e)).
  assert (0 < 10 ^ (24 - e)) as Hm by (apply Z.pow_pos_nonneg; lia).
  assert (10 ^ (- (e - 27)) = 1000 * 10 ^ (24 - e)) as HP.
  { change 1000 with (10 ^ 3). rewrite <- Z.pow_add_r by lia. f_equal. lia. }
  split; [lia|]. split; [exact HP|]. split; [exact Hm|].
  split; [reflexivity|]. split; [reflexivity|].
  pose proof (adjusted_below (Z.pos n) (Z.pos d) ltac:(lia) ltac:(lia)) as Hb.
  fold e in Hb. destruct Hb as [[Hpos Hlo] | [Hneg Hlo]].
  - assert (10 ^ 27 = 10 ^ e * 10 ^ (- (e - 27))) as E
      by (rewrite <- Z.pow_add_r by lia; f_equal; lia).
    rewrite E. assert (0 < 10 ^ (- (e - 27))) by lia. nia.
  - assert (10 ^ (- (e - 27)) = 10 ^ 27 * 10 ^ (- e)) as E
      by (rewrite <- Z.pow_add_r by lia; f_equal; lia).
    rewrite E. nia.
Qed.

(** Rounding to 28 digits is symmetric about zero. *)
Lemma round_sig_opp (q : Q) : round_sig (- q) = Qopp (round_sig q).
Proof.
  unfold round_sig. rewrite Qred_opp.
  destruct (Qred q) as [[|p|p] d]; cbn [Qopp Qnum Qden Z.opp Z.abs]; try reflexivity.
  match goal with
  | |- ?v = Qopp (Qopp ?v) =>
      destruct v as [a b]; unfold Qopp; cbn [Qnum Qden];
      now rewrite Z.opp_involutive
  end.
Qed.

Lemma div_half_even_opp (a b : Z) :
  0 < b -> div_half_even (- a) b = - div_half_even a b.
Proof.
  intros Hb. unfold div_half_even.
  pose proof (Z.div_mod a b ltac:(lia)) as Hdm.
  pose proof (Z.mod_pos_bound a b Hb) as Hr.
  pose proof (Z.div_mod (- a) b ltac:(lia)) as Hdm'.
  pose proof (Z.mod_pos_bound (- a) b Hb) as Hr'.
  generalize dependent (a mod b). generalize dependent (a / b).
  generalize dependent (- a mod b). generalize dependent (- a / b).
  intros q' r' Hdm' Hr' q r Hdm Hr.
  assert (b * (q + q') + (r + r') = 0) as Hsum by lia.
  assert (q + q' = 0 \/ q + q' = -1) as Hq by nia.
  assert ((r = 0 /\ r' = 0 /\ q' = - q) \/ (0 < r /\ r' = b - r /\ q' = - q - 1))
    as [(-> & -> & ->) | (Hpos & -> & ->)] by nia.
  - destruct (Z.compare_spec (2 * 0) b); lia.
  - destruct (Z.compare_spec (2 * r) b) as [C|C|C];
      destruct (Z.compare_spec (2 * (b - r)) b) as [C'|C'|C']; try lia.
    replace (- q - 1) with (- (q + 1)) by lia.
    rewrite Z.even_opp, Z.even_add. cbn [Z.even].
    destruct (Z.even q); cbn [Bool.eqb]; lia.
Qed.

Lemma two_places_opp (q : Q) : two_places (- q) = Qopp (two_places q).
Proof.
  unfold two_places. destruct q as [n d]. cbn [Qopp Qnum Qden].
  rewrite Z.mul_opp_l. rewrite div_half_even_opp by lia. reflexivity.
Qed.

End DecimalRounding.


Section DivideAndStore.
Import PyFloat Decimal.

Lemma div_half_even_cross (a b a' b' : Z) :
  0 < b -> 0 < b' -> a * b' = a' * b -> div_half_even a b = div_half_even a' b'.
Proof.
  intros Hb Hb' H.
  rewrite <- (div_half_even_scale a b b') by lia.
  rewrite <- (div_half_even_scale a' b' b) by lia.
  f_equal; lia.
Qed.

(** The two places of a column do not see the 28 digits of the
    context: a positive quotient of a decimal with two places by an
    int, below 10^23, rounds to the same hundredth before and after. *)
Lemma two_places_round_sig_pos (q : Q) (n d : positive) (N k : Z) :
  Qred q = Z.pos n # d ->
  Z.pos n * (100 * k) = N * Z.pos d ->
  0 < k -> N < 10 ^ 25 ->
  two_places (round_sig q) = two_places q.
Proof.
  intros Hred Hq Hk HN.
  assert (Z.gcd (Z.pos n) (Z.pos d) = 1) as Hgcd.
  { pose proof (gcd_Qred q) as H. now rewrite Hred in H. }
  assert (0 < N) as HNpos by nia.
  assert (Z.pos n <= N) as Hn.
  { apply Z.divide_pos_le; [assumption|].
    apply Z.gauss with (m := Z.pos d).
    - exists (100 * k). lia.
    - assumption. }
  destruct (round_sig_small q n d Hred) as (P & c & m & HP & HPm & Hm & Hr & Hc & Hbig);
    [nia|].
  rewrite Hr.
  assert (two_places q = two_places (Z.pos n # d)) as ->.
  { apply two_places_proper. rewrite <- Hred. symmetry. apply Qred_correct. }
  unfold two_places. cbn [Qnum Qden]. f_equal. rewrite Z2Pos.id by assumption.
  pose proof (div_half_even_near (Z.pos n * 100) (Z.pos d) ltac:(lia)) as Hj.
  pose proof (div_half_even_near (Z.pos n * P) (Z.pos d) ltac:(lia)) as Hcn.
  rewrite <- Hc in Hcn.
  set (j := div_half_even (Z.pos n * 100) (Z.pos d)) in *.
  destruct (Z.eq_dec (Z.abs (2 * (j * Z.pos d - Z.pos n * 100))) (Z.pos d)) as [Tie | Off].
  - (* halfway: the quotient has three decimals and is kept as it is *)
    assert (exists t, 200 * Z.pos n = t * Z.pos d) as [t Ht]
      by (destruct (Z.abs_spec (2 * (j * Z.pos d - Z.pos n * 100))) as [[_ E]|[_ E]];
          [exists (2 * j - 1) | exists (2 * j + 1)]; lia).
    assert (c = 5 * m * t) as Hexact.
    { rewrite Hc. apply div_half_even_only; [lia|]. nia. }
    apply div_half_even_cross; try lia; nia.
  - apply div_half_even_only; [assumption|].
    assert (100 * Z.pos d < P) as Hwide by nia.
    assert (Z.abs (2 * (j * Z.pos d - Z.pos n * 100)) <= Z.pos d - 1) as Hgap by lia.
    assert (2 * (j * P - c * 100) * Z.pos d
            = P * (2 * (j * Z.pos d - Z.pos n * 100))
              - 100 * (2 * (c * Z.pos d - Z.pos n * P))) as E by ring.
    nia.
Qed.

(** The same for every quotient of a decimal with two places by a
    positive int. *)
Lemma two_places_divide (total : Q) (N k : Z) :
  (total == N # 100)%Q -> 0 < k -> Z.abs N < 10 ^ 25 ->
  two_places (divide total k) = two_places (total / inject_Z k).
Proof.
  intros Ht Hk HN. unfold divide.
  set (q := (total / inject_Z k)%Q).
  assert (Qnum (Qred q) * (100 * k) = N * Z.pos (Qden (Qred q))) as Hq.
  { assert (Qred q == N # Z.to_pos (100 * k))%Q as H.
    { rewrite Qred_correct. subst q. rewrite Ht.
      unfold Qeq, Qdiv, Qmult, Qinv, inject_Z. destruct k as [|k|k]; try lia.
      cbn [Qnum Qden]. lia. }
    unfold Qeq in H. cbn [Qnum Qden] in H. rewrite Z2Pos.id in H by lia. exact H. }
  destruct (Qred q) as [[|n|n] d] eqn:Hred; cbn [Qnum Qden] in Hq.
  - unfold round_sig. rewrite Hred. cbn [Qnum].
    apply two_places_proper. rewrite <- (Qred_correct q), Hred. reflexivity.
  - apply (two_places_round_sig_pos q n d N k); try assumption. lia.
  - assert (Qred (- q) = Z.pos n # d) as Hred'
      by (rewrite Qred_opp, Hred; reflexivity).
    pose proof (two_places_round_sig_pos (- q) n d (- N) k Hred' ltac:(lia) Hk ltac:(lia))
      as H.
    rewrite round_sig_opp, !two_places_opp in H.
    destruct (two_places (round_sig q)) as [a b], (two_places q) as [a' b'].
    unfold Qopp in H. cbn [Qnum Qden] in H. inversion H. f_equal. lia.
Qed.

End DivideAndStore.


Section Bits.
Import PyFloat Binary64.

Lemma digits2_bounds (p : positive) :
  2 ^ (Z.pos (digits2_pos p) - 1) <= Z.pos p < 2 ^ Z.pos (digits2_pos p).
Proof.
  induction p as [p IH | p IH |]; cbn [digits2_pos].
  - rewrite Pos2Z.inj_succ.
    replace (Z.succ (Z.pos (digits2_pos p)) - 1) with (Z.succ (Z.pos (digits2_pos p) - 1))
      by lia.
    rewrite !Z.pow_succ_r by lia. lia.
  - rewrite Pos2Z.inj_succ.
    replace (Z.succ (Z.pos (digits2_pos p)) - 1) with (Z.succ (Z.pos (digits2_pos p) - 1))
      by lia.
    rewrite !Z.pow_succ_r by lia. lia.
  - cbn. lia.
Qed.

(** The number of bits of an integer between two powers of two. *)
Lemma digits2_between (p : positive) (d : Z) :
  2 ^ (d - 1) <= Z.pos p < 2 ^ d -> Z.pos (digits2_pos p) = d.
Proof.
  intros [Hlo Hhi]. pose proof (digits2_bounds p) as [Blo Bhi].
  assert (0 < d) as Hd.
  { destruct (Z_lt_le_dec 0 d) as [H | H]; [assumption | exfalso].
    destruct d as [|d|d]; cbn in Hhi; lia. }
  destruct (Z.lt_trichotomy (Z.pos (digits2_pos p)) d) as [H | [H | H]];
    [exfalso | assumption | exfalso].
  - assert (2 ^ Z.pos (digits2_pos p) <= 2 ^ (d - 1)) by (apply Z.pow_le_mono_r; lia).
    lia.
  - assert (2 ^ d <= 2 ^ (Z.pos (digits2_pos p) - 1)) by (apply Z.pow_le_mono_r; lia).
    lia.
Qed.

Lemma new_location_located (m r : Z) :
  0 < m -> 0 <= r < m -> located (new_location m r) r m.
Proof.
  intros Hm Hr. unfold new_location, new_location_even, new_location_odd.
  destruct (Z.even m) eqn:Ev; destruct (Z.eqb_spec r 0) as [E0 | N0];
    try (unfold located; assumption).
  - destruct (Z.compare_spec (2 * r) m); unfold located; lia.
  - destruct (Z.compare_spec (2 * r + 1) m) as [C|C|C]; unfold located; try lia.
    assert (m <> 2 * r); [|lia].
    intros ->. rewrite Z.even_mul in Ev. discriminate.
Qed.

(** The mantissa rounded to an integer without a shift. *)
Lemma round_no_shift (q0 r m2 : Z) (l : location) :
  0 < m2 -> 0 <= r < m2 -> located l r m2 ->
  let rec := shr_record_of_loc q0 l in
  let mr := round_nearest_even (shr_m rec) (loc_of_shr_record rec) in
  q0 <= mr <= q0 + 1
  /\ - m2 <= 2 * (mr * m2 - (q0 * m2 + r)) <= m2.
Proof.
  intros Hm Hr Hl.
  destruct l as [|[| |]]; unfold located in Hl;
    cbn [shr_record_of_loc shr_m loc_of_shr_record round_nearest_even];
    try destruct (Z.even q0); nia.
Qed.

(** The mantissa rounded to an integer after a shift by one bit. *)
Lemma round_one_shift (p : positive) (r m2 : Z) (l : location) :
  0 < m2 -> 0 <= r < m2 -> located l r m2 -> 2 <= Z.pos p ->
  let rec := shr_1 (shr_record_of_loc (Z.pos p) l) in
  let mr := round_nearest_even (shr_m rec) (loc_of_shr_record rec) in
  2 * mr <= Z.pos p + 2 /\ Z.pos p <= 2 * mr + 1
  /\ - (2 * m2) <= 2 * (mr * 2 * m2 - (Z.pos p * m2 + r)) <= 2 * m2.
Proof.
  intros Hm Hr Hl Hp.
  destruct l as [|[| |]]; unfold located in Hl; destruct p as [p|p|];
    cbn [shr_record_of_loc shr_1 shr_m shr_r shr_s loc_of_shr_record
         round_nearest_even orb];
    try lia; try destruct (Z.even (Z.pos p)); nia.
Qed.

Lemma binary_round_aux_renormalized (sx : bool) (mx ex : Z) (lx : location) :
  binary_round_aux prec emax sx mx ex lx
  = let '(mrs, e) := shr_fexp prec emax mx ex lx in
    renormalized sx (round_nearest_even (shr_m mrs) (loc_of_shr_record mrs)) e.
Proof. reflexivity. Qed.

Lemma shr_fexp_53 (p : positive) (e : Z) (l : location) :
  2 ^ 52 <= Z.pos p < 2 ^ 53 -> -1074 <= e ->
  shr_fexp prec emax (Z.pos p) e l = (shr_record_of_loc (Z.pos p) l, e).
Proof.
  intros Hp He. unfold shr_fexp, Zdigits2.
  rewrite (digits2_between p 53) by exact Hp.
  unfold fexp, emin, prec, emax.
  rewrite Z.max_l by lia. replace (53 + e - 53 - e) with 0 by lia. reflexivity.
Qed.

Lemma shr_fexp_54 (p : positive) (e : Z) (l : location) :
  2 ^ 53 <= Z.pos p < 2 ^ 54 -> -1074 <= e ->
  shr_fexp prec emax (Z.pos p) e l = (shr_1 (shr_record_of_loc (Z.pos p) l), e + 1).
Proof.
  intros Hp He. unfold shr_fexp, Zdigits2.
  rewrite (digits2_between p 54) by exact Hp.
  unfold fexp, emin, prec, emax.
  rewrite Z.max_l by lia. replace (54 + e - 53 - e) with 1 by lia. reflexivity.
Qed.

Lemma renormalized_spec (sx : bool) (mr e : Z) :
  2 ^ 52 <= mr <= 2 ^ 53 -> -1074 <= e -> e + 1 <= 971 ->
  exists m k,
    renormalized sx mr e = S754_finite sx m (e + k)
    /\ 0 <= k <= 1
    /\ 2 ^ 52 <= Z.pos m < 2 ^ 53
    /\ Z.pos m * 2 ^ k = mr.
Proof.
  intros Hmr He Hmax. unfold renormalized.
  destruct mr as [|p|p]; try (cbn in Hmr; lia).
  destruct (Z_lt_le_dec (Z.pos p) (2 ^ 53)) as [Hlt | Hge].
  - rewrite shr_fexp_53 by lia. cbn [shr_record_of_loc shr_m].
    exists p, 0. replace (e + 0) with e by lia.
    destruct (Z.leb_spec e (emax - prec)) as [_ | H];
      [|unfold emax, prec in H; lia].
    split; [reflexivity|]. split; [lia|]. split; [lia|]. cbn. lia.
  - assert (p = 9007199254740992%positive) as -> by (cbn in Hmr, Hge; lia).
    rewrite shr_fexp_54 by (cbn; lia). cbn [shr_record_of_loc shr_1 shr_m].
    exists 4503599627370496%positive, 1.
    destruct (Z.leb_spec (e + 1) (emax - prec)) as [_ | H];
      [|unfold emax, prec in H; lia].
    split; [reflexivity|]. cbn. lia.
Qed.

(** [binary_round_aux] on a quotient [q0 + r / m2] of 53 or 54 bits,
    within the range of the normal numbers: the result is finite, has
    53 bits, and is nearest to the quotient. *)
Lemma binary_round_aux_near (sx : bool) (p : positive) (e : Z) (l : location) (r m2 : Z) :
  2 ^ 52 <= Z.pos p < 2 ^ 54 -> 0 < m2 -> 0 <= r < m2 -> located l r m2 ->
  -1074 <= e -> e + 2 <= 971 ->
  exists m k,
    binary_round_aux prec emax sx (Z.pos p) e l = S754_finite sx m (e + k)
    /\ 0 <= k <= 2
    /\ 2 ^ 52 <= Z.pos m < 2 ^ 53
    /\ - (m2 * 2 ^ k) <= 2 * (Z.pos m * 2 ^ k * m2 - (Z.pos p * m2 + r)) <= m2 * 2 ^ k.
Proof.
  intros Hp Hm Hr Hl He Hmax. rewrite binary_round_aux_renormalized.
  destruct (Z_lt_le_dec (Z.pos p) (2 ^ 53)) as [Hlt | Hge].
  - rewrite shr_fexp_53 by lia.
    destruct (round_no_shift (Z.pos p) r m2 l Hm Hr Hl) as [Hmr Hnear].
    set (mr := round_nearest_even _ _) in *.
    destruct (renormalized_spec sx mr e ltac:(lia) He ltac:(lia))
      as (m & k & Hrn & Hk & Hm53 & Hval).
    exists m, k. split; [exact Hrn|]. split; [lia|]. split; [exact Hm53|].
    rewrite Hval. assert (k = 0 \/ k = 1) as [-> | ->] by lia;
      [change (2 ^ 0) with 1 | change (2 ^ 1) with 2]; lia.
  - rewrite shr_fexp_54 by lia.
    destruct (round_one_shift p r m2 l Hm Hr Hl ltac:(lia)) as (Hlo & Hhi & Hnear).
    set (mr := round_nearest_even _ _) in *.
    destruct (renormalized_spec sx mr (e + 1) ltac:(lia) ltac:(lia) ltac:(lia))
      as (m & k & Hrn & Hk & Hm53 & Hval).
    exists m, (1 + k). replace (e + (1 + k)) with (e + 1 + k) by lia.
    split; [exact Hrn|]. split; [lia|]. split; [exact Hm53|].
    rewrite Z.pow_add_r by lia. change (2 ^ 1) with 2.
    replace (Z.pos m * (2 * 2 ^ k)) with (mr * 2) by lia.
    assert (k = 0 \/ k = 1) as [-> | ->] by lia;
      [change (2 ^ 0) with 1 | change (2 ^ 1) with 2]; lia.
Qed.

End Bits.


Section Division.
Import PyFloat Binary64.

(** [SFdiv] on two finite numbers whose quotient is in the range of
    the normal numbers: the result is finite, has 53 bits, and is
    nearest to the quotient.  With [s] the shift of the dividend, the
    float [m * 2 ^ (e0 + k)] against the quotient
    [m1 * 2 ^ s / m2 * 2 ^ e0]. *)
Lemma SFdiv_near (s1 s2 : bool) (m1 m2 : positive) (e1 e2 : Z) :
  let d1 := Z.pos (digits2_pos m1) in
  let d2 := Z.pos (digits2_pos m2) in
  let e0 := d1 + e1 - (d2 + e2) - 53 in
  d1 <= d2 + 53 -> -1074 <= e0 -> e0 + 2 <= 971 ->
  exists m k,
    SFdiv prec emax (S754_finite s1 m1 e1) (S754_finite s2 m2 e2)
    = S754_finite (xorb s1 s2) m (e0 + k)
    /\ 0 <= k <= 2
    /\ 2 ^ 52 <= Z.pos m < 2 ^ 53
    /\ - (Z.pos m2 * 2 ^ k)
       <= 2 * (Z.pos m * 2 ^ k * Z.pos m2 - Z.pos m1 * 2 ^ (53 + d2 - d1))
       <= Z.pos m2 * 2 ^ k.
Proof.
  intros d1 d2 e0 Hd Hmin Hmax.
  cbn [SFdiv]. unfold SFdiv_core_binary. cbn [Zdigits2]. fold d1 d2.
  assert (fexp prec emax (d1 + e1 - (d2 + e2)) = e0) as ->
    by (unfold fexp, emin, prec, emax; subst e0; lia).
  rewrite Z.min_l by (subst e0; lia).
  replace (e1 - e2 - e0) with (53 + d2 - d1) by (subst e0; lia).
  set (s := 53 + d2 - d1).
  assert (0 <= s) as Hs by (subst s; lia).
  assert (match s with
          | 0 => Z.pos m1
          | Z.pos _ => Z.shiftl (Z.pos m1) s
          | Z.neg _ => 0
          end = Z.pos m1 * 2 ^ s) as ->.
  { destruct s as [|s'|s'] eqn:Es; [cbn; lia | | lia].
    now rewrite Z.shiftl_mul_pow2 by lia. }
  pose proof (Z_div_mod (Z.pos m1 * 2 ^ s) (Z.pos m2) ltac:(lia)) as Hdiv.
  destruct (Z.div_eucl (Z.pos m1 * 2 ^ s) (Z.pos m2)) as [q0 r].
  destruct Hdiv as [Hq Hr].
  pose proof (digits2_bounds m1) as [H1lo H1hi]. fold d1 in H1lo, H1hi.
  pose proof (digits2_bounds m2) as [H2lo H2hi]. fold d2 in H2lo, H2hi.
  assert (0 < d1 /\ 0 < d2) as [Hd1 Hd2] by (subst d1 d2; lia).
  assert (2 ^ (d1 - 1) * 2 ^ s = 2 ^ 52 * 2 ^ d2) as Elo
    by (rewrite <- !Z.pow_add_r by lia; f_equal; subst s; lia).
  assert (2 ^ d1 * 2 ^ s = 2 ^ 54 * 2 ^ (d2 - 1)) as Ehi
    by (rewrite <- !Z.pow_add_r by lia; f_equal; subst s; lia).
  assert (0 < 2 ^ s) as Hps by (apply Z.pow_pos_nonneg; lia).
  assert (0 < 2 ^ (d2 - 1)) as Hpd by (apply Z.pow_pos_nonneg; lia).
  clearbody s e0 d1 d2.
  assert (2 ^ 52 * 2 ^ d2 <= Z.pos m1 * 2 ^ s) as Blo
    by (rewrite <- Elo; apply Z.mul_le_mono_nonneg_r; lia).
  assert (Z.pos m1 * 2 ^ s < 2 ^ 54 * 2 ^ (d2 - 1)) as Bhi
    by (rewrite <- Ehi; apply Z.mul_lt_mono_pos_r; lia).
  assert (2 ^ 52 <= q0 < 2 ^ 54) as Hq0.
  { split.
    - assert (2 ^ 52 * Z.pos m2 < (q0 + 1) * Z.pos m2) as H.
      { apply Z.lt_le_trans with (2 ^ 52 * 2 ^ d2); [lia|].
        apply Z.le_trans with (Z.pos m1 * 2 ^ s); [exact Blo | rewrite Hq; nia]. }
      apply Z.mul_lt_mono_pos_r in H; lia.
    - assert (q0 * Z.pos m2 < 2 ^ 54 * Z.pos m2) as H.
      { apply Z.le_lt_trans with (Z.pos m1 * 2 ^ s); [rewrite Hq; nia|].
        apply Z.lt_le_trans with (2 ^ 54 * 2 ^ (d2 - 1)); [exact Bhi | lia]. }
      apply Z.mul_lt_mono_pos_r in H; lia. }
  destruct q0 as [|p|p]; try (cbn in Hq0; lia).
  destruct (binary_round_aux_near (xorb s1 s2) p e0 (new_location (Z.pos m2) r)
                                  r (Z.pos m2) Hq0 ltac:(lia) Hr
                                  (new_location_located (Z.pos m2) r ltac:(lia) Hr) Hmin Hmax)
    as (m & k & Hres & Hk & Hm & Hnear).
  exists m, k. split; [exact Hres|]. split; [exact Hk|]. split; [exact Hm|].
  rewrite Hq. lia.
Qed.

End Division.


Section FloatToDecimal.
Import PyFloat.

Lemma pow2_split (a b : Z) : 0 <= a -> 0 <= b -> 2 ^ (a + b) = 2 ^ a * 2 ^ b.
Proof. intros. now apply Z.pow_add_r. Qed.

Lemma pow2_ge (a b : Z) : 0 <= a <= b -> 2 ^ a <= 2 ^ b.
Proof. intros. apply Z.pow_le_mono_r; lia. Qed.

(** The float of [a / b] on two positive ints, rounded to two places,
    is a hundredth nearest to the exact quotient. *)
Lemma int_truediv_hundredths (a b : Z) :
  0 < a < 2 ^ 44 -> 0 < b < 2 ^ 44 ->
  - b <= 2 * (hundredths (int_truediv a b) * b - 100 * a) <= b.
Proof.
  intros Ha Hb. unfold int_truediv.
  destruct a as [|pa|pa]; try lia. destruct b as [|pb|pb]; try lia.
  cbn [of_int].
  pose proof (digits2_bounds pa) as [Halo Hahi].
  pose proof (digits2_bounds pb) as [Hblo Hbhi].
  set (d1 := Z.pos (digits2_pos pa)) in *. set (d2 := Z.pos (digits2_pos pb)) in *.
  assert (0 < d1 <= 44) as Hd1.
  { split; [subst d1; lia|].
    destruct (Z_le_gt_dec d1 44) as [H | H]; [assumption | exfalso].
    pose proof (pow2_ge 44 (d1 - 1) ltac:(lia)). lia. }
  assert (0 < d2 <= 44) as Hd2.
  { split; [subst d2; lia|].
    destruct (Z_le_gt_dec d2 44) as [H | H]; [assumption | exfalso].
    pose proof (pow2_ge 44 (d2 - 1) ltac:(lia)). lia. }
  destruct (SFdiv_near false false pa pb 0 0) as (m & k & Hres & Hk & Hm & Hnear);
    fold d1 d2; try lia.
  fold d1 d2 in Hres, Hnear. rewrite Hres. cbn [xorb].
  set (p := 53 + d2 - d1 - k).
  assert (7 + d2 <= p) as Hp by (subst p; lia).
  replace (d1 + 0 - (d2 + 0) - 53 + k) with (- p) by (subst p; lia).
  assert (2 ^ (53 + d2 - d1) = 2 ^ p * 2 ^ k) as Esplit
    by (rewrite <- pow2_split by lia; f_equal; subst p; lia).
  rewrite Esplit in Hnear.
  assert (0 < 2 ^ k) as Hk2 by (apply Z.pow_pos_nonneg; lia).
  assert (- Z.pos pb <= 2 * (Z.pos m * Z.pos pb - Z.pos pa * 2 ^ p) <= Z.pos pb) as Hq.
  { clear - Hnear Hk2. nia. }
  assert (2 ^ 7 * 2 ^ d2 <= 2 ^ p) as Hwide
    by (rewrite <- pow2_split by lia; apply pow2_ge; lia).
  clearbody d1 d2. clear Hnear Esplit Hres.
  destruct p as [|p|p]; try lia.
  cbn [hundredths Z.opp].
  pose proof (div_half_even_near (Z.pos m * 100) (2 ^ Z.pos p)
                                 ltac:(apply Z.pow_pos_nonneg; lia)) as Hh.
  set (h := div_half_even (Z.pos m * 100) (2 ^ Z.pos p)) in *.
  set (A := 2 ^ Z.pos p) in *. clearbody A h.
  assert (2 * (h * Z.pos pb - 100 * Z.pos pa) * A
          = Z.pos pb * (2 * (h * A - Z.pos m * 100))
            + 100 * (2 * (Z.pos m * Z.pos pb - Z.pos pa * A))) as E by ring.
  assert (100 * Z.pos pb < A) as HA by (change (2 ^ 7) with 128 in Hwide; lia).
  nia.
Qed.

End FloatToDecimal.


Section DurationRounding.
Import PyFloat.


End DurationRounding.

Section DecimalGrid.
Import PyFloat Decimal.

(** A quotient rounded to 28 significant digits stays on the side of a
    decimal with two places on which the quotient lies. *)
Lemma round_sig_pos_between (q : Q) (n d : positive) :
  Qred q = Z.pos n # d ->
  Z.pos n < 10 ^ 25 * Z.pos d ->
  (forall lo : Z, (lo # 100 <= q)%Q -> (lo # 100 <= round_sig q)%Q)
  /\ (forall hi : Z, (q <= hi # 100)%Q -> (round_sig q <= hi # 100)%Q).
Proof.
  intros Hred Hsmall.
  destruct (round_sig_small q n d Hred Hsmall) as (P & c & m & HP & HPm & Hm & Hr & Hc & _).
  pose proof (div_half_even_near (Z.pos n * P) (Z.pos d) ltac:(lia)) as Hnear.
  rewrite <- Hc in Hnear.
  assert (q == Z.pos n # d)%Q as Hq by (rewrite <- Hred; symmetry; apply Qred_correct).
  split.
  - intros lo Hlo. rewrite Hq in Hlo. rewrite Hr.
    unfold Qle in *. cbn [Qnum Qden] in *. rewrite Z2Pos.id by lia. subst P. nia.
  - intros hi Hhi. rewrite Hq in Hhi. rewrite Hr.
    unfold Qle in *. cbn [Qnum Qden] in *. rewrite Z2Pos.id by lia. subst P. nia.
Qed.

Lemma round_sig_between (q lo hi : Q) :
  two_decimals lo -> two_decimals hi ->
  (Qabs q < inject_Z (10 ^ 25))%Q ->
  (lo <= q <= hi)%Q -> (lo <= round_sig q <= hi)%Q.
Proof.
  intros [L HL] [H HH] Hsmall [Hlo Hhi].
  assert (q == Qred q)%Q as Hq by (symmetry; apply Qred_correct).
  destruct (Qred q) as [[|n|n] d] eqn:Hred.
  - unfold round_sig. rewrite Hred. cbn [Qnum].
    assert (q == 0)%Q as H0 by (rewrite Hq; reflexivity).
    rewrite H0 in Hlo, Hhi. split; assumption.
  - assert (Z.pos n < 10 ^ 25 * Z.pos d) as Hn.
    { rewrite Hq in Hsmall. apply Qabs_Qlt_condition in Hsmall as [_ Hs].
      unfold Qlt, inject_Z in Hs. cbn [Qnum Qden] in Hs. lia. }
    destruct (round_sig_pos_between q n d Hred Hn) as [Ha Hb].
    rewrite HL, HH in *. split; [now apply Ha | now apply Hb].
  - assert (Qred (- q) = Z.pos n # d) as Hred'
      by (rewrite Qred_opp, Hred; reflexivity).
    assert (Z.pos n < 10 ^ 25 * Z.pos d) as Hn.
    { rewrite Hq in Hsmall. apply Qabs_Qlt_condition in Hsmall as [Hs _].
      unfold Qlt, Qopp, inject_Z in Hs. cbn [Qnum Qden] in Hs. lia. }
    destruct (round_sig_pos_between (- q) n d Hred' Hn) as [Ha Hb].
    rewrite round_sig_opp in Ha, Hb.
    rewrite HL, HH in *. split.
    + specialize (Hb (- L)).
      assert (- q <= - L # 100)%Q as Hx.
      { change (- L # 100)%Q with (Qopp (L # 100)). now apply Qopp_le_compat. }
      specialize (Hb Hx). apply Qopp_le_compat in Hb.
      rewrite Qopp_involutive in Hb.
      change (- (- L # 100))%Q with (Qopp (Qopp (L # 100))) in Hb.
      now rewrite Qopp_involutive in Hb.
    + specialize (Ha (- H)).
      assert (- H # 100 <= - q)%Q as Hx.
      { change (- H # 100)%Q with (Qopp (H # 100)). now apply Qopp_le_compat. }
      specialize (Ha Hx). apply Qopp_le_compat in Ha.
      rewrite Qopp_involutive in Ha.
      change (- (- H # 100))%Q with (Qopp (Qopp (H # 100))) in Ha.
      now rewrite Qopp_involutive in Ha.
Qed.

End DecimalGrid.

Lemma round_sig_proper (q q' : Q) :
  (q == q')%Q -> Decimal.round_sig q = Decimal.round_sig q'.
Proof. intros H. unfold Decimal.round_sig. now rewrite (Qred_complete q q' H). Qed.

(* ------------------------------------------------------------------ *)
(** ** The duration calculator *)

Section StoreFacts.

Variable self : SleepSession.

Let same_pk (r : SleepSession) : bool := session_id r =? session_id self.

Lemma find_replaced (table : list SleepSession) :
  existsb same_pk table = true ->
  find same_pk (map (fun r => if same_pk r then self else r) table) = Some self.
Proof.
  induction table as [|r rest IH]; simpl; [discriminate|].
  destruct (same_pk r) eqn:Er; simpl.
  - intros _. unfold same_pk at 1. now rewrite Z.eqb_refl.
  - rewrite Er. exact IH.
Qed.

Lemma find_appended (table : list SleepSession) :
  existsb same_pk table = false ->
  find same_pk (table ++ [self]) = Some self.
Proof.
  induction table as [|r rest IH]; simpl.
  - intros _. unfold same_pk. now rewrite Z.eqb_refl.
  - destruct (same_pk r); simpl; [discriminate|exact IH].
Qed.

(** After a write the row read back under the instance's primary key
    is the instance. *)
Lemma get_write (table : list SleepSession) :
  get (session_id self) (write self table) = Some self.
Proof.
  unfold get, write. fold same_pk.
  destruct (existsb same_pk table) eqn:E.
  - now apply find_replaced.
  - now apply find_appended.
Qed.

End StoreFacts.

Lemma compute_duration_fields (s : SleepSession) :
  session_id (compute_duration s) = session_id s
  /\ session_user (compute_duration s) = session_user s
  /\ sleep_time (compute_duration s) = sleep_time s
  /\ wake_time (compute_duration s) = wake_time s
  /\ quality_rating (compute_duration s) = quality_rating s
  /\ synced_to_calendar (compute_duration s) = synced_to_calendar s
  /\ calendar_event_id (compute_duration s) = calendar_event_id s.
Proof.
  unfold compute_duration.
  destruct (sleep_time s) eqn:Es, (wake_time s) eqn:Ew; simpl;
    rewrite ?Es, ?Ew; repeat split.
Qed.

Lemma not_null_compute_duration (s : SleepSession) :
  not_null (compute_duration s) = not_null s.
Proof.
  unfold not_null.
  destruct (compute_duration_fields s) as (_ & _ & -> & -> & _). reflexivity.
Qed.

(** [save] stores exactly the instances that have both timestamps. *)
Lemma save_not_null (s : SleepSession) (table : list SleepSession) :
  save s table
  = if not_null s then Done (write (compute_duration s) table)
    else Raised IntegrityError table.
Proof. unfold save, store. now rewrite not_null_compute_duration. Qed.

Section FloatSigns.
Import PyFloat.







Lemma binary_round_aux_opp (s : bool) (m e : Z) (l : location) :
  binary_round_aux prec emax (negb s) m e l
  = SFopp (binary_round_aux prec emax s m e l).
Proof.
  unfold binary_round_aux.
  destruct (shr_fexp _ _ m e l) as [mrs1 e1].
  destruct (shr_fexp _ _ _ e1 loc_Exact) as [mrs2 e2].
  destruct (shr_m mrs2); simpl; trivial.
  destruct (_ <=? _); reflexivity.
Qed.

Lemma SFdiv_opp (x : spec_float) (my : positive) (ey : Z) :
  SFdiv prec emax (SFopp x) (S754_finite false my ey)
  = SFopp (SFdiv prec emax x (S754_finite false my ey)).
Proof.
  destruct x as [sx|sx| |sx mx ex]; simpl; try reflexivity;
    try (now rewrite !xorb_false_r).
  destruct (SFdiv_core_binary _ _ (Z.pos mx) ex (Z.pos my) ey) as [[mz ez] lz].
  rewrite !xorb_false_r. apply binary_round_aux_opp.
Qed.

Lemma hundredths_opp (x : spec_float) :
  hundredths (SFopp x) = - hundredths x.
Proof.
  destruct x as [sx|sx| |sx m e]; simpl; try reflexivity.
  destruct sx; simpl; lia.
Qed.

(** The rounding of [save] is symmetric about zero. *)
Lemma hours_of_opp (td : timedelta) : hours_of (- td) = Qopp (hours_of td).
Proof.
  destruct td as [|p|p]; [reflexivity| |];
    unfold hours_of, round2, truediv, total_seconds, int_truediv;
    change (of_int (10 ^ 6)) with (S754_finite false 1000000 0);
    change (binary_normalize prec emax 3600 0 false)
      with (S754_finite false 7916483719987200 (-41)).
  - change (of_int (- Z.pos p)) with (SFopp (of_int (Z.pos p))).
    rewrite !SFdiv_opp, hundredths_opp. reflexivity.
  - change (of_int (- Z.neg p)) with (SFopp (of_int (Z.neg p))).
    rewrite !SFdiv_opp, hundredths_opp. reflexivity.
Qed.


End FloatSigns.




(* ------------------------------------------------------------------ *)
(** ** The reminder scheduler *)

(** The keywords [reminder_time_hour] and [reminder_time_minute] name
    no field of [SleepReminder]; [reminder_time__hour] does. *)
Lemma misspelt_keywords :
  resolve "reminder_time_hour" = None
  /\ resolve "reminder_time_minute" = None
  /\ (forall r, option_map (fun column => column r) (resolve "reminder_time__hour")
                = Some (Int (hour (reminder_time r))))
  /\ (forall r, option_map (fun column => column r) (resolve "reminder_time__minute")
                = Some (Int (minute (reminder_time r)))).
Proof. repeat split. Qed.

(** Each reminder task raises [FieldError] at its filter, whatever the
    table, the profiles, the transport and the clock: it has read the
    clock once, sent nothing and written nothing. *)
Lemma reminder_filters_raise
      (profile : Profiles) (smtp : Transport) (reads : Reads)
      (sleep_sessions : list SleepSession) (table : list SleepReminder) :
  send_bedtime_reminders profile smtp reads table
  = Raised FieldError (mk_run table [] 0 None 1)
  /\ send_wake_reminders profile smtp reads table
     = Raised FieldError (mk_run table [] 0 None 1)
  /\ send_log_reminders profile smtp reads sleep_sessions table
     = Raised FieldError (mk_run table [] 0 None 1).
Proof. repeat split. Qed.

(** C3 at its failing input: at 22:00 of day 19000 the table holds an
    active bedtime reminder for 22:00 whose owner has notifications
    enabled, and the transport would accept every message; at 06:00 of
    the next day it holds such a wake reminder.  Both tasks raise
    [FieldError] at their filter: no message is handed to the transport
    and [last_sent] of the due reminder is still null. *)
Theorem reminder_tasks_raise_field_error :
  let due_at_22 := mk_reminder 1 1 bedtime at_22 true None in
  let due_at_06 := mk_reminder 4 1 wake at_06 true None in
  let at_night := send_bedtime_reminders calendar_on smtp_up (always evening)
                                         reminder_table in
  let at_dawn := send_wake_reminders calendar_on smtp_up (always morning)
                                     reminder_table in
  In due_at_22 reminder_table
  /\ In due_at_06 reminder_table
  /\ time_of evening = at_22
  /\ time_of morning = at_06
  /\ option_map notification_enabled (calendar_on 1) = Some true
  /\ at_night = Raised FieldError (mk_run reminder_table [] 0 None 1)
  /\ at_dawn = Raised FieldError (mk_run reminder_table [] 0 None 1)
  /\ outbox (final at_night) = []
  /\ outbox (final at_dawn) = []
  /\ In due_at_22 (reminders (final at_night))
  /\ In due_at_06 (reminders (final at_dawn)).
Proof.
  cbv zeta.
  split; [now left|]. split; [do 3 right; now left|].
  split; [vm_compute; reflexivity|]. split; [vm_compute; reflexivity|].
  split; [reflexivity|].
  split; [reflexivity|]. split; [reflexivity|].
  split; [reflexivity|]. split; [reflexivity|].
  split; [now left | do 3 right; now left].
Qed.

(** The loop body of [send_log_reminders] at a reminder whose owner
    has a session that began on the day before the one the body reads
    off the clock: nothing is sent, nothing is written and nothing is
    counted, whatever the profile says of notifications. *)
Lemma log_body_suppressed
      (profile : Profiles) (smtp : Transport) (reads : Reads)
      (sleep_sessions : list SleepSession) (r : SleepReminder) (st : ReminderRun)
      (user_profile : UserProfile) :
  profile (reminder_user r) = Some user_profile ->
  sessions_on (reminder_user r) (minus_days (date_of (reads (clock_reads st))) 1)
              sleep_sessions <> [] ->
  exists st',
    log_body profile smtp reads sleep_sessions r st = Done st'
    /\ outbox st' = outbox st
    /\ reminders st' = reminders st
    /\ sent_count st' = sent_count st.
Proof.
  intros Hp Hlogged. unfold log_body. rewrite Hp.
  destruct (notification_enabled user_profile).
  - cbn [now_ fst snd].
    destruct (sessions_on _ _ sleep_sessions) as [|s l]; [congruence|].
    cbn [exists_ negb]. eexists. split; [reflexivity|]. repeat split.
  - exists st. repeat split.
Qed.

(** C7.  [send_log_reminders] dispatches no log reminder for an owner
    who has a session that began on the day before the tick, even when
    the reminder is active, set for the hour and minute of the tick, and
    the owner has notifications enabled.  The task as a whole hands no
    message to the transport (it raises at its filter before it reads a
    reminder); and its loop body, at a reminder of an owner with such a
    session, sends nothing and leaves the reminder and the count as they
    were. *)
Theorem log_reminder_suppressed :
  forall (profile : Profiles) (smtp : Transport) (reads : Reads)
         (sleep_sessions : list SleepSession) (table : list SleepReminder)
         (r : SleepReminder) (user_profile : UserProfile),
    In r table ->
    profile (reminder_user r) = Some user_profile ->
    (forall k, sessions_on (reminder_user r) (minus_days (date_of (reads k)) 1)
                           sleep_sessions <> []) ->
    (forall d,
        In d (outbox (final (send_log_reminders profile smtp reads sleep_sessions table))) ->
        origin d <> r /\ recipient (message d) <> reminder_user r)
    /\ outbox (final (send_log_reminders profile smtp reads sleep_sessions table)) = []
    /\ In r (reminders (final (send_log_reminders profile smtp reads sleep_sessions table)))
    /\ forall st,
        exists st',
          log_body profile smtp reads sleep_sessions r st = Done st'
          /\ outbox st' = outbox st
          /\ reminders st' = reminders st
          /\ sent_count st' = sent_count st.
Proof.
  intros profile smtp reads sleep_sessions table r user_profile Hin Hp Hlogged.
  destruct (reminder_filters_raise profile smtp reads sleep_sessions table)
    as (_ & _ & ->).
  cbn [final outbox reminders]. split; [contradiction|]. split; [reflexivity|].
  split; [exact Hin|].
  intros st. now apply log_body_suppressed with (user_profile := user_profile).
Qed.

(** The witness of C7: the log reminder of user 7 at 09:00 of day
    19001, the tick its time is set for; user 7 has notifications
    enabled and logged the night that began on day 19000. *)
Lemma log_reminder_suppressed_witness :
  In log_reminder [log_reminder]
  /\ calendar_on (reminder_user log_reminder) = Some (mk_profile true true)
  /\ (forall k, sessions_on (reminder_user log_reminder)
                            (minus_days (date_of (always nine_next_day k)) 1) [night]
                <> [])
  /\ outbox (final (send_log_reminders calendar_on smtp_up (always nine_next_day)
                                       [night] [log_reminder])) = []
  /\ exists st',
      log_body calendar_on smtp_up (always nine_next_day) [night] log_reminder
               (mk_run [log_reminder] [] 0 None 1) = Done st'
      /\ outbox st' = []
      /\ reminders st' = [log_reminder].
Proof.
  assert (forall k, sessions_on (reminder_user log_reminder)
                                (minus_days (date_of (always nine_next_day k)) 1) [night]
                    <> []) as Hlogged
    by (intros k; vm_compute; discriminate).
  split; [now left|]. split; [reflexivity|]. split; [exact Hlogged|].
  destruct (log_reminder_suppressed calendar_on smtp_up (always nine_next_day)
                                    [night] [log_reminder] log_reminder
                                    (mk_profile true true)
                                    (or_introl eq_refl) eq_refl Hlogged)
    as (_ & _ & _ & Hbody).
  split; [reflexivity|].
  destruct (Hbody (mk_run [log_reminder] [] 0 None 1)) as (st' & Hrun & Hout & Hrem & _).
  exists st'. split; [exact Hrun|]. split; assumption.
Defined.

(** Without the session of the day before, the same loop body sends
    the reminder. *)
Lemma log_body_sends_when_nothing_logged :
  option_map (fun st => map message (outbox st))
             (match log_body calendar_on smtp_up (always nine_next_day) [] log_reminder
                             (mk_run [log_reminder] [] 0 None 1) with
              | Done st => Some st
              | Raised _ _ => None
              end)
  = Some [LogReminder 7].
Proof. reflexivity. Qed.

(* ------------------------------------------------------------------ *)
(** ** The calendar sync adapter *)

Lemma get_id (table : list SleepSession) (id : Z) (s : SleepSession) :
  get id table = Some s -> session_id s = id /\ In s table.
Proof.
  unfold get. intros H. apply find_some in H as [Hin Hid].
  split; [now apply Z.eqb_eq | assumption].
Qed.

Lemma save_set_calendar (synced : bool) (event_id : option string)
      (s : SleepSession) (table : list SleepSession) :
  save (set_calendar synced event_id s) table
  = if not_null s
    then Done (write (compute_duration (set_calendar synced event_id s)) table)
    else Raised IntegrityError table.
Proof. now rewrite save_not_null. Qed.

(** Only the return [Created] goes with a write to the session table. *)
Lemma sync_writes_only_when_created
      (api : API) (profile : Profiles) (table : list SleepSession) (id : Z) :
  (forall event_id,
      returned_ (sync_sleep_to_calendar api profile table id) <> Created event_id) ->
  sessions_after (sync_sleep_to_calendar api profile table id) = table.
Proof.
  unfold sync_sleep_to_calendar.
  destruct (get id table) as [s|]; [|reflexivity].
  destruct (profile (session_user s)) as [user_profile|]; [|reflexivity].
  destruct (google_calendar_enabled user_profile); cbn [negb]; [|reflexivity].
  unfold create_sleep_event, update_sleep_event, call.
  destruct (get_service api user_profile);
    destruct (calendar_event_id s) as [stored|];
    try destruct (synced_to_calendar s && nonempty stored);
    cbn [body_of]; try destruct (not_null s) eqn:Enn;
    try destruct (execute api _) as [[event_id|]| |];
    try destruct (nonempty event_id) eqn:En;
    try reflexivity;
    rewrite save_set_calendar, Enn;
    cbn [returned_ sessions_after]; intros H; exfalso; now apply (H event_id).
Qed.

(** A run on a session that is not marked as synced, or has no event id,
    takes the create path: with the calendar enabled, the service built
    and the insert answered with a non-empty id, it sends that one
    request and stores the session with the id, marked as synced. *)
Lemma sync_create_path
      (api : API) (profile : Profiles) (user_profile : UserProfile)
      (table : list SleepSession) (id : Z) (s : SleepSession) (event_id : string) :
  get id table = Some s ->
  not_null s = true ->
  profile (session_user s) = Some user_profile ->
  google_calendar_enabled user_profile = true ->
  synced_to_calendar s = false \/ calendar_event_id s = None ->
  get_service api user_profile = Service ->
  execute api (EventsInsert s) = Executed (Some event_id) ->
  nonempty event_id = true ->
  sync_sleep_to_calendar api profile table id
  = mk_sync (Created event_id)
            (write (compute_duration (set_calendar true (Some event_id) s)) table)
            [EventsInsert s].
Proof.
  intros Hget Hnn Hp Hen Hun Hsvc Hex Hne.
  unfold sync_sleep_to_calendar, create_sleep_event, call.
  rewrite Hget, Hp, Hen, Hsvc. cbn [negb body_of].
  rewrite Hnn, Hex, Hne, save_set_calendar, Hnn.
  destruct Hun as [Hun | Hun]; rewrite Hun; [|reflexivity].
  now destruct (calendar_event_id s).
Qed.

(** A run on a session marked as synced under a non-empty event id takes
    the update path: it leaves the table as it is and sends nothing but
    an update of that event. *)
Lemma sync_update_path
      (api : API) (profile : Profiles) (user_profile : UserProfile)
      (table : list SleepSession) (id : Z) (s : SleepSession) (stored : string) :
  get id table = Some s ->
  profile (session_user s) = Some user_profile ->
  google_calendar_enabled user_profile = true ->
  synced_to_calendar s = true ->
  calendar_event_id s = Some stored ->
  nonempty stored = true ->
  sessions_after (sync_sleep_to_calendar api profile table id) = table
  /\ (forall rq, In rq (sent (sync_sleep_to_calendar api profile table id)) ->
                 rq = EventsUpdate stored s)
  /\ (get_service api user_profile = Service ->
      not_null s = true ->
      sent (sync_sleep_to_calendar api profile table id) = [EventsUpdate stored s]).
Proof.
  intros Hget Hp Hen Hsy Hid Hne.
  unfold sync_sleep_to_calendar, update_sleep_event, call.
  rewrite Hget, Hp, Hen, Hid, Hsy, Hne. cbn [negb andb body_of].
  destruct (get_service api user_profile); cbn [sessions_after sent];
    try (repeat split; [contradiction | discriminate]).
  destruct (not_null s); cbn [sessions_after sent];
    [|repeat split; [contradiction | discriminate]].
  destruct (execute api (EventsUpdate stored s)) as [e| |msg]; cbn [sessions_after sent];
    (repeat split; [intros rq [<-|[]]; reflexivity]).
Qed.

(** The counterexample of C2: the owner has the calendar integration
    enabled and the session has no event id.  A calendar that carries
    out the insert and answers without an event id has created an event,
    but the run returns that it failed to sync and leaves the session as
    it was, not marked as synced and without an event id; a second run
    finds it so and has a second event created.  A calendar that answers
    the insert with an HTTP error leaves the session unsynced as well,
    and is sent the insert again. *)
Lemma sync_does_not_record_a_failed_create :
  let run1 := sync_sleep_to_calendar calendar_no_id calendar_on [night] 1 in
  let run2 := sync_sleep_to_calendar calendar_no_id calendar_on (sessions_after run1) 1 in
  let run1' := sync_sleep_to_calendar calendar_down calendar_on [night] 1 in
  let run2' := sync_sleep_to_calendar calendar_down calendar_on (sessions_after run1') 1 in
  calendar_enabled_for calendar_on (session_user night) = true
  /\ returned_ run1 = FailedToSync
  /\ sessions_after run1 = [night]
  /\ sent run1 ++ sent run2 = [EventsInsert night; EventsInsert night]
  /\ events_created calendar_no_id (sent run1 ++ sent run2) = 2%nat
  /\ ~ syncs_once calendar_no_id calendar_on [night] 1
  /\ returned_ run1' = FailedToSync
  /\ sessions_after run1' = [night]
  /\ sent run1' ++ sent run2' = [EventsInsert night; EventsInsert night]
  /\ ~ syncs_once calendar_down calendar_on [night] 1.
Proof.
  cbv zeta. repeat (split; [reflexivity|]).
  split; [|repeat (split; [reflexivity|])].
  - intros H. destruct (H night eq_refl eq_refl eq_refl) as (_ & _ & Hcount).
    discriminate Hcount.
  - intros H. destruct (H night eq_refl eq_refl eq_refl) as (_ & _ & Hcount).
    discriminate Hcount.
Qed.

(** C2, amended.  For a session in the table, with its two timestamps,
    whose owner has the calendar integration enabled: a run of
    [sync_sleep_to_calendar] on the session when it is not synced, for
    which the service is there and the calendar answers the insert with
    a non-empty event id, returns [Created], has sent that one insert,
    and stores the session marked as synced under the returned id.  A
    second run on the table so reached, whatever the calendar answers
    then, sends no insert: every request it sends is an update of the
    stored event, it sends exactly that update when the service is
    there, and it leaves the table as the first run left it. *)
Theorem sync_creates_once_then_updates :
  forall (api1 api2 : API) (profile : Profiles) (user_profile : UserProfile)
         (table : list SleepSession) (id : Z) (s : SleepSession) (event_id : string),
    get id table = Some s ->
    not_null s = true ->
    profile (session_user s) = Some user_profile ->
    google_calendar_enabled user_profile = true ->
    synced_to_calendar s = false \/ calendar_event_id s = None ->
    get_service api1 user_profile = Service ->
    execute api1 (EventsInsert s) = Executed (Some event_id) ->
    nonempty event_id = true ->
    let run1 := sync_sleep_to_calendar api1 profile table id in
    let stored := compute_duration (set_calendar true (Some event_id) s) in
    let run2 := sync_sleep_to_calendar api2 profile (sessions_after run1) id in
    returned_ run1 = Created event_id
    /\ sent run1 = [EventsInsert s]
    /\ get id (sessions_after run1) = Some stored
    /\ synced_to_calendar stored = true
    /\ calendar_event_id stored = Some event_id
    /\ sessions_after run2 = sessions_after run1
    /\ inserts (sent run1 ++ sent run2) = 1%nat
    /\ (forall rq, In rq (sent run2) -> rq = EventsUpdate event_id stored)
    /\ (get_service api2 user_profile = Service ->
        sent run2 = [EventsUpdate event_id stored]).
Proof.
  intros api1 api2 profile user_profile table id s event_id
         Hget Hnn Hp Hen Hun Hsvc Hex Hne run1 stored run2.
  assert (run1 = mk_sync (Created event_id)
                         (write (compute_duration (set_calendar true (Some event_id) s))
                                table)
                         [EventsInsert s]) as H1
    by now apply sync_create_path with (user_profile := user_profile).
  assert (session_id s = id) as Hid by (now apply get_id in Hget).
  destruct (compute_duration_fields (set_calendar true (Some event_id) s))
    as (Hsid & Hsu & _ & _ & _ & Hss & Hse).
  fold stored in Hsid, Hsu, Hss, Hse. cbn [set_calendar session_id session_user
    synced_to_calendar calendar_event_id] in Hsid, Hsu, Hss, Hse.
  assert (not_null stored = true) as Hnn1
    by (subst stored; now rewrite not_null_compute_duration).
  assert (get id (sessions_after run1) = Some stored) as Hget1.
  { rewrite H1. cbn [sessions_after]. fold stored. rewrite <- Hid, <- Hsid.
    apply get_write. }
  assert (profile (session_user stored) = Some user_profile) as Hp1
    by now rewrite Hsu.
  destruct (sync_update_path api2 profile user_profile (sessions_after run1) id stored
                             event_id Hget1 Hp1 Hen Hss Hse Hne) as (Ht2 & Hall & Hone).
  fold run2 in Ht2, Hall, Hone.
  repeat split; try assumption; try (now rewrite H1).
  - rewrite H1. cbn [sent app]. unfold inserts. cbn [filter is_insert List.length].
    assert (filter is_insert (sent run2) = []) as ->; [|reflexivity].
    clear - Hall. induction (sent run2) as [|rq l IH]; [reflexivity|].
    cbn [filter]. rewrite (Hall rq (or_introl eq_refl)). cbn [is_insert].
    apply IH. intros x Hx. apply Hall. now right.
  - intros Hsvc2. now apply Hone.
Qed.

(** The witness of C2: the night of user 7, calendar enabled and up. *)
Lemma sync_creates_once_then_updates_witness :
  let run1 := sync_sleep_to_calendar calendar_up calendar_on [night] 1 in
  let run2 := sync_sleep_to_calendar calendar_down calendar_on (sessions_after run1) 1 in
  returned_ run1 = Created "evt-1"
  /\ inserts (sent run1 ++ sent run2) = 1%nat
  /\ sessions_after run2 = sessions_after run1.
Proof.
  pose proof (sync_creates_once_then_updates
                calendar_up calendar_down calendar_on (mk_profile true true)
                [night] 1 night "evt-1"
                eq_refl eq_refl eq_refl eq_refl (or_introl eq_refl)
                eq_refl eq_refl eq_refl) as H.
  cbv zeta in H. destruct H as (H1 & _ & _ & _ & _ & H6 & H7 & _).
  repeat split; assumption.
Defined.

(** C5 at its failing input: the session is on the calendar under
    [evt-1] and the calendar answers the update with an HTTP error.  The
    run leaves the session table as it was, but what it returns is the
    text of a successful update with [None] for the id, not one of the
    failure returns. *)
Theorem sync_update_failure_not_signalled :
  let run := sync_sleep_to_calendar calendar_down calendar_on [on_calendar] 3 in
  returned_ run = Updated None
  /\ render (returned_ run) = "Updated calendar event: None"%string
  /\ failure_signal (returned_ run) = false
  /\ sessions_after run = [on_calendar]
  /\ sent run = [EventsUpdate "evt-1" on_calendar].
Proof. repeat split. Qed.

(** The part of C5 the code keeps: whenever the calendar does not hand
    back an event id, the session table is left as it was; and on the
    create path such a run returns one of the failure returns. *)
Lemma sync_failure_keeps_sessions
      (api : API) (profile : Profiles) (user_profile : UserProfile)
      (table : list SleepSession) (id : Z) (s : SleepSession) :
  get id table = Some s ->
  (forall rq event_id,
      execute api rq = Executed (Some event_id) -> nonempty event_id = false) ->
  sessions_after (sync_sleep_to_calendar api profile table id) = table
  /\ (synced_to_calendar s = false \/ calendar_event_id s = None ->
      profile (session_user s) = Some user_profile ->
      google_calendar_enabled user_profile = true ->
      failure_signal (returned_ (sync_sleep_to_calendar api profile table id)) = true).
Proof.
  intros Hget Hfail. split.
  - apply sync_writes_only_when_created. intros event_id.
    unfold sync_sleep_to_calendar. rewrite Hget.
    destruct (profile (session_user s)) as [p|]; [|discriminate].
    destruct (google_calendar_enabled p); cbn [negb]; [|discriminate].
    unfold create_sleep_event, update_sleep_event, call.
    destruct (get_service api p);
      destruct (calendar_event_id s) as [stored|];
      try destruct (synced_to_calendar s && nonempty stored);
      cbn [body_of]; try destruct (not_null s) eqn:Enn;
      try destruct (execute api _) as [[e|]| |] eqn:Ex;
      try rewrite (Hfail _ _ Ex); try discriminate.
  - intros Hun Hp Hen.
    unfold sync_sleep_to_calendar. rewrite Hget, Hp, Hen. cbn [negb].
    unfold create_sleep_event, update_sleep_event, call.
    destruct (get_service api user_profile);
      destruct (calendar_event_id s) as [stored|];
      try destruct (synced_to_calendar s) eqn:Es; cbn [andb];
      try destruct (nonempty stored); cbn [body_of];
      try destruct (not_null s) eqn:Enn;
      try destruct (execute api _) as [[e|]| |] eqn:Ex;
      try rewrite (Hfail _ _ Ex);
      try reflexivity; destruct Hun; discriminate.
Qed.

(* ------------------------------------------------------------------ *)
(** ** The weekly report *)

(** C9 at its failing input: on Monday, day 19002, the only weekly row
    of the Monday before belongs to user 2, who has a profile with
    notifications off.  The claim has a report dispatched for the row;
    the loop, whose call of [send_weekly_report] stands outside the
    test that binds [statistics], raises [UnboundLocalError] at the
    call: nothing is handed to the transport. *)
Theorem weekly_report_unbound_statistics :
  let table := [week_of 2 (7 # 1) 5] in
  let run := send_weekly_reports quiet_2 smtp_up monday_morning table in
  weekly_rows (last_monday monday_morning) table = table
  /\ option_map notification_enabled (quiet_2 2) = Some false
  /\ run = Raised (UnboundLocalError "statistics") (mk_report_run [] 0 None)
  /\ report_outbox (final run) = [].
Proof. cbv zeta. split; [reflexivity|]. repeat split. Qed.

(* ------------------------------------------------------------------ *)
(** ** The statistics aggregator *)

Lemma PeriodType_eqb_eq (a b : PeriodType) : PeriodType_eqb a b = true <-> a = b.
Proof. destruct a, b; simpl; split; congruence. Qed.

Lemma has_key_true (u : user_id) (d : date) (p : PeriodType) (r : SleepStatistics) :
  has_key u d p r = true <-> key_of r = (u, d, p).
Proof.
  unfold has_key, key_of. rewrite !andb_true_iff, !Z.eqb_eq, PeriodType_eqb_eq.
  split; [intros [[-> ->] ->]; reflexivity | intros H; inversion H; auto].
Qed.

Lemma has_key_false (u : user_id) (d : date) (p : PeriodType) (r : SleepStatistics) :
  has_key u d p r = false <-> key_of r <> (u, d, p).
Proof.
  rewrite <- has_key_true. destruct (has_key u d p r); split; congruence.
Qed.

Lemma apply_defaults_key (defaults : Defaults) (r : SleepStatistics) :
  key_of (apply_defaults defaults r) = key_of r.
Proof. reflexivity. Qed.

Lemma has_key_apply_defaults (u : user_id) (d : date) (p : PeriodType)
      (defaults : Defaults) (r : SleepStatistics) :
  has_key u d p (apply_defaults defaults r) = has_key u d p r.
Proof. reflexivity. Qed.

(** Under the uniqueness constraint a key holds no row or one row. *)
Lemma rows_at_unique (u : user_id) (d : date) (p : PeriodType)
      (table : list SleepStatistics) :
  unique_keys table ->
  rows_at u d p table = [] \/ exists r, rows_at u d p table = [r].
Proof.
  unfold unique_keys, rows_at.
  induction table as [|a table IH]; simpl; intros Hnd; [now left|].
  inversion Hnd as [|? ? Hnin Hnd']; subst.
  destruct (has_key u d p a) eqn:Ea; [|now apply IH].
  right. exists a. f_equal.
  destruct (filter (has_key u d p) table) as [|b l] eqn:Ef; [reflexivity|].
  exfalso. apply Hnin.
  assert (In b (filter (has_key u d p) table)) as Hb by (rewrite Ef; now left).
  apply filter_In in Hb as [Hin Hk].
  apply has_key_true in Ea. apply has_key_true in Hk.
  rewrite Ea, <- Hk. now apply in_map.
Qed.

Lemma unique_keys_length (table : list SleepStatistics) :
  unique_keys table ->
  forall u d p, (List.length (rows_at u d p table) <= 1)%nat.
Proof.
  intros H u d p.
  destruct (rows_at_unique u d p table H) as [-> | [r ->]]; simpl; lia.
Qed.

Section Upsert.

Variables (user : user_id) (d : date) (p : PeriodType) (defaults : Defaults).

Let overwrite (r : SleepStatistics) : SleepStatistics :=
  if has_key user d p r then apply_defaults defaults r else r.

Lemma overwrite_key (r : SleepStatistics) : key_of (overwrite r) = key_of r.
Proof. unfold overwrite. now destruct (has_key user d p r). Qed.

Lemma rows_at_overwrite (u' : user_id) (d' : date) (p' : PeriodType)
      (table : list SleepStatistics) :
  rows_at u' d' p' (map overwrite table) = map overwrite (rows_at u' d' p' table).
Proof.
  unfold rows_at. induction table as [|a table IH]; simpl; [reflexivity|].
  assert (has_key u' d' p' (overwrite a) = has_key u' d' p' a) as ->.
  { unfold overwrite. now destruct (has_key user d p a). }
  destruct (has_key u' d' p' a); simpl; now rewrite IH.
Qed.

(** [update_or_create] on a table that keeps the uniqueness
    constraint: it does not raise, the constraint still holds, the key
    holds the upserted row and every other key holds what it held. *)
Lemma update_or_create_spec (table : list SleepStatistics) :
  unique_keys table ->
  exists table',
    update_or_create user d p defaults table = Done table'
    /\ unique_keys table'
    /\ rows_at user d p table' = [upserted user d p defaults (rows_at user d p table)]
    /\ forall u' d' p', (u', d', p') <> (user, d, p) ->
                        rows_at u' d' p' table' = rows_at u' d' p' table.
Proof.
  intros Hu. unfold update_or_create.
  destruct (rows_at_unique user d p table Hu) as [He | [r He]];
    unfold rows_at in He |- *; rewrite He.
  - exists (table ++ [create user d p defaults]). split; [reflexivity|].
    assert (has_key user d p (create user d p defaults) = true) as Hnew
      by (apply has_key_true; reflexivity).
    split; [|split].
    + unfold unique_keys. rewrite map_app. simpl.
      apply NoDup_app_remove_l with (l := []). simpl.
      apply NoDup_Add with (a := (user, d, p)) (l := map key_of table).
      * rewrite <- (app_nil_r (map key_of table)) at 1.
        apply Add_app.
      * split; [assumption|].
        intros Hin. apply in_map_iff in Hin as [x [Hx Hin]].
        assert (In x (filter (has_key user d p) table)) as Hf
          by (apply filter_In; split; [assumption | now apply has_key_true]).
        now rewrite He in Hf.
    + rewrite filter_app, He. simpl. now rewrite Hnew.
    + intros u' d' p' Hne. rewrite filter_app. simpl.
      assert (has_key u' d' p' (create user d p defaults) = false) as ->
        by (apply has_key_false; unfold key_of; simpl; intros H; now apply Hne).
      apply app_nil_r.
  - exists (map overwrite table). split; [reflexivity|].
    split; [|split].
    + unfold unique_keys. rewrite map_map.
      rewrite (map_ext _ key_of overwrite_key). assumption.
    + fold (rows_at user d p (map overwrite table)).
      rewrite rows_at_overwrite. unfold rows_at. rewrite He. simpl.
      assert (In r (filter (has_key user d p) table)) as Hr by (rewrite He; now left).
      apply filter_In in Hr as [_ Hk]. unfold overwrite. now rewrite Hk.
    + intros u' d' p' Hne.
      fold (rows_at u' d' p' (map overwrite table)) (rows_at u' d' p' table).
      rewrite rows_at_overwrite.
      rewrite <- (map_id (rows_at u' d' p' table)) at 2.
      apply map_ext_in. intros x Hx.
      apply filter_In in Hx as [_ Hk]. apply has_key_true in Hk.
      unfold overwrite.
      assert (has_key user d p x = false) as ->; [|reflexivity].
      apply has_key_false. congruence.
Qed.

(** [update_or_create] changes nothing when the key already holds one
    row with the metric fields of [defaults]. *)
Lemma update_or_create_settled (table : list SleepStatistics) (r : SleepStatistics) :
  rows_at user d p table = [r] ->
  apply_defaults defaults r = r ->
  update_or_create user d p defaults table = Done table.
Proof.
  intros He Hr. unfold update_or_create. unfold rows_at in He. rewrite He.
  f_equal. rewrite <- (map_id table) at 2.
  apply map_ext_in. intros x Hx.
  destruct (has_key user d p x) eqn:Hk; [|reflexivity].
  assert (In x (filter (has_key user d p) table)) as Hf
    by (apply filter_In; now split).
  rewrite He in Hf. destruct Hf as [<- | []]. exact Hr.
Qed.

End Upsert.

Lemma upserted_settled (u : user_id) (d : date) (p : PeriodType) (defaults : Defaults)
      (found : list SleepStatistics) :
  apply_defaults defaults (upserted u d p defaults found)
  = upserted u d p defaults found.
Proof. now destruct found. Qed.

Section StatsLoop.

Variables (anchor : date) (p : PeriodType) (select : user_id -> list SleepSession).

Lemma upserts_cons (u : user_id) (users : list user_id) :
  upserts select (u :: users)
  = (if exists_ (select u) then 1 else 0) + upserts select users.
Proof.
  unfold upserts, count. cbn [filter].
  destruct (exists_ (select u)); cbv beta iota; cbn [List.length];
    [|reflexivity].
  rewrite Nat2Z.inj_succ. symmetry. apply Z.add_1_l.
Qed.

(** One run of the loop from a table that keeps the uniqueness
    constraint: the run ends; the constraint holds at the end; the key
    of every user with selected sessions holds the upserted row; every
    other key holds what it held. *)
Lemma stats_loop_spec (users : list user_id) :
  forall st : StatsRun,
    NoDup users ->
    unique_keys (statistics st) ->
    exists table1,
      stats_loop anchor p select users st
      = Done (mk_stats_run table1 (stats_created st + upserts select users))
      /\ unique_keys table1
      /\ (forall u, In u users -> exists_ (select u) = true ->
                    rows_at u anchor p table1
                    = [upserted u anchor p (aggregate (select u))
                                (rows_at u anchor p (statistics st))])
      /\ (forall u d' p',
             ~ (In u users /\ exists_ (select u) = true /\ d' = anchor /\ p' = p) ->
             rows_at u d' p' table1 = rows_at u d' p' (statistics st)).
Proof.
  unfold stats_loop.
  induction users as [|u0 users IH]; intros st Hnd Hu.
  - exists (statistics st). simpl. unfold upserts, count. simpl.
    rewrite Z.add_0_r. destruct st. repeat split; try assumption. contradiction.
  - inversion Hnd as [|? ? Hnin Hnd']; subst.
    rewrite upserts_cons. simpl. unfold upsert_for at 1.
    destruct (exists_ (select u0)) eqn:E0.
    + destruct (update_or_create_spec u0 anchor p (aggregate (select u0))
                                      (statistics st) Hu)
        as (t' & Hrun & Hu' & Hrow & Hframe).
      rewrite Hrun.
      destruct (IH (mk_stats_run t' (stats_created st + 1)) Hnd' Hu')
        as (t1 & Hloop & Hu1 & Hrows & Hothers).
      cbn [statistics stats_created] in *. exists t1. split; [|split; [|split]].
      * rewrite Hloop. do 2 f_equal. lia.
      * assumption.
      * intros u [<- | Hin] He.
        -- rewrite Hothers; [assumption|]. intros (Hin & _). contradiction.
        -- rewrite (Hrows u Hin He). rewrite Hframe; [reflexivity|].
           intros H. inversion H; subst. contradiction.
      * intros u d' p' Hno. rewrite Hothers.
        -- apply Hframe. intros H. inversion H; subst. apply Hno. auto.
        -- intros (Hin & He & Hd & Hp). apply Hno. auto.
    + destruct (IH st Hnd' Hu) as (t1 & Hloop & Hu1 & Hrows & Hothers).
      exists t1. split; [|split; [|split]].
      * rewrite Hloop. reflexivity.
      * assumption.
      * intros u [<- | Hin] He; [congruence | now apply Hrows].
      * intros u d' p' Hno. apply Hothers.
        intros (Hin & He & Hd & Hp). apply Hno. auto.
Qed.

(** A run of the loop from a table in which the key of every user with
    selected sessions already holds one row with the aggregates of
    those sessions leaves the table as it is. *)
Lemma stats_loop_settled (users : list user_id) :
  forall st : StatsRun,
    (forall u, In u users -> exists_ (select u) = true ->
               exists r, rows_at u anchor p (statistics st) = [r]
                         /\ apply_defaults (aggregate (select u)) r = r) ->
    stats_loop anchor p select users st
    = Done (mk_stats_run (statistics st) (stats_created st + upserts select users)).
Proof.
  unfold stats_loop.
  induction users as [|u0 users IH]; intros st Hset.
  - simpl. unfold upserts, count. simpl. rewrite Z.add_0_r. now destruct st.
  - rewrite upserts_cons. simpl. unfold upsert_for at 1.
    destruct (exists_ (select u0)) eqn:E0.
    + destruct (Hset u0 (or_introl eq_refl) E0) as (r & Hr & Hsame).
      rewrite (update_or_create_settled u0 anchor p _ _ r Hr Hsame).
      rewrite IH; cbn [statistics stats_created].
      * do 2 f_equal. lia.
      * intros u Hin He. apply Hset; [now right | assumption].
    + rewrite IH.
      * reflexivity.
      * intros u Hin He. apply Hset; [now right | assumption].
Qed.

(** Running the loop again on the table a first run reached gives that
    table again, with the same count. *)
Lemma stats_loop_twice (users : list user_id) (table : list SleepStatistics) :
  NoDup users ->
  unique_keys table ->
  exists table1,
    stats_loop anchor p select users (mk_stats_run table 0)
    = Done (mk_stats_run table1 (upserts select users))
    /\ stats_loop anchor p select users (mk_stats_run table1 0)
       = Done (mk_stats_run table1 (upserts select users))
    /\ unique_keys table1
    /\ (forall u, In u users -> exists_ (select u) = true ->
                  rows_at u anchor p table1
                  = [upserted u anchor p (aggregate (select u))
                              (rows_at u anchor p table)])
    /\ (forall u d' p',
           ~ (In u users /\ exists_ (select u) = true /\ d' = anchor /\ p' = p) ->
           rows_at u d' p' table1 = rows_at u d' p' table).
Proof.
  intros Hnd Hu.
  destruct (stats_loop_spec users (mk_stats_run table 0) Hnd Hu)
    as (t1 & Hrun & Hu1 & Hrows & Hothers).
  simpl in *. exists t1. repeat split; try assumption.
  rewrite (stats_loop_settled users (mk_stats_run t1 0)); [reflexivity|].
  simpl. intros u Hin He. eexists. split; [now apply Hrows|].
  apply upserted_settled.
Qed.

End StatsLoop.

(** *** The two tasks as runs of the loop *)

Lemma daily_is_loop (now : datetime) (sleep_sessions : list SleepSession)
      (table : list SleepStatistics) :
  calculate_daily_statistics now sleep_sessions table
  = stats_loop (yesterday_of now) daily (daily_selection now sleep_sessions)
               (distinct_users (filter (slept_on (yesterday_of now)) sleep_sessions))
               (mk_stats_run table 0).
Proof. reflexivity. Qed.

Lemma weekly_is_loop (now : datetime) (sleep_sessions : list SleepSession)
      (table : list SleepStatistics) :
  calculate_weekly_statistics now sleep_sessions table
  = stats_loop (week_start_of now) weekly (weekly_selection now sleep_sessions)
               (distinct_users (filter (slept_between (week_start_of now) (week_end_of now))
                                       sleep_sessions))
               (mk_stats_run table 0).
Proof. reflexivity. Qed.

Lemma exists_true {A : Type} (rows : list A) : exists_ rows = true <-> rows <> [].
Proof. destruct rows; simpl; split; congruence. Qed.

(** The users the loop visits are those with selected sessions. *)
Lemma in_distinct_users (window : SleepSession -> bool)
      (sleep_sessions : list SleepSession) (user : user_id) :
  In user (distinct_users (filter window sleep_sessions))
  <-> filter (fun s => (session_user s =? user) && window s) sleep_sessions <> [].
Proof.
  unfold distinct_users. rewrite nodup_In, in_map_iff. split.
  - intros (s & Hu & Hin) He. apply filter_In in Hin as [Hin Hw].
    assert (In s (filter (fun s => (session_user s =? user) && window s) sleep_sessions))
      as Hs by (apply filter_In; split; [assumption|];
                rewrite Hw, andb_true_r; now apply Z.eqb_eq).
    now rewrite He in Hs.
  - intros Hne.
    destruct (filter (fun s => (session_user s =? user) && window s) sleep_sessions)
      as [|s l] eqn:Ef; [congruence|].
    assert (In s (filter (fun s => (session_user s =? user) && window s) sleep_sessions))
      as Hs by (rewrite Ef; now left).
    apply filter_In in Hs as [Hin Hb]. apply andb_prop in Hb as [Hu Hw].
    exists s. split; [now apply Z.eqb_eq|]. apply filter_In. now split.
Qed.

(** What a run of a statistics task leaves, from a table that keeps the
    uniqueness constraint (shown for the loop; both tasks are instances):
    the run ends; a second run on its table ends in the same state; the
    constraint still holds; the key of every user with selected sessions
    holds the upserted row; every other key holds what it held. *)
Lemma task_run
      (anchor : date) (p : PeriodType) (window : SleepSession -> bool)
      (sleep_sessions : list SleepSession) (table : list SleepStatistics) :
  let select := fun user =>
                  filter (fun s => (session_user s =? user) && window s) sleep_sessions in
  let users := distinct_users (filter window sleep_sessions) in
  unique_keys table ->
  exists table1 n,
    stats_loop anchor p select users (mk_stats_run table 0) = Done (mk_stats_run table1 n)
    /\ stats_loop anchor p select users (mk_stats_run table1 0)
       = Done (mk_stats_run table1 n)
    /\ unique_keys table1
    /\ (forall u, select u <> [] ->
                  rows_at u anchor p table1
                  = [upserted u anchor p (aggregate (select u)) (rows_at u anchor p table)])
    /\ (forall u d' p', ~ (select u <> [] /\ d' = anchor /\ p' = p) ->
                        rows_at u d' p' table1 = rows_at u d' p' table).
Proof.
  intros select users Hu.
  destruct (stats_loop_twice anchor p select users table) as (t1 & H1 & H2 & H3 & H4 & H5);
    [apply NoDup_nodup | assumption |].
  exists t1, (upserts select users). repeat split; try assumption.
  - intros u Hne. apply H4; [now apply in_distinct_users | now apply exists_true].
  - intros u d' p' Hno. apply H5. intros (Hin & He & Hd & Hp).
    apply Hno. repeat split; try assumption. now apply exists_true.
Qed.

(** C1.  From a statistics table that keeps the uniqueness constraint,
    [calculate_daily_statistics] ends without raising; run again at the
    same instant over the same sessions on the table it left, it ends in
    the very same state: the same table, row for row and value for value,
    and the same count.  In that table every key (owner, date, period
    kind) holds at most one row, and for every owner with a session
    yesterday the key (owner, yesterday, daily) holds exactly one. *)
Theorem daily_statistics_idempotent :
  forall (now : datetime) (sleep_sessions : list SleepSession)
         (table : list SleepStatistics),
    unique_keys table ->
    exists table1 n,
      calculate_daily_statistics now sleep_sessions table = Done (mk_stats_run table1 n)
      /\ calculate_daily_statistics now sleep_sessions table1
         = Done (mk_stats_run table1 n)
      /\ unique_keys table1
      /\ (forall user d p, (List.length (rows_at user d p table1) <= 1)%nat)
      /\ (forall user, daily_selection now sleep_sessions user <> [] ->
                       List.length (rows_at user (yesterday_of now) daily table1) = 1%nat).
Proof.
  intros now sleep_sessions table Hu.
  destruct (task_run (yesterday_of now) daily (slept_on (yesterday_of now))
                     sleep_sessions table Hu)
    as (t1 & n & H1 & H2 & H3 & H4 & _).
  exists t1, n. rewrite !daily_is_loop. repeat split; try assumption.
  - now apply unique_keys_length.
  - intros user Hsel. unfold daily_selection, sessions_on in Hsel.
    now rewrite (H4 user Hsel).
Qed.

(** *** The aggregates *)

Lemma fold_left_durations (sessions : list SleepSession) (start : Q) :
  (fold_left (fun acc s => acc + match duration_hours s with
                                 | Some h => h
                                 | None => 0
                                 end) sessions start
   == start + sum_Q (durations sessions))%Q.
Proof.
  revert start. induction sessions as [|s rest IH]; intros start; simpl.
  - unfold sum_Q. simpl. ring.
  - rewrite IH. unfold sum_Q. simpl. ring.
Qed.

Lemma total_hours_of_sum (sessions : list SleepSession) :
  (total_hours_of sessions == sum_Q (durations sessions))%Q.
Proof. unfold total_hours_of. rewrite fold_left_durations. ring. Qed.

Lemma fold_left_ratings (sessions : list SleepSession) (start : Z) :
  fold_left (fun acc s => acc + match quality_rating s with
                                | Some q => q
                                | None => 0
                                end) (filter rated sessions) start
  = start + fold_right Z.add 0 (ratings sessions).
Proof.
  revert start. induction sessions as [|s rest IH]; intros start; simpl; [lia|].
  unfold rated at 1. destruct (quality_rating s) as [q|] eqn:Eq; simpl.
  - rewrite Eq, IH. lia.
  - apply IH.
Qed.

Lemma length_rated (sessions : list SleepSession) :
  List.length (filter rated sessions) = List.length (ratings sessions).
Proof.
  induction sessions as [|s rest IH]; simpl; [reflexivity|].
  unfold rated at 1. destruct (quality_rating s); simpl; now rewrite IH.
Qed.

Lemma ratings_sum_rated (sessions : list SleepSession) :
  ratings_sum (filter rated sessions) = fold_right Z.add 0 (ratings sessions).
Proof. unfold ratings_sum. now rewrite fold_left_ratings. Qed.

(** [avg_quality] is the float of the sum of the ratings there are by
    their number, and [None] when there is none. *)
Lemma aggregate_quality (sessions : list SleepSession) :
  d_average_quality (aggregate sessions)
  = match ratings sessions with
    | [] => None
    | _ :: _ => Some (PyFloat.int_truediv (fold_right Z.add 0 (ratings sessions))
                                          (Z.of_nat (List.length (ratings sessions))))
    end.
Proof.
  unfold aggregate, count. cbn [d_average_quality].
  rewrite ratings_sum_rated, length_rated.
  pose proof (length_rated sessions) as Hlen.
  destruct (filter rated sessions), (ratings sessions); cbn in Hlen |- *;
    try discriminate; reflexivity.
Qed.

Lemma two_decimals_sum (l : list Q) :
  (forall q, In q l -> two_decimals q) -> two_decimals (sum_Q l).
Proof.
  induction l as [|q l IH]; intros Hall.
  - exists 0. reflexivity.
  - destruct (Hall q (or_introl eq_refl)) as [n Hn].
    destruct IH as [m Hm]; [intros x Hx; apply Hall; now right|].
    exists (n + m). change (sum_Q (q :: l)) with (q + sum_Q l)%Q.
    rewrite Hn, Hm. unfold Qeq, Qplus. cbn [Qnum Qden]. lia.
Qed.

Lemma nearest_hundredth_proper (q q' d : Q) :
  (q == q')%Q -> nearest_hundredth q d -> nearest_hundredth q' d.
Proof. intros H [Hd Hn]. split; [exact Hd|]. now rewrite <- H. Qed.

Lemma quotient_of_ints (a b : Z) :
  0 < b -> (inject_Z a / inject_Z b == a # Z.to_pos b)%Q.
Proof.
  intros Hb. destruct b as [|b|b]; try lia.
  unfold Qeq, Qdiv, Qmult, Qinv, inject_Z. cbn [Qnum Qden Z.to_pos]. lia.
Qed.

Section StoredMetrics.

Variables (user : user_id) (anchor : date) (p : PeriodType).
Variable selected : list SleepSession.
Variable row : SleepStatistics.
Hypothesis some_selected : selected <> [].
Hypothesis row_metrics : metrics row = metrics (create user anchor p (aggregate selected)).

Lemma stored_fields :
  total_sleep_hours row = Decimal.two_places (total_hours_of selected)
  /\ average_sleep_hours row
     = Decimal.two_places (Decimal.divide (total_hours_of selected)
                                          (Z.of_nat (List.length selected)))
  /\ average_quality row = quality_column (d_average_quality (aggregate selected))
  /\ sessions_count row = Z.of_nat (List.length selected).
Proof.
  unfold metrics, create in row_metrics.
  cbn [total_sleep_hours average_sleep_hours average_quality sessions_count
       d_total_sleep_hours d_average_sleep_hours d_average_quality d_sessions_count
       aggregate] in row_metrics.
  injection row_metrics as Ht Ha Hq Hc. repeat split; assumption.
Qed.

(** The totals of a row made from the selected sessions. *)
Lemma stored_totals : totals_of selected row.
Proof.
  destruct stored_fields as (Ht & Ha & _ & Hc).
  split; [exact Hc|]. intros [Hdec Hsmall].
  destruct (two_decimals_sum _ Hdec) as [N HN].
  assert (total_hours_of selected == N # 100)%Q as Htotal
    by (now rewrite total_hours_of_sum).
  assert (Z.abs N < 10 ^ 25) as HNsmall.
  { rewrite HN in Hsmall. apply Qabs_Qle_condition in Hsmall.
    unfold Qle, Qopp, inject_Z in Hsmall. cbn [Qnum Qden] in Hsmall.
    change (10 ^ 25) with (10 ^ 20 * 10 ^ 5). lia. }
  assert (0 < Z.of_nat (List.length selected)) as Hk
    by (destruct selected; [congruence | cbn [List.length]; lia]).
  assert (total_sleep_hours row == sum_Q (durations selected))%Q as Hsum.
  { rewrite Ht, <- total_hours_of_sum. apply two_places_exact.
    exists N. exact Htotal. }
  assert (average_sleep_hours row
          = Decimal.two_places
              (total_sleep_hours row / inject_Z (Z.of_nat (List.length selected)))) as Havg.
  { rewrite Ha, (two_places_divide _ N _ Htotal Hk HNsmall).
    apply two_places_proper. rewrite Hsum, total_hours_of_sum. reflexivity. }
  split; [exact Hsum|]. split.
  - rewrite Havg. apply two_places_near.
  - rewrite Havg. reflexivity.
Qed.

(** The average quality of a row made from the selected sessions. *)
Lemma stored_quality : rated_1_to_5 selected -> quality_is_rounded_mean selected row.
Proof.
  intros [Hrange Hmany].
  destruct stored_fields as (_ & _ & Hq & _).
  rewrite aggregate_quality in Hq. unfold quality_is_rounded_mean.
  destruct (ratings selected) as [|r rs] eqn:Er; [exact Hq|].
  rewrite <- Er in *. cbn [quality_column] in Hq. eexists. split; [exact Hq|].
  set (S := fold_right Z.add 0 (ratings selected)).
  set (k := Z.of_nat (List.length (ratings selected))) in *.
  assert (0 < k) as Hk by (subst k; rewrite Er; cbn [List.length]; lia).
  assert (k * 1 <= S <= k * 5) as HS.
  { subst S k. clear - Hrange. induction (ratings selected) as [|x l IH].
    - cbn. lia.
    - cbn [fold_right List.length]. rewrite Nat2Z.inj_succ.
      pose proof (Hrange x (or_introl eq_refl)).
      assert (forall r, In r l -> 1 <= r <= 5) as Hl by (intros; apply Hrange; now right).
      specialize (IH Hl). lia. }
  pose proof (int_truediv_hundredths S k) as Hnear.
  change (2 ^ 44) with 17592186044416 in Hnear.
  change (10 ^ 12) with 1000000000000 in Hmany.
  specialize (Hnear ltac:(lia) ltac:(lia)).
  apply nearest_hundredth_proper with (q := (S # Z.to_pos k)%Q).
  - unfold mean. fold S k. symmetry. now apply quotient_of_ints.
  - split; [eexists; reflexivity|].
    unfold PyFloat.round2. apply Qabs_Qle_condition.
    unfold Qle, Qminus, Qplus, Qopp. cbn [Qnum Qden]. rewrite Z2Pos.id by assumption.
    lia.
Qed.

End StoredMetrics.

Lemma upserted_fields (u : user_id) (d : date) (p : PeriodType) (defaults : Defaults)
      (found : list SleepStatistics) :
  goal_achievement_rate (upserted u d p defaults found) = goal_rate_at found
  /\ metrics (upserted u d p defaults found) = metrics (create u d p defaults).
Proof. destruct found; simpl; repeat split. Qed.

(** Both tasks overwrite the metrics and nothing else. *)
Lemma task_overwrites_metrics_only
      (anchor : date) (p : PeriodType) (window : SleepSession -> bool)
      (sleep_sessions : list SleepSession) (table : list SleepStatistics) :
  unique_keys table ->
  overwrites_metrics_only
    (stats_loop anchor p
       (fun user => filter (fun s => (session_user s =? user) && window s) sleep_sessions)
       (distinct_users (filter window sleep_sessions))
       (mk_stats_run table 0))
    anchor p
    (fun user => filter (fun s => (session_user s =? user) && window s) sleep_sessions)
    table.
Proof.
  intros Hu.
  destruct (task_run anchor p window sleep_sessions table Hu)
    as (t1 & n & H1 & _ & _ & H4 & H5).
  exists t1, n. split; [assumption|]. split; [|assumption].
  intros user Hsel. eexists. split; [now apply H4|]. apply upserted_fields.
Qed.

Lemma daily_overwrites_metrics_only
      (now : datetime) (sleep_sessions : list SleepSession) (table : list SleepStatistics) :
  unique_keys table ->
  overwrites_metrics_only (calculate_daily_statistics now sleep_sessions table)
                          (yesterday_of now) daily
                          (daily_selection now sleep_sessions) table.
Proof.
  intros Hu. rewrite daily_is_loop.
  now apply (task_overwrites_metrics_only (yesterday_of now) daily
                                          (slept_on (yesterday_of now))).
Qed.

Lemma weekly_overwrites_metrics_only
      (now : datetime) (sleep_sessions : list SleepSession) (table : list SleepStatistics) :
  unique_keys table ->
  overwrites_metrics_only (calculate_weekly_statistics now sleep_sessions table)
                          (week_start_of now) weekly
                          (weekly_selection now sleep_sessions) table.
Proof.
  intros Hu. rewrite weekly_is_loop.
  now apply (task_overwrites_metrics_only
               (week_start_of now) weekly
               (slept_between (week_start_of now) (week_end_of now))).
Qed.

(** The row a run leaves for a user with selected sessions carries the
    aggregates of those sessions, as the columns hold them. *)
Lemma leaves_aggregates
      (run : outcome StatsRun) (anchor : date) (p : PeriodType)
      (select : user_id -> list SleepSession) (table : list SleepStatistics)
      (user : user_id) :
  overwrites_metrics_only run anchor p select table ->
  select user <> [] ->
  exists row,
    leaves_row run user anchor p row
    /\ totals_of (select user) row
    /\ (rated_1_to_5 (select user) -> quality_is_rounded_mean (select user) row).
Proof.
  intros (t1 & n & Hrun & Hrows & _) Hsel.
  destruct (Hrows user Hsel) as (row & Hrow & _ & Hm).
  exists row. split; [now exists t1, n|]. split.
  - exact (stored_totals user anchor p (select user) row Hsel Hm).
  - exact (stored_quality user anchor p (select user) row Hm).
Qed.

Lemma stale_table_unique : unique_keys stale_table.
Proof. unfold unique_keys. simpl. repeat constructor; simpl; intuition discriminate. Qed.

Lemma three_sessions_as_stored : as_stored three_sessions.
Proof.
  split.
  - intros d [H|[H|[H|[]]]]; subst d.
    + exists 750. vm_compute. reflexivity.
    + exists 800. vm_compute. reflexivity.
    + exists 650. vm_compute. reflexivity.
  - vm_compute. discriminate.
Qed.

(** C6.  From a statistics table that keeps the uniqueness constraint,
    for every user with at least one session selected (slept yesterday,
    for the daily task; slept between Monday and Sunday of the running
    week, for the weekly task) the run leaves one row under the user's
    key, in which [sessions_count] is the number of the sessions,
    [total_sleep_hours] is the sum of their durations, a missing
    duration counting for 0, and [average_sleep_hours] is that total
    divided by that number, rounded, as the example of the claim has
    it: at the two decimal places of its column, no decimal with two
    places being nearer to the quotient.  The durations are taken as the
    store holds them, decimals with two places.  For the three sessions
    of 7.5, 8 and 6.5 hours of one user on one day the row has a total
    of 22, an average of 7.33 and a count of 3. *)
Theorem statistics_totals :
  forall (now : datetime) (sleep_sessions : list SleepSession)
         (table : list SleepStatistics) (user : user_id),
    unique_keys table ->
    (daily_selection now sleep_sessions user <> [] ->
     exists row,
       leaves_row (calculate_daily_statistics now sleep_sessions table)
                  user (yesterday_of now) daily row
       /\ totals_of (daily_selection now sleep_sessions user) row)
    /\ (weekly_selection now sleep_sessions user <> [] ->
        exists row,
          leaves_row (calculate_weekly_statistics now sleep_sessions table)
                     user (week_start_of now) weekly row
          /\ totals_of (weekly_selection now sleep_sessions user) row)
    /\ (map Qred (durations three_sessions) = [15 # 2; 8 # 1; 13 # 2]
        /\ exists row,
            leaves_row (calculate_daily_statistics next_night three_sessions [])
                       7 19001 daily row
            /\ Qred (total_sleep_hours row) = 22 # 1
            /\ Qred (average_sleep_hours row) = 733 # 100
            /\ sessions_count row = 3).
Proof.
  intros now sleep_sessions table user Hu. split; [|split].
  - intros Hsel.
    destruct (leaves_aggregates _ _ _ _ _ user
                (daily_overwrites_metrics_only now sleep_sessions table Hu) Hsel)
      as (row & Hrow & Htot & _).
    now exists row.
  - intros Hsel.
    destruct (leaves_aggregates _ _ _ _ _ user
                (weekly_overwrites_metrics_only now sleep_sessions table Hu) Hsel)
      as (row & Hrow & Htot & _).
    now exists row.
  - split; [vm_compute; reflexivity|].
    eexists. split; [|split; [|split]].
    + eexists. eexists. split; vm_compute; reflexivity.
    + vm_compute. reflexivity.
    + vm_compute. reflexivity.
    + reflexivity.
Qed.

(** The witness of C6: the three sessions, which are as the store holds
    them, summed over the stale row of user 7. *)
Lemma statistics_totals_witness :
  unique_keys stale_table
  /\ daily_selection next_night three_sessions 7 <> []
  /\ as_stored (daily_selection next_night three_sessions 7)
  /\ exists row,
      leaves_row (calculate_daily_statistics next_night three_sessions stale_table)
                 7 (yesterday_of next_night) daily row
      /\ totals_of (daily_selection next_night three_sessions 7) row.
Proof.
  assert (daily_selection next_night three_sessions 7 <> []) as Hsel
    by (vm_compute; discriminate).
  split; [exact stale_table_unique|]. split; [exact Hsel|].
  split; [exact three_sessions_as_stored|].
  exact (proj1 (statistics_totals next_night three_sessions stale_table 7
                                  stale_table_unique) Hsel).
Defined.

(** The sessions rated 4, 3 and 4: the mean of the ratings is 11/3, and
    the row the daily run leaves has an average quality of 3.67, which
    is not that mean. *)
Lemma quality_is_not_the_exact_mean :
  ratings three_rated = [4; 3; 4]
  /\ (mean (ratings three_rated) == 11 # 3)%Q
  /\ exists row,
      leaves_row (calculate_daily_statistics next_night three_rated [])
                 7 19001 daily row
      /\ average_quality row = Some (367 # 100)
      /\ ~ quality_is_mean three_rated row.
Proof.
  split; [reflexivity|]. split; [vm_compute; reflexivity|].
  eexists. split; [|split].
  - eexists. eexists. split; vm_compute; reflexivity.
  - vm_compute. reflexivity.
  - unfold quality_is_mean.
    replace (ratings three_rated) with [4; 3; 4] by reflexivity.
    intros (q & Hq & Hmean). vm_compute in Hq. injection Hq as Hq. subst q.
    vm_compute in Hmean. discriminate.
Qed.

(** C8, amended.  From a statistics table that keeps the uniqueness
    constraint, for every user with at least one session selected, by
    the daily task and by the weekly task alike, the row the run leaves
    has for [average_quality] the mean of the ratings of exactly the
    selected sessions that have one, rounded to two decimal places (a
    decimal with two places, none being nearer to the mean), and null
    when none has one; the ratings are between 1 and 5, as the model
    admits them.  For the three sessions rated 3, not rated and rated 5
    the row has an average quality of 4.00. *)
Theorem statistics_average_quality :
  forall (now : datetime) (sleep_sessions : list SleepSession)
         (table : list SleepStatistics) (user : user_id),
    unique_keys table ->
    (daily_selection now sleep_sessions user <> [] ->
     rated_1_to_5 (daily_selection now sleep_sessions user) ->
     exists row,
       leaves_row (calculate_daily_statistics now sleep_sessions table)
                  user (yesterday_of now) daily row
       /\ quality_is_rounded_mean (daily_selection now sleep_sessions user) row)
    /\ (weekly_selection now sleep_sessions user <> [] ->
        rated_1_to_5 (weekly_selection now sleep_sessions user) ->
        exists row,
          leaves_row (calculate_weekly_statistics now sleep_sessions table)
                     user (week_start_of now) weekly row
          /\ quality_is_rounded_mean (weekly_selection now sleep_sessions user) row)
    /\ (ratings three_sessions = [3; 5]
        /\ exists row,
            leaves_row (calculate_daily_statistics next_night three_sessions [])
                       7 19001 daily row
            /\ average_quality row = Some (400 # 100)).
Proof.
  intros now sleep_sessions table user Hu. split; [|split].
  - intros Hsel Hrated.
    destruct (leaves_aggregates _ _ _ _ _ user
                (daily_overwrites_metrics_only now sleep_sessions table Hu) Hsel)
      as (row & Hrow & _ & Hq).
    exists row. split; [exact Hrow | exact (Hq Hrated)].
  - intros Hsel Hrated.
    destruct (leaves_aggregates _ _ _ _ _ user
                (weekly_overwrites_metrics_only now sleep_sessions table Hu) Hsel)
      as (row & Hrow & _ & Hq).
    exists row. split; [exact Hrow | exact (Hq Hrated)].
  - split; [reflexivity|].
    eexists. split.
    + eexists. eexists. split; vm_compute; reflexivity.
    + vm_compute. reflexivity.
Qed.

(** The witness of C8: the sessions rated 4, 3 and 4, over the stale
    row of user 7. *)
Lemma statistics_average_quality_witness :
  unique_keys stale_table
  /\ daily_selection next_night three_rated 7 <> []
  /\ rated_1_to_5 (daily_selection next_night three_rated 7)
  /\ exists row,
      leaves_row (calculate_daily_statistics next_night three_rated stale_table)
                 7 (yesterday_of next_night) daily row
      /\ quality_is_rounded_mean (daily_selection next_night three_rated 7) row.
Proof.
  assert (daily_selection next_night three_rated 7 <> []) as Hsel
    by (vm_compute; discriminate).
  assert (rated_1_to_5 (daily_selection next_night three_rated 7)) as Hrated.
  { split.
    - intros r [H|[H|[H|[]]]]; subst r; lia.
    - vm_compute. reflexivity. }
  split; [exact stale_table_unique|]. split; [exact Hsel|]. split; [exact Hrated|].
  exact (proj1 (statistics_average_quality next_night three_rated stale_table 7
                                           stale_table_unique) Hsel Hrated).
Defined.

(** C10.  From a statistics table that keeps the uniqueness constraint,
    [calculate_daily_statistics] and [calculate_weekly_statistics] each
    end without raising and write no [goal_achievement_rate]: the row
    under the key of a user with selected sessions has the rate the key
    held before the run, null when the run inserted the row, while its
    total, average, average quality and count are those of a row made
    afresh from the sessions just selected, whatever the row held; the
    rows under all other keys are as they were. *)
Theorem statistics_keep_goal_rate :
  forall (now : datetime) (sleep_sessions : list SleepSession)
         (table : list SleepStatistics),
    unique_keys table ->
    overwrites_metrics_only (calculate_daily_statistics now sleep_sessions table)
                            (yesterday_of now) daily
                            (daily_selection now sleep_sessions) table
    /\ overwrites_metrics_only (calculate_weekly_statistics now sleep_sessions table)
                               (week_start_of now) weekly
                               (weekly_selection now sleep_sessions) table.
Proof.
  intros now sleep_sessions table Hu. split.
  - now apply daily_overwrites_metrics_only.
  - now apply weekly_overwrites_metrics_only.
Qed.

(** The witness of C10: the daily run over the three sessions, on the
    table that holds a stale row with a rate of 80 for user 7: the rate
    stays, the figures change to 22, 7.33, 4.00 and 3, the row of user
    8 stays. *)
Lemma statistics_keep_goal_rate_witness :
  unique_keys stale_table
  /\ exists table1 n row,
      calculate_daily_statistics next_night three_sessions stale_table
      = Done (mk_stats_run table1 n)
      /\ rows_at 7 19001 daily table1 = [row]
      /\ goal_achievement_rate row = Some (80 # 1)
      /\ metrics row = (2200 # 100, 733 # 100, Some (400 # 100), 3)
      /\ rows_at 8 19001 daily table1 = rows_at 8 19001 daily stale_table.
Proof.
  split; [exact stale_table_unique|].
  destruct (proj1 (statistics_keep_goal_rate next_night three_sessions stale_table
                                             stale_table_unique))
    as (table1 & n & Hrun & Hrows & Hothers).
  assert (daily_selection next_night three_sessions 7 <> []) as Hsel
    by (vm_compute; discriminate).
  destruct (Hrows 7 Hsel) as (row & Hrow & Hgoal & Hm).
  exists table1, n, row.
  split; [exact Hrun|]. split; [exact Hrow|]. split; [exact Hgoal|]. split.
  - rewrite Hm. vm_compute. reflexivity.
  - apply Hothers. intros (H & _). apply H. reflexivity.
Defined.

(** The witness of C1: the daily run over the three sessions on the
    stale table, twice. *)
Lemma daily_statistics_idempotent_witness :
  unique_keys stale_table
  /\ exists table1 n,
      calculate_daily_statistics next_night three_sessions stale_table
      = Done (mk_stats_run table1 n)
      /\ calculate_daily_statistics next_night three_sessions table1
         = Done (mk_stats_run table1 n)
      /\ List.length (rows_at 7 19001 daily table1) = 1%nat.
Proof.
  split; [exact stale_table_unique|].
  destruct (daily_statistics_idempotent next_night three_sessions stale_table
                                        stale_table_unique)
    as (table1 & n & H1 & H2 & _ & _ & H5).
  exists table1, n. repeat split; try assumption.
  apply H5. vm_compute. discriminate.
Defined.

(* ================================================================== *)
(** * Further properties of the tasks, the model and the views *)

Import Laws.

(* ------------------------------------------------------------------ *)
(** ** The week of the weekly tasks *)

Lemma weekday_range (d : date) : 0 <= weekday d < 7.
Proof. unfold weekday. apply Z.mod_pos_bound. lia. Qed.

Lemma weekday_spec (d : date) : exists q, d + 3 = 7 * q + weekday d.
Proof. exists ((d + 3) / 7). unfold weekday. apply Z.div_mod. lia. Qed.

(** A date is a Monday exactly when it is 7 * q - 3 for some q. *)
Lemma monday_iff (d : date) : weekday d = 0 <-> exists q, d = 7 * q - 3.
Proof.
  split.
  - intros H. destruct (weekday_spec d) as [q Hq]. exists q. lia.
  - intros [q ->]. unfold weekday.
    replace (7 * q - 3 + 3) with (q * 7) by lia. apply Z.mod_mul. lia.
Qed.

(** The week [calculate_weekly_statistics] aggregates runs from a Monday
    to the Sunday six days later and holds the day of the run. *)
Theorem weekly_window_is_the_running_week :
  forall (now : datetime) (sleep_sessions : list SleepSession)
         (table : list SleepStatistics),
    calculate_weekly_statistics now sleep_sessions table
    = stats_loop (week_start_of now) weekly (weekly_selection now sleep_sessions)
                 (owners_in (in_week now) sleep_sessions) (mk_stats_run table 0)
    /\ weekday (week_start_of now) = 0
    /\ weekday (week_end_of now) = 6
    /\ week_end_of now = week_start_of now + 6
    /\ week_start_of now <= date_of now <= week_end_of now.
Proof.
  intros now sleep_sessions table. split; [reflexivity|].
  pose proof (weekday_range (date_of now)) as Hr.
  destruct (weekday_spec (date_of now)) as [q Hq].
  assert (week_start_of now = 7 * q - 3) as Hs
    by (unfold week_start_of, minus_days; lia).
  assert (week_end_of now = 7 * q + 3) as He
    by (unfold week_end_of, plus_days; lia).
  split; [apply monday_iff; now exists q|].
  split; [|lia].
  rewrite He. unfold weekday.
  replace (7 * q + 3 + 3) with (6 + q * 7) by lia.
  rewrite Z.mod_add by lia. reflexivity.
Qed.

(** The Monday the weekly report reads is a Monday, the one a week
    before the Monday of the running week; so a report run on any day of
    the week after a statistics run reads the very rows that run wrote. *)
Theorem report_reads_the_week_before :
  forall now later : datetime,
    weekday (last_monday now) = 0
    /\ last_monday now = week_start_of now - 7
    /\ (week_start_of now + 7 <= date_of later <= week_start_of now + 13 ->
        last_monday later = week_start_of now).
Proof.
  intros now later.
  pose proof (weekday_range (date_of now)) as Hr.
  destruct (weekday_spec (date_of now)) as [q Hq].
  assert (last_monday now = week_start_of now - 7) as Hl
    by (unfold last_monday, week_start_of, minus_days; lia).
  assert (week_start_of now = 7 * q - 3) as Hs
    by (unfold week_start_of, minus_days; lia).
  split; [|split; [exact Hl|]].
  - apply monday_iff. exists (q - 1). lia.
  - intros Hin.
    pose proof (weekday_range (date_of later)) as Hr'.
    destruct (weekday_spec (date_of later)) as [q' Hq'].
    unfold last_monday, minus_days. lia.
Qed.

(** The witness of the report week: a statistics run on Saturday, day
    19000, and a report on the Monday after, day 19002. *)
Lemma report_reads_the_week_before_witness :
  week_start_of evening + 7 <= date_of monday_morning <= week_start_of evening + 13
  /\ last_monday monday_morning = week_start_of evening.
Proof.
  assert (week_start_of evening + 7 <= date_of monday_morning
          <= week_start_of evening + 13) as H by (vm_compute; split; discriminate).
  split; [exact H|].
  exact (proj2 (proj2 (report_reads_the_week_before evening monday_morning)) H).
Defined.

(* ------------------------------------------------------------------ *)
(** ** More on the statistics aggregator *)

(** The weekly task is idempotent and keeps the uniqueness constraint,
    as the daily task does: a second run at the same instant over the
    same sessions, on the table the first run left, ends in the very same
    state, and every user with a session in the running week has exactly
    one weekly row for its Monday. *)
Theorem weekly_statistics_idempotent :
  forall (now : datetime) (sleep_sessions : list SleepSession)
         (table : list SleepStatistics),
    unique_keys table ->
    exists table1 n,
      calculate_weekly_statistics now sleep_sessions table = Done (mk_stats_run table1 n)
      /\ calculate_weekly_statistics now sleep_sessions table1
         = Done (mk_stats_run table1 n)
      /\ unique_keys table1
      /\ (forall user, weekly_selection now sleep_sessions user <> [] ->
                       List.length (rows_at user (week_start_of now) weekly table1) = 1%nat).
Proof.
  intros now sleep_sessions table Hu.
  destruct (task_run (week_start_of now) weekly (in_week now) sleep_sessions table Hu)
    as (t1 & n & H1 & H2 & H3 & H4 & _).
  exists t1, n. rewrite !weekly_is_loop. repeat split; try assumption.
  intros user Hsel. unfold weekly_selection, sessions_between in Hsel.
  unfold in_week in H4. now rewrite (H4 user Hsel).
Qed.

Lemma weekly_statistics_idempotent_witness :
  unique_keys stale_table
  /\ exists table1 n,
      calculate_weekly_statistics morning three_sessions stale_table
      = Done (mk_stats_run table1 n)
      /\ calculate_weekly_statistics morning three_sessions table1
         = Done (mk_stats_run table1 n)
      /\ List.length (rows_at 7 (week_start_of morning) weekly table1) = 1%nat.
Proof.
  assert (unique_keys stale_table) as Hu.
  { unfold unique_keys. simpl. repeat constructor; simpl; intuition discriminate. }
  split; [exact Hu|].
  destruct (weekly_statistics_idempotent morning three_sessions stale_table Hu)
    as (table1 & n & H1 & H2 & _ & H4).
  exists table1, n. repeat split; try assumption.
  apply H4. vm_compute. discriminate.
Defined.

(** Every owner the loop visits has selected sessions. *)
Lemma owners_have_sessions (window : SleepSession -> bool)
      (sleep_sessions : list SleepSession) (users : list user_id) :
  (forall u, In u users -> In u (owners_in window sleep_sessions)) ->
  upserts (fun user => filter (fun s => (session_user s =? user) && window s)
                              sleep_sessions) users
  = Z.of_nat (List.length users).
Proof.
  induction users as [|u users IH]; intros Hin; [reflexivity|].
  rewrite upserts_cons, IH by (intros x Hx; apply Hin; now right).
  assert (exists_ (filter (fun s => (session_user s =? u) && window s) sleep_sessions)
          = true) as ->.
  { apply exists_true. apply in_distinct_users. apply Hin. now left. }
  cbn [List.length]. rewrite Nat2Z.inj_succ. apply Z.add_1_l.
Qed.

(** The number a statistics task reports in its return string is the
    number of distinct owners with a session in its window: each of them
    is upserted once, in one run, whatever the number of their sessions. *)
Theorem statistics_count_is_owner_count :
  forall (now : datetime) (sleep_sessions : list SleepSession)
         (table : list SleepStatistics),
    unique_keys table ->
    (NoDup (owners_in (on_yesterday now) sleep_sessions)
     /\ (forall user, In user (owners_in (on_yesterday now) sleep_sessions)
                      <-> daily_selection now sleep_sessions user <> [])
     /\ stats_created (final (calculate_daily_statistics now sleep_sessions table))
        = Z.of_nat (List.length (owners_in (on_yesterday now) sleep_sessions)))
    /\ (NoDup (owners_in (in_week now) sleep_sessions)
        /\ (forall user, In user (owners_in (in_week now) sleep_sessions)
                         <-> weekly_selection now sleep_sessions user <> [])
        /\ stats_created (final (calculate_weekly_statistics now sleep_sessions table))
           = Z.of_nat (List.length (owners_in (in_week now) sleep_sessions))).
Proof.
  intros now sleep_sessions table Hu. split.
  - split; [apply NoDup_nodup|]. split; [intros user; apply in_distinct_users|].
    rewrite daily_is_loop.
    destruct (stats_loop_twice (yesterday_of now) daily
                (daily_selection now sleep_sessions)
                (owners_in (on_yesterday now) sleep_sessions) table
                (NoDup_nodup _ _) Hu) as (t1 & H1 & _).
    unfold owners_in, on_yesterday in *. rewrite H1. simpl.
    now apply (owners_have_sessions (slept_on (yesterday_of now))).
  - split; [apply NoDup_nodup|]. split; [intros user; apply in_distinct_users|].
    rewrite weekly_is_loop.
    destruct (stats_loop_twice (week_start_of now) weekly
                (weekly_selection now sleep_sessions)
                (owners_in (in_week now) sleep_sessions) table
                (NoDup_nodup _ _) Hu) as (t1 & H1 & _).
    unfold owners_in, in_week in *. rewrite H1. simpl.
    now apply (owners_have_sessions
                 (slept_between (week_start_of now) (week_end_of now))).
Qed.

Lemma statistics_count_is_owner_count_witness :
  unique_keys stale_table
  /\ stats_created (final (calculate_daily_statistics next_night three_sessions
                                                      stale_table)) = 1.
Proof.
  assert (unique_keys stale_table) as Hu.
  { unfold unique_keys. simpl. repeat constructor; simpl; intuition discriminate. }
  split; [exact Hu|].
  exact (proj2 (proj2 (proj1 (statistics_count_is_owner_count
                                next_night three_sessions stale_table Hu)))).
Defined.

Lemma filter_none {A : Type} (p : A -> bool) (l : list A) :
  (forall x, In x l -> p x = false) -> filter p l = [].
Proof.
  induction l as [|a l IH]; intros H; [reflexivity|].
  simpl. rewrite (H a (or_introl eq_refl)). apply IH.
  intros x Hx. apply H. now right.
Qed.

(** A window without a session is skipped: the task ends with a count of
    0 and the statistics table as it was, rows of earlier runs included,
    whether or not the table keeps the uniqueness constraint. *)
Theorem statistics_skip_empty_window :
  forall (now : datetime) (sleep_sessions : list SleepSession)
         (table : list SleepStatistics),
    ((forall s, In s sleep_sessions -> on_yesterday now s = false) ->
     calculate_daily_statistics now sleep_sessions table = Done (mk_stats_run table 0))
    /\ ((forall s, In s sleep_sessions -> in_week now s = false) ->
        calculate_weekly_statistics now sleep_sessions table
        = Done (mk_stats_run table 0)).
Proof.
  intros now sleep_sessions table. split; intros Hnone.
  - rewrite daily_is_loop.
    fold (on_yesterday now). now rewrite (filter_none _ _ Hnone).
  - rewrite weekly_is_loop.
    fold (in_week now). now rewrite (filter_none _ _ Hnone).
Qed.

(** The witness of the empty window: the night of day 19000 is neither
    yesterday nor this week for a run three weeks later. *)
Lemma statistics_skip_empty_window_witness :
  (forall s, In s [night] -> on_yesterday (at_ 19021 3 0) s = false)
  /\ (forall s, In s [night] -> in_week (at_ 19021 3 0) s = false)
  /\ calculate_daily_statistics (at_ 19021 3 0) [night] stale_table
     = Done (mk_stats_run stale_table 0)
  /\ calculate_weekly_statistics (at_ 19021 3 0) [night] stale_table
     = Done (mk_stats_run stale_table 0).
Proof.
  assert (forall s, In s [night] -> on_yesterday (at_ 19021 3 0) s = false) as Hd
    by (intros s [<-|[]]; reflexivity).
  assert (forall s, In s [night] -> in_week (at_ 19021 3 0) s = false) as Hw
    by (intros s [<-|[]]; reflexivity).
  split; [exact Hd|]. split; [exact Hw|]. split.
  - exact (proj1 (statistics_skip_empty_window (at_ 19021 3 0) [night] stale_table) Hd).
  - exact (proj2 (statistics_skip_empty_window (at_ 19021 3 0) [night] stale_table) Hw).
Defined.

Lemma touched_dec {A : Type} (selected : list A) (d anchor : date) (p q : PeriodType) :
  {selected <> [] /\ d = anchor /\ p = q} + {~ (selected <> [] /\ d = anchor /\ p = q)}.
Proof.
  destruct selected as [|a l]; [right; intros (H & _); now apply H|].
  destruct (Z.eq_dec d anchor) as [Hd|Hd]; [|right; intros (_ & H & _); now apply Hd].
  destruct p, q; try (left; repeat split; (discriminate || assumption));
    right; intros (_ & _ & H); discriminate.
Qed.

(** The daily and the weekly task do not interfere: run in either order
    over the same sessions, from a table that keeps the uniqueness
    constraint, they end without raising and leave the same rows under
    every key. *)
Theorem daily_and_weekly_commute :
  forall (now_d now_w : datetime) (sleep_sessions : list SleepSession)
         (table : list SleepStatistics),
    unique_keys table ->
    let daily_first :=
      calculate_weekly_statistics
        now_w sleep_sessions
        (table_after (calculate_daily_statistics now_d sleep_sessions table)) in
    let weekly_first :=
      calculate_daily_statistics
        now_d sleep_sessions
        (table_after (calculate_weekly_statistics now_w sleep_sessions table)) in
    (exists st, daily_first = Done st)
    /\ (exists st, weekly_first = Done st)
    /\ forall user d p,
        rows_at user d p (table_after daily_first)
        = rows_at user d p (table_after weekly_first).
Proof.
  intros now_d now_w sleep_sessions table Hu daily_first weekly_first.
  subst daily_first weekly_first. unfold table_after.
  destruct (task_run (yesterday_of now_d) daily (slept_on (yesterday_of now_d))
                     sleep_sessions table Hu)
    as (td & nd & Hd & _ & Hud & Hd_rows & Hd_frame).
  destruct (task_run (week_start_of now_w) weekly
                     (slept_between (week_start_of now_w) (week_end_of now_w))
                     sleep_sessions table Hu)
    as (tw & nw & Hw & _ & Huw & Hw_rows & Hw_frame).
  destruct (task_run (week_start_of now_w) weekly
                     (slept_between (week_start_of now_w) (week_end_of now_w))
                     sleep_sessions td Hud)
    as (tdw & ndw & Hdw & _ & _ & Hdw_rows & Hdw_frame).
  destruct (task_run (yesterday_of now_d) daily (slept_on (yesterday_of now_d))
                     sleep_sessions tw Huw)
    as (twd & nwd & Hwd & _ & _ & Hwd_rows & Hwd_frame).
  cbv zeta in *.
  assert (calculate_daily_statistics now_d sleep_sessions table
          = Done (mk_stats_run td nd)) as Ed by exact Hd.
  assert (calculate_weekly_statistics now_w sleep_sessions table
          = Done (mk_stats_run tw nw)) as Ew by exact Hw.
  assert (calculate_weekly_statistics now_w sleep_sessions td
          = Done (mk_stats_run tdw ndw)) as Edw by exact Hdw.
  assert (calculate_daily_statistics now_d sleep_sessions tw
          = Done (mk_stats_run twd nwd)) as Ewd by exact Hwd.
  rewrite Ed, Ew. cbn [final statistics]. rewrite Edw, Ewd. cbn [final statistics].
  split; [eauto|]. split; [eauto|].
  intros user d p.
  destruct (touched_dec
              (filter (fun s => (session_user s =? user)
                                && slept_between (week_start_of now_w) (week_end_of now_w) s)
                      sleep_sessions)
              d (week_start_of now_w) p weekly) as [(Hsel & -> & ->) | Hnw].
  - rewrite (Hdw_rows user Hsel), Hwd_frame, (Hw_rows user Hsel), Hd_frame;
      [reflexivity | |]; intros (_ & _ & H); discriminate.
  - rewrite (Hdw_frame user d p Hnw).
    destruct (touched_dec
                (filter (fun s => (session_user s =? user)
                                  && slept_on (yesterday_of now_d) s) sleep_sessions)
                d (yesterday_of now_d) p daily) as [(Hsel & -> & ->) | Hnd].
    + rewrite (Hd_rows user Hsel), (Hwd_rows user Hsel), Hw_frame; [reflexivity|].
      intros (_ & _ & H); discriminate.
    + now rewrite (Hd_frame user d p Hnd), (Hwd_frame user d p Hnd),
        (Hw_frame user d p Hnw).
Qed.

Lemma daily_and_weekly_commute_witness :
  unique_keys stale_table
  /\ forall user d p,
      rows_at user d p
        (table_after
           (calculate_weekly_statistics
              morning three_sessions
              (table_after (calculate_daily_statistics next_night three_sessions
                                                       stale_table))))
      = rows_at user d p
          (table_after
             (calculate_daily_statistics
                next_night three_sessions
                (table_after (calculate_weekly_statistics morning three_sessions
                                                          stale_table)))).
Proof.
  assert (unique_keys stale_table) as Hu.
  { unfold unique_keys. simpl. repeat constructor; simpl; intuition discriminate. }
  split; [exact Hu|].
  exact (proj2 (proj2 (daily_and_weekly_commute next_night morning three_sessions
                                                stale_table Hu))).
Defined.

(** *** The aggregates as numbers *)

Lemma sum_Q_between (l : list Q) (lo hi : Q) :
  (forall x, In x l -> lo <= x <= hi)%Q ->
  (inject_Z (Z.of_nat (List.length l)) * lo <= sum_Q l
   /\ sum_Q l <= inject_Z (Z.of_nat (List.length l)) * hi)%Q.
Proof.
  induction l as [|x l IH]; intros Hall.
  - change (sum_Q []) with 0%Q.
    change (inject_Z (Z.of_nat (List.length (@nil Q)))) with 0%Q. split; lra.
  - destruct IH as [IHlo IHhi]; [intros y Hy; apply Hall; now right|].
    destruct (Hall x (or_introl eq_refl)) as [Hlo Hhi].
    cbn [List.length]. rewrite Nat2Z.inj_succ. unfold Z.succ.
    rewrite inject_Z_plus.
    change (sum_Q (x :: l)) with (x + sum_Q l)%Q.
    change (inject_Z 1) with 1%Q.
    split; lra.
Qed.

Lemma sum_Z_between (l : list Z) (lo hi : Z) :
  (forall x, In x l -> lo <= x <= hi) ->
  Z.of_nat (List.length l) * lo <= fold_right Z.add 0 l
  <= Z.of_nat (List.length l) * hi.
Proof.
  induction l as [|x l IH]; intros Hall; [simpl; lia|].
  destruct IH as [IHlo IHhi]; [intros y Hy; apply Hall; now right|].
  destruct (Hall x (or_introl eq_refl)) as [Hlo Hhi].
  cbn [List.length fold_right]. rewrite Nat2Z.inj_succ. lia.
Qed.

Lemma positive_count {A : Type} (l : list A) :
  l <> [] -> (1 <= inject_Z (Z.of_nat (List.length l)))%Q.
Proof.
  intros Hne. destruct l as [|a l]; [congruence|].
  change 1%Q with (inject_Z 1). rewrite <- Zle_Qle.
  cbn [List.length]. lia.
Qed.

(** The exact quotient of the total by the count lies within the range
    of the durations. *)
Lemma exact_average_between (sessions : list SleepSession) (lo hi : Q) :
  sessions <> [] ->
  (forall x, In x (durations sessions) -> lo <= x <= hi)%Q ->
  (lo <= total_hours_of sessions / inject_Z (count sessions) <= hi)%Q.
Proof.
  intros Hne Hall.
  destruct (sum_Q_between _ lo hi Hall) as [Hlo Hhi].
  unfold durations in Hlo, Hhi. rewrite length_map in Hlo, Hhi.
  pose proof (positive_count sessions Hne) as Hpos.
  unfold count. rewrite total_hours_of_sum. unfold durations. split.
  - apply Qle_shift_div_l; [lra|]. lra.
  - apply Qle_shift_div_r; [lra|]. lra.
Qed.

(** An average lies within the range of what it averages.  When every
    selected session has its duration (0 for a missing one) between two
    decimals with two places [lo] and [hi], so has [avg_hours], the
    quotient at 28 digits, and so has the average the row holds; when
    every rating is between [rlo] and [rhi], as between 1 and 5, so is
    the average quality the row holds. *)
Theorem averages_within_range :
  forall (sessions : list SleepSession),
    sessions <> [] ->
    (forall lo hi : Q,
        two_decimals lo -> two_decimals hi -> as_stored sessions ->
        (forall x, In x (durations sessions) -> lo <= x <= hi)%Q ->
        (lo <= d_average_sleep_hours (aggregate sessions) <= hi)%Q
        /\ (lo <= average_sleep_hours (stored_row sessions) <= hi)%Q)
    /\ (forall (rlo rhi : Z) (q : Q),
           rated_1_to_5 sessions ->
           (forall r, In r (ratings sessions) -> rlo <= r <= rhi) ->
           average_quality (stored_row sessions) = Some q ->
           (inject_Z rlo <= q <= inject_Z rhi)%Q).
Proof.
  intros sessions Hne. split.
  - intros lo hi Dlo Dhi [_ Hsmall] Hall.
    pose proof (exact_average_between sessions lo hi Hne Hall) as Hq.
    assert (Qabs (total_hours_of sessions / inject_Z (count sessions))
            < inject_Z (10 ^ 25))%Q as Hq25.
    { pose proof (positive_count sessions Hne) as Hpos. fold (count sessions) in Hpos.
      rewrite <- total_hours_of_sum in Hsmall.
      apply Qabs_Qle_condition in Hsmall as [Ha Hb].
      change (inject_Z (10 ^ 20)) with (100000000000000000000 # 1)%Q in Ha, Hb.
      change (inject_Z (10 ^ 25)) with (10000000000000000000000000 # 1)%Q.
      apply Qabs_Qlt_condition. split.
      - apply Qlt_shift_div_l; [lra|]. lra.
      - apply Qlt_shift_div_r; [lra|]. lra. }
    pose proof (round_sig_between _ lo hi Dlo Dhi Hq25 Hq) as Hr.
    change (Decimal.round_sig (total_hours_of sessions / inject_Z (count sessions)))
      with (d_average_sleep_hours (aggregate sessions)) in Hr.
    split; [exact Hr|].
    change (average_sleep_hours (stored_row sessions))
      with (Decimal.two_places (d_average_sleep_hours (aggregate sessions))).
    pose proof (two_places_near (d_average_sleep_hours (aggregate sessions))) as Hn.
    split.
    + exact (nearest_hundredth_above _ _ lo Hn Dlo (proj1 Hr)).
    + exact (nearest_hundredth_below _ _ hi Hn Dhi (proj2 Hr)).
  - intros rlo rhi q Hrated Hall Hq.
    pose proof (stored_quality 0 0 daily sessions (stored_row sessions) eq_refl Hrated)
      as Hmean.
    unfold quality_is_rounded_mean in Hmean.
    destruct (ratings sessions) as [|r rs] eqn:Er; [congruence|].
    destruct Hmean as (q' & Hq' & Hnear).
    assert (q' = q) by congruence. subst q'.
    destruct (sum_Z_between (r :: rs) rlo rhi Hall) as [Hlo Hhi].
    assert (1 <= inject_Z (Z.of_nat (List.length (r :: rs))))%Q as Hpos
      by (apply positive_count; discriminate).
    assert (inject_Z rlo <= mean (r :: rs) <= inject_Z rhi)%Q as [Mlo Mhi].
    { unfold mean. split.
      - apply Qle_shift_div_l; [lra|].
        rewrite <- inject_Z_mult, <- Zle_Qle. lia.
      - apply Qle_shift_div_r; [lra|].
        rewrite <- inject_Z_mult, <- Zle_Qle. lia. }
    assert (forall z, two_decimals (inject_Z z)) as Dz.
    { intros z. exists (z * 100). unfold Qeq, inject_Z. cbn [Qnum Qden]. lia. }
    split.
    + exact (nearest_hundredth_above _ _ _ Hnear (Dz rlo) Mlo).
    + exact (nearest_hundredth_below _ _ _ Hnear (Dz rhi) Mhi).
Qed.

(** The witness of the range: the three sessions last between 6.5 and 8
    hours and are rated between 1 and 5. *)
Lemma averages_within_range_witness :
  three_sessions <> []
  /\ (65 # 10 <= d_average_sleep_hours (aggregate three_sessions) <= 8 # 1)%Q
  /\ (65 # 10 <= average_sleep_hours (stored_row three_sessions) <= 8 # 1)%Q
  /\ (forall q, average_quality (stored_row three_sessions) = Some q ->
                (inject_Z 1 <= q <= inject_Z 5)%Q).
Proof.
  assert (three_sessions <> []) as Hne by discriminate.
  split; [exact Hne|].
  destruct (averages_within_range three_sessions Hne) as [Hd Hq].
  assert (forall r, In r (ratings three_sessions) -> 1 <= r <= 5) as Hr.
  { intros r Hr. vm_compute in Hr. destruct Hr as [<-|[<-|[]]]; split; discriminate. }
  split; [|split].
  - apply (Hd (65 # 10) (8 # 1))%Q.
    + exists 650. reflexivity.
    + exists 800. reflexivity.
    + exact three_sessions_as_stored.
    + intros x Hx. vm_compute in Hx.
      destruct Hx as [<-|[<-|[<-|[]]]]; split; discriminate.
  - apply (Hd (65 # 10) (8 # 1))%Q.
    + exists 650. reflexivity.
    + exists 800. reflexivity.
    + exact three_sessions_as_stored.
    + intros x Hx. vm_compute in Hx.
      destruct Hx as [<-|[<-|[<-|[]]]]; split; discriminate.
  - intros q. apply Hq; [|exact Hr].
    split; [exact Hr | vm_compute; reflexivity].
Defined.

Lemma sum_Q_permutation (l l' : list Q) :
  Permutation l l' -> (sum_Q l == sum_Q l')%Q.
Proof.
  unfold sum_Q. induction 1 as [|x l l' _ IH|x y l|l l' l'' _ IH1 _ IH2]; simpl.
  - reflexivity.
  - now rewrite IH.
  - ring.
  - now rewrite IH1.
Qed.

Lemma ratings_permutation (sessions sessions' : list SleepSession) :
  Permutation sessions sessions' -> Permutation (ratings sessions) (ratings sessions').
Proof.
  induction 1 as [|s l l' _ IH|s t l|l l' l'' _ IH1 _ IH2]; simpl.
  - constructor.
  - destruct (quality_rating s); [now constructor | assumption].
  - destruct (quality_rating s), (quality_rating t);
      try apply Permutation_refl; apply perm_swap.
  - now apply Permutation_trans with (ratings l').
Qed.

Lemma sum_Z_permutation (l l' : list Z) :
  Permutation l l' -> fold_right Z.add 0 l = fold_right Z.add 0 l'.
Proof.
  induction 1 as [|x l l' _ IH|x y l|l l' l'' _ IH1 _ IH2]; simpl; lia.
Qed.

(** The aggregates do not depend on the order in which the store yields
    the selected sessions: the same sessions in another order give the
    same total, the same average, the same average quality and the same
    count, and so the same figures in the row. *)
Theorem aggregate_ignores_order :
  forall sessions sessions' : list SleepSession,
    Permutation sessions sessions' ->
    (d_total_sleep_hours (aggregate sessions)
     == d_total_sleep_hours (aggregate sessions'))%Q
    /\ d_average_sleep_hours (aggregate sessions)
       = d_average_sleep_hours (aggregate sessions')
    /\ d_average_quality (aggregate sessions) = d_average_quality (aggregate sessions')
    /\ d_sessions_count (aggregate sessions) = d_sessions_count (aggregate sessions')
    /\ stored_row sessions = stored_row sessions'.
Proof.
  intros sessions sessions' Hp.
  assert (total_hours_of sessions == total_hours_of sessions')%Q as Htotal.
  { rewrite !total_hours_of_sum. apply sum_Q_permutation. unfold durations.
    now apply Permutation_map. }
  assert (count sessions = count sessions') as Hcount
    by (unfold count; now rewrite (Permutation_length Hp)).
  assert (d_average_sleep_hours (aggregate sessions)
          = d_average_sleep_hours (aggregate sessions')) as Havg.
  { cbn [aggregate d_average_sleep_hours]. unfold Decimal.divide.
    apply round_sig_proper. now rewrite Htotal, Hcount. }
  assert (d_average_quality (aggregate sessions)
          = d_average_quality (aggregate sessions')) as Hquality.
  { rewrite !aggregate_quality.
    pose proof (ratings_permutation _ _ Hp) as Hr.
    rewrite (sum_Z_permutation _ _ Hr), (Permutation_length Hr).
    destruct (ratings sessions) as [|r rs], (ratings sessions') as [|r' rs'];
      try reflexivity.
    - apply Permutation_nil in Hr. discriminate.
    - apply Permutation_sym, Permutation_nil in Hr. discriminate. }
  split; [exact Htotal|]. split; [exact Havg|]. split; [exact Hquality|].
  split; [exact Hcount|].
  unfold stored_row, create. rewrite Havg, Hquality. f_equal.
  - now apply two_places_proper.
  - exact Hcount.
Qed.

Lemma aggregate_ignores_order_witness :
  Permutation three_sessions (rev three_sessions)
  /\ d_average_sleep_hours (aggregate three_sessions)
     = d_average_sleep_hours (aggregate (rev three_sessions))
  /\ stored_row three_sessions = stored_row (rev three_sessions).
Proof.
  assert (Permutation three_sessions (rev three_sessions)) as Hp
    by apply Permutation_rev.
  split; [exact Hp|].
  destruct (aggregate_ignores_order _ _ Hp) as (_ & Ha & _ & _ & Hrow).
  split; assumption.
Defined.

(* ------------------------------------------------------------------ *)
(** ** More on the reminder scheduler *)

(** Whatever the reminders, the profiles, the transport and the clock,
    each of the three reminder tasks raises [FieldError] at its filter:
    it has read the clock once, handed nothing to the transport, counted
    nothing and left every reminder, with its [last_sent], as it was. *)
Theorem reminder_tasks_always_raise :
  forall (profile : Profiles) (smtp : Transport) (reads : Reads)
         (sleep_sessions : list SleepSession) (table : list SleepReminder)
         (run : outcome ReminderRun),
    In run [send_bedtime_reminders profile smtp reads table;
            send_wake_reminders profile smtp reads table;
            send_log_reminders profile smtp reads sleep_sessions table] ->
    exists st,
      run = Raised FieldError st
      /\ outbox st = []
      /\ sent_count st = 0
      /\ reminders st = table
      /\ result st = None
      /\ clock_reads st = 1%nat.
Proof.
  intros profile smtp reads sleep_sessions table run Hin.
  destruct (reminder_filters_raise profile smtp reads sleep_sessions table)
    as (Hb & Hw & Hl).
  destruct Hin as [<-|[<-|[<-|[]]]]; eexists;
    (split; [eassumption | repeat split]).
Qed.

(** The witness: the three tasks at 22:00 of day 19000, over the table
    that holds a bedtime reminder due then. *)
Lemma reminder_tasks_always_raise_witness :
  exists st,
    send_bedtime_reminders calendar_on smtp_up (always evening) reminder_table
    = Raised FieldError st
    /\ outbox st = []
    /\ reminders st = reminder_table.
Proof.
  destruct (reminder_tasks_always_raise calendar_on smtp_up (always evening) []
              reminder_table _ (or_introl eq_refl))
    as (st & Hrun & Hout & _ & Hrem & _).
  exists st. split; [exact Hrun|]. split; assumption.
Defined.

(* ------------------------------------------------------------------ *)
(** ** More on [SleepSession.save] *)

Lemma compute_duration_again (s : SleepSession) :
  compute_duration (compute_duration s) = compute_duration s.
Proof.
  unfold compute_duration at 1.
  destruct (compute_duration_fields s) as (_ & _ & -> & -> & _).
  unfold compute_duration.
  destruct (sleep_time s) as [sl|] eqn:Es, (wake_time s) as [w|] eqn:Ew; simpl;
    try rewrite Es; try rewrite Ew; reflexivity.
Qed.

Section StoreLaws.

Variable self : SleepSession.

Let same_pk (r : SleepSession) : bool := session_id r =? session_id self.
Let put (r : SleepSession) : SleepSession := if same_pk r then self else r.

Lemma put_id (r : SleepSession) : session_id (put r) = session_id r.
Proof.
  unfold put, same_pk. destruct (session_id r =? session_id self) eqn:E; [|reflexivity].
  apply Z.eqb_eq in E. now symmetry.
Qed.

Lemma write_present (table : list SleepSession) :
  existsb same_pk table = true -> write self table = map put table.
Proof. intros H. unfold write. fold same_pk. now rewrite H. Qed.

Lemma write_absent (table : list SleepSession) :
  existsb same_pk table = false -> write self table = table ++ [self].
Proof. intros H. unfold write. fold same_pk. now rewrite H. Qed.

Lemma absent_put (table : list SleepSession) :
  existsb same_pk table = false -> map put table = table.
Proof.
  induction table as [|r table IH]; [reflexivity|].
  cbn [existsb map]. intros H. apply orb_false_iff in H as [Hr Ht].
  unfold put at 1. now rewrite Hr, IH.
Qed.

Lemma put_put (table : list SleepSession) :
  map put (map put table) = map put table.
Proof.
  rewrite map_map. apply map_ext. intros r. unfold put at 1.
  destruct (same_pk (put r)) eqn:E; [|reflexivity].
  unfold put. destruct (same_pk r) eqn:Er; [reflexivity|].
  unfold put in E. rewrite Er in E. congruence.
Qed.

Lemma existsb_put (table : list SleepSession) :
  existsb same_pk (map put table) = existsb same_pk table.
Proof.
  induction table as [|r table IH]; [reflexivity|].
  cbn [map existsb]. rewrite IH. f_equal.
  unfold same_pk. now rewrite put_id.
Qed.

(** Storing an instance twice is storing it once. *)
Lemma write_again (table : list SleepSession) :
  write self (write self table) = write self table.
Proof.
  destruct (existsb same_pk table) eqn:E.
  - rewrite (write_present table E).
    rewrite write_present by now rewrite existsb_put.
    apply put_put.
  - rewrite (write_absent table E).
    rewrite write_present.
    + rewrite map_app, (absent_put table E). cbn [map]. unfold put, same_pk.
      now rewrite Z.eqb_refl.
    + rewrite existsb_app. cbn [existsb]. unfold same_pk at 2.
      rewrite Z.eqb_refl. apply orb_true_iff. right. reflexivity.
Qed.

(** The session read back under another id is the one that was there. *)
Lemma get_write_other (table : list SleepSession) (id : Z) :
  id <> session_id self -> get id (write self table) = get id table.
Proof.
  intros Hne. unfold get.
  assert (forall r, (session_id r =? id) = true -> same_pk r = false) as Hother.
  { intros r Hr. apply Z.eqb_eq in Hr. unfold same_pk. apply Z.eqb_neq. congruence. }
  destruct (existsb same_pk table) eqn:E.
  - rewrite (write_present table E). clear E.
    induction table as [|r table IH]; [reflexivity|].
    cbn [map find]. rewrite put_id.
    destruct (session_id r =? id) eqn:Er; [|exact IH].
    unfold put. now rewrite (Hother r Er).
  - rewrite (write_absent table E). clear E.
    induction table as [|r table IH].
    + cbn. destruct (session_id self =? id) eqn:Es; [|reflexivity].
      apply Z.eqb_eq in Es. congruence.
    + cbn [app find]. destruct (session_id r =? id); [reflexivity | exact IH].
Qed.

(** Storing keeps the ids unique, and adds a row only for a new id. *)
Lemma write_ids (table : list SleepSession) :
  NoDup (map session_id table) ->
  NoDup (map session_id (write self table))
  /\ (In (session_id self) (map session_id table) ->
      map session_id (write self table) = map session_id table)
  /\ (~ In (session_id self) (map session_id table) ->
      map session_id (write self table) = map session_id table ++ [session_id self]).
Proof.
  intros Hnd.
  assert (existsb same_pk table = true <-> In (session_id self) (map session_id table))
    as Hex.
  { rewrite existsb_exists, in_map_iff. unfold same_pk.
    split; intros (r & H1 & H2); exists r.
    - apply Z.eqb_eq in H2. auto.
    - split; [assumption | now apply Z.eqb_eq]. }
  destruct (existsb same_pk table) eqn:E.
  - rewrite (write_present table E), map_map.
    rewrite (map_ext _ session_id put_id).
    split; [assumption|]. split; [reflexivity|].
    intros Hn. exfalso. apply Hn. now apply Hex.
  - rewrite (write_absent table E), map_app. cbn [map].
    assert (~ In (session_id self) (map session_id table)) as Hn
      by (intros H; apply Hex in H; discriminate).
    split; [|split; [contradiction | reflexivity]].
    apply NoDup_app_remove_l with (l := []). cbn [app].
    apply (NoDup_Add (a := session_id self) (l := map session_id table)).
    + rewrite <- (app_nil_r (map session_id table)) at 1. apply Add_app.
    + now split.
Qed.

End StoreLaws.

(** Saving a session again, on the table the first save left, changes
    nothing: the duration is derived anew from the same two timestamps
    and the row replaces itself; a session the store refuses is refused
    again. *)
Theorem save_is_idempotent :
  forall (self : SleepSession) (table : list SleepSession),
    save self (final (save self table)) = save self table
    /\ save (compute_duration self) table = save self table.
Proof.
  intros self table. unfold save. rewrite compute_duration_again.
  split; [|reflexivity].
  unfold store. destruct (not_null (compute_duration self)); cbn [final].
  - now rewrite write_again.
  - reflexivity.
Qed.



(** *** The rounding of the duration *)

(** Exchanging the two timestamps negates the stored duration, to the
    last digit: the rounding of [save] is symmetric about zero. *)
Theorem reversed_session_has_opposite_duration :
  forall (sleep wake_ : datetime),
    hours_of (sleep - wake_) = Qopp (hours_of (wake_ - sleep)).
Proof.
  intros sleep wake_.
  replace (sleep - wake_) with (- (wake_ - sleep)) by lia.
  apply hours_of_opp.
Qed.

Lemma all_from_spec (p : Z -> bool) (fuel : nat) :
  forall z, all_from fuel z p = true ->
            forall m, z <= m < z + Z.of_nat fuel -> p m = true.
Proof.
  induction fuel as [|fuel IH]; intros z Hall m Hm; [lia|].
  cbn [all_from] in Hall. apply andb_prop in Hall as [Hz Hrest].
  destruct (Z.eq_dec m z) as [->|Hne]; [assumption|].
  apply (IH (z + 1) Hrest). lia.
Qed.

(** For every session of a whole number of minutes, up to a hundred
    hours either way, the binary floating-point computation of [save]
    loses nothing: the stored duration is the exact quotient minutes/60
    rounded to the nearest hundredth, ties to even, as a decimal with two
    places. *)
Theorem duration_exact_on_whole_minutes :
  forall m : Z,
    -6000 < m < 6000 ->
    hours_of (m * us_per_minute) = PyFloat.div_half_even (m * 100) 60 # 100.
Proof.
  intros m Hm.
  assert (all_from (Z.to_nat 11999) (-5999) exact_on_minutes = true) as Hall
    by (vm_compute; reflexivity).
  assert (exact_on_minutes m = true) as Hex
    by (apply (all_from_spec _ _ _ Hall); rewrite Z2Nat.id; lia).
  unfold exact_on_minutes in Hex. cbv zeta in Hex.
  apply andb_prop in Hex as [Hq Hd].
  apply Z.eqb_eq in Hq. apply Pos.eqb_eq in Hd.
  unfold Decimal.two_places in Hq. cbn [Qnum Qden] in Hq.
  destruct (hours_of (m * us_per_minute)) as [n d]. cbn [Qnum Qden] in *.
  now subst.
Qed.

(** The witness of the whole minutes: 7 hours and 20 minutes are stored
    as 7.33. *)
Lemma duration_exact_on_whole_minutes_witness :
  -6000 < 440 < 6000 /\ hours_of (440 * us_per_minute) = 733 # 100.
Proof.
  assert (-6000 < 440 < 6000) as H by lia.
  split; [exact H|]. exact (duration_exact_on_whole_minutes 440 H).
Defined.

(* ------------------------------------------------------------------ *)
(** ** More on the calendar sync adapter *)

(** A run of [sync_sleep_to_calendar] sends at most one request, and
    none unless the session exists with its two timestamps, its owner
    has a profile with the calendar integration enabled and the service
    could be built; the request is about that session: an insert, or an
    update of the event id the session holds. *)
Theorem sync_sends_at_most_one_request :
  forall (api : API) (profile : Profiles)
         (table : list SleepSession) (id : Z),
    (List.length (sent (sync_sleep_to_calendar api profile table id)) <= 1)%nat
    /\ forall rq,
        In rq (sent (sync_sleep_to_calendar api profile table id)) ->
        exists s user_profile,
          get id table = Some s
          /\ not_null s = true
          /\ profile (session_user s) = Some user_profile
          /\ google_calendar_enabled user_profile = true
          /\ get_service api user_profile = Service
          /\ (rq = EventsInsert s
              \/ exists stored, calendar_event_id s = Some stored
                                /\ rq = EventsUpdate stored s).
Proof.
  intros api profile table id.
  unfold sync_sleep_to_calendar, create_sleep_event, update_sleep_event, call.
  destruct (get id table) as [s|]; [|split; [simpl; lia | contradiction]].
  destruct (profile (session_user s)) as [user_profile|] eqn:Ep;
    [|split; [simpl; lia | contradiction]].
  destruct (google_calendar_enabled user_profile) eqn:Een; cbn [negb];
    [|split; [simpl; lia | contradiction]].
  destruct (get_service api user_profile) eqn:Esv;
    destruct (calendar_event_id s) as [stored|] eqn:Eid;
    try destruct (synced_to_calendar s && nonempty stored);
    cbn [body_of]; destruct (not_null s) eqn:Enn;
    try destruct (execute api _) as [[event_id|]| |];
    try destruct (nonempty event_id);
    try rewrite save_set_calendar, Enn;
    cbn [sent List.length]; (split; [lia|]); try contradiction;
    intros rq [<-|[]]; exists s, user_profile; repeat split; auto; right; now exists stored.
Qed.

(** A run of [sync_sleep_to_calendar] writes to one row at most, that of
    its session: the table keeps its ids in their order, every other
    session is as it was, and of the session itself the owner, the two
    timestamps and the rating are as they were. *)
Theorem sync_touches_only_its_session :
  forall (api : API) (profile : Profiles)
         (table : list SleepSession) (id : Z),
    NoDup (map session_id table) ->
    let after := sessions_after (sync_sleep_to_calendar api profile table id) in
    map session_id after = map session_id table
    /\ (forall other, other <> id -> get other after = get other table)
    /\ (forall s s', get id table = Some s -> get id after = Some s' ->
                     session_user s' = session_user s
                     /\ sleep_time s' = sleep_time s
                     /\ wake_time s' = wake_time s
                     /\ quality_rating s' = quality_rating s).
Proof.
  intros api profile table id Hnd after. subst after.
  assert (sessions_after (sync_sleep_to_calendar api profile table id) = table
          \/ exists s event_id,
              get id table = Some s
              /\ sessions_after (sync_sleep_to_calendar api profile table id)
                 = write (compute_duration (set_calendar true (Some event_id) s)) table)
    as [-> | Hsaved].
  { unfold sync_sleep_to_calendar, create_sleep_event, update_sleep_event, call.
    destruct (get id table) as [s|]; [|now left].
    destruct (profile (session_user s)) as [user_profile|]; [|now left].
    destruct (google_calendar_enabled user_profile); cbn [negb]; [|now left].
    destruct (get_service api user_profile);
      destruct (calendar_event_id s) as [stored|];
      try destruct (synced_to_calendar s && nonempty stored);
      cbn [body_of]; destruct (not_null s) eqn:Enn;
      try destruct (execute api _) as [[event_id|]| |];
      try destruct (nonempty event_id);
      try rewrite save_set_calendar, Enn;
      cbn [sessions_after]; try (now left); right; exists s, event_id; now split. }
  - repeat split; congruence.
  - destruct Hsaved as (s0 & event_id & Hget & ->).
    destruct (get_id _ _ _ Hget) as [Hid Hin].
    set (updated := set_calendar true (Some event_id) s0).
    assert (session_id updated = id) as Hup by exact Hid.
    destruct (compute_duration_fields updated) as (Hcid & Hcu & Hcs & Hcw & Hcq & _).
    split; [|split].
    + apply write_ids; [assumption|].
      rewrite Hcid, Hup, <- Hid. now apply in_map.
    + intros other Hne. apply get_write_other.
      rewrite Hcid, Hup. exact Hne.
    + intros s s' Hs Hs'. rewrite Hget in Hs. inversion Hs; subst s0.
      rewrite <- Hup, <- Hcid, get_write in Hs'.
      inversion Hs'; subst s'. rewrite Hcu, Hcs, Hcw, Hcq. now repeat split.
Qed.

Lemma sync_touches_only_its_session_witness :
  NoDup (map session_id [night; on_calendar])
  /\ map session_id
         (sessions_after (sync_sleep_to_calendar calendar_up calendar_on
                                                 [night; on_calendar] 1))
     = [1; 3]
  /\ get 3 (sessions_after (sync_sleep_to_calendar calendar_up calendar_on
                                                   [night; on_calendar] 1))
     = Some on_calendar.
Proof.
  assert (NoDup (map session_id [night; on_calendar])) as Hnd
    by (simpl; repeat constructor; simpl; intuition discriminate).
  destruct (sync_touches_only_its_session calendar_up calendar_on
                                          [night; on_calendar] 1 Hnd) as (Hids & Hget & _).
  split; [exact Hnd|]. split; [exact Hids|].
  rewrite Hget; [reflexivity | discriminate].
Defined.

(** A run that gets no event id from the calendar leaves the session
    table as it was, and on the create path it returns one of the failure
    returns; so the task can be run again later, and a later run that
    reaches the calendar creates the event as if the failed run had not
    been. *)
Theorem failed_sync_can_be_retried :
  forall (api_down api_up : API) (profile : Profiles) (user_profile : UserProfile)
         (table : list SleepSession) (id : Z) (s : SleepSession) (event_id : string),
    get id table = Some s ->
    not_null s = true ->
    profile (session_user s) = Some user_profile ->
    google_calendar_enabled user_profile = true ->
    synced_to_calendar s = false \/ calendar_event_id s = None ->
    (forall rq e, execute api_down rq = Executed (Some e) -> nonempty e = false) ->
    get_service api_up user_profile = Service ->
    execute api_up (EventsInsert s) = Executed (Some event_id) ->
    nonempty event_id = true ->
    let failed := sync_sleep_to_calendar api_down profile table id in
    let retried := sync_sleep_to_calendar api_up profile (sessions_after failed) id in
    failure_signal (returned_ failed) = true
    /\ sessions_after failed = table
    /\ retried = sync_sleep_to_calendar api_up profile table id
    /\ returned_ retried = Created event_id
    /\ sent retried = [EventsInsert s].
Proof.
  intros api_down api_up profile user_profile table id s event_id
         Hget Hnn Hp Hen Hun Hdown Hsv Hex Hne failed retried.
  destruct (sync_failure_keeps_sessions api_down profile user_profile table id s
                                        Hget Hdown)
    as [Hsame Hsignal].
  subst failed retried. rewrite Hsame.
  rewrite (sync_create_path api_up profile user_profile table id s event_id
                            Hget Hnn Hp Hen Hun Hsv Hex Hne).
  repeat split. now apply Hsignal.
Qed.

Lemma failed_sync_can_be_retried_witness :
  let failed := sync_sleep_to_calendar calendar_down calendar_on [night] 1 in
  let retried := sync_sleep_to_calendar calendar_up calendar_on (sessions_after failed) 1 in
  failure_signal (returned_ failed) = true
  /\ sessions_after failed = [night]
  /\ returned_ retried = Created "evt-1".
Proof.
  pose proof (failed_sync_can_be_retried
                calendar_down calendar_up calendar_on (mk_profile true true)
                [night] 1 night "evt-1"
                eq_refl eq_refl eq_refl eq_refl (or_introl eq_refl)) as H.
  assert (forall rq e, execute calendar_down rq = Executed (Some e) -> nonempty e = false)
    as Hdown by (intros rq e He; discriminate He).
  specialize (H Hdown eq_refl eq_refl eq_refl). cbv zeta in H.
  destruct H as (H1 & H2 & _ & H4 & _). repeat split; assumption.
Defined.

(* ------------------------------------------------------------------ *)
(** ** More on the weekly report *)

Section ReportLoop.

Variable profile : Profiles.
Variable smtp : Transport.

(** The payload [statistics] holds after the rows [earlier], having
    held [carried] before them. *)
Let carried_after (carried : Payload) (earlier : list SleepStatistics) : Payload :=
  match last_notified profile earlier with
  | Some e => payload_of e
  | None => carried
  end.

Lemma notified_has_profile (r : SleepStatistics) :
  notified profile r = true -> has_profile profile r = true.
Proof. unfold notified, has_profile. now destruct (profile (stat_user r)). Qed.

Lemma last_notified_cons (r : SleepStatistics) (earlier : list SleepStatistics) :
  last_notified profile (r :: earlier)
  = match last_notified profile earlier with
    | Some e => Some e
    | None => if notified profile r then Some r else None
    end.
Proof.
  unfold last_notified. simpl. induction (rev earlier) as [|x l IH]; simpl.
  - reflexivity.
  - now destruct (notified profile x).
Qed.

Lemma carried_after_cons (carried : Payload) (r : SleepStatistics)
      (earlier : list SleepStatistics) :
  carried_after carried (r :: earlier)
  = carried_after (if notified profile r then payload_of r else carried) earlier.
Proof.
  unfold carried_after. rewrite last_notified_cons.
  destruct (last_notified profile earlier); [reflexivity|].
  now destruct (notified profile r).
Qed.

(** The loop body at a row whose owner has no profile. *)
Lemma report_body_no_profile (stat : SleepStatistics) (st : ReportRun) :
  has_profile profile stat = false ->
  report_body profile smtp stat st = Raised RelatedObjectDoesNotExist st.
Proof.
  unfold has_profile, report_body.
  now destruct (profile (stat_user stat)).
Qed.

(** The loop body at a row whose owner has a profile with
    notifications off, before [statistics] is bound. *)
Lemma report_body_unbound (stat : SleepStatistics) (st : ReportRun) :
  has_profile profile stat = true ->
  notified profile stat = false ->
  statistics_var st = None ->
  report_body profile smtp stat st = Raised (UnboundLocalError "statistics") st.
Proof.
  unfold has_profile, notified, report_body.
  destruct (profile (stat_user stat)) as [p|]; [|discriminate].
  intros _ -> Hvar. now rewrite Hvar.
Qed.

(** The loop body at a row whose owner has a profile, with
    [statistics] bound now or before: one report is handed over, with
    the payload of the row when the owner has notifications enabled and
    the payload carried so far otherwise, and it is counted when the
    transport accepts it. *)
Lemma report_body_step (stat : SleepStatistics) (st : ReportRun) (carried : Payload) :
  has_profile profile stat = true ->
  notified profile stat = true \/ statistics_var st = Some carried ->
  let c1 := if notified profile stat then payload_of stat else carried in
  let d0 := mk_dispatch stat (WeeklyReport (stat_user stat) c1)
                        (smtp (List.length (report_outbox st))) in
  report_body profile smtp stat st
  = Done (mk_report_run (report_outbox st ++ [d0])
                        (if accepted d0
                         then report_sent_count st + 1 else report_sent_count st)
                        (Some c1)).
Proof.
  unfold has_profile, notified, report_body, accepted.
  destruct (profile (stat_user stat)) as [p|]; [|discriminate].
  intros _ Hvar. destruct (notification_enabled p).
  - reflexivity.
  - destruct Hvar as [Hvar | Hvar]; [discriminate|].
    rewrite Hvar. reflexivity.
Qed.

(** Once [statistics] is bound, over rows whose owners all have a
    profile the loop runs to its end, hands over one report per row, in
    order, and counts those the transport accepts; the report of a row
    carries the payload of the row itself when its owner has
    notifications enabled, and otherwise the payload [statistics] held
    when the row was reached. *)
Lemma report_loop (rows : list SleepStatistics) :
  forall (st : ReportRun) (carried : Payload),
    statistics_var st = Some carried ->
    forallb (has_profile profile) rows = true ->
    exists st' new,
      for_each (report_body profile smtp) rows st = Done st'
      /\ report_outbox st' = report_outbox st ++ new
      /\ map origin new = rows
      /\ report_sent_count st'
         = report_sent_count st + Z.of_nat (List.length (filter accepted new))
      /\ forall i r,
          nth_error rows i = Some r ->
          exists d,
            nth_error new i = Some d
            /\ origin d = r
            /\ delivered d = smtp (List.length (report_outbox st) + i)%nat
            /\ message d
               = WeeklyReport (stat_user r)
                   (if notified profile r then payload_of r
                    else carried_after carried (firstn i rows)).
Proof.
  induction rows as [|r0 rows IH]; intros st carried Hvar Hall.
  - exists st, []. simpl. rewrite app_nil_r. repeat split; [lia|].
    intros i r Hi. now destruct i.
  - cbn [forallb] in Hall. apply andb_prop in Hall as [Hp0 Hall].
    pose proof (report_body_step r0 st carried Hp0 (or_intror Hvar)) as Hstep.
    cbv zeta in Hstep.
    set (c1 := if notified profile r0 then payload_of r0 else carried) in *.
    set (d0 := mk_dispatch r0 (WeeklyReport (stat_user r0) c1)
                           (smtp (List.length (report_outbox st)))) in *.
    cbn [for_each]. rewrite Hstep.
    destruct (IH (mk_report_run (report_outbox st ++ [d0])
                                (if accepted d0
                                 then report_sent_count st + 1 else report_sent_count st)
                                (Some c1)) c1 eq_refl Hall)
      as (st' & new & Hrun & Hout & Hmap & Hcount & Hrows).
    cbn [report_outbox report_sent_count] in Hout, Hcount, Hrows.
    exists st', (d0 :: new). split; [assumption|]. split; [|split; [|split]].
    + rewrite Hout, <- app_assoc. reflexivity.
    + cbn [map]. now rewrite Hmap.
    + rewrite Hcount. cbn [filter].
      destruct (accepted d0); cbn [List.length]; lia.
    + intros [|i] r Hi; cbn [nth_error] in Hi.
      * inversion Hi; subst r. exists d0. cbn [nth_error].
        rewrite Nat.add_0_r. repeat split.
      * destruct (Hrows i r Hi) as (d & Hd & Ho & Hdel & Hm).
        exists d. cbn [nth_error]. repeat split; try assumption.
        -- rewrite Hdel, length_app. cbn [List.length]. f_equal. lia.
        -- rewrite Hm. cbn [firstn]. rewrite carried_after_cons. reflexivity.
Qed.

(** Once [statistics] is bound, the loop stops at the first row whose
    owner has no profile, having handed over one report for each row
    before it. *)
Lemma report_loop_stops (rows : list SleepStatistics) :
  forall (st : ReportRun) (carried : Payload),
    statistics_var st = Some carried ->
    forallb (has_profile profile) rows = false ->
    exists st' new,
      for_each (report_body profile smtp) rows st = Raised RelatedObjectDoesNotExist st'
      /\ report_outbox st' = report_outbox st ++ new
      /\ map origin new = fst (until_no_profile profile rows).
Proof.
  induction rows as [|r0 rows IH]; intros st carried Hvar Hall; [discriminate|].
  cbn [forallb] in Hall. cbn [until_no_profile for_each].
  destruct (has_profile profile r0) eqn:Hp0.
  - pose proof (report_body_step r0 st carried Hp0 (or_intror Hvar)) as Hstep.
    cbv zeta in Hstep. rewrite Hstep. cbn [andb] in Hall.
    match goal with
    | |- context [for_each _ rows ?s] =>
        destruct (IH s _ eq_refl Hall) as (st' & new & Hrun & Hout & Hmap)
    end.
    cbn [report_outbox] in Hout.
    eexists st', (_ :: new). split; [exact Hrun|]. split.
    + rewrite Hout, <- app_assoc. reflexivity.
    + destruct (until_no_profile profile rows) as [before stop].
      cbn [fst map origin] in *. now rewrite Hmap.
  - rewrite (report_body_no_profile r0 st Hp0).
    exists st, []. rewrite app_nil_r. repeat split.
Qed.

End ReportLoop.

(** The first step of a run whose first row has an owner with
    notifications enabled. *)
Lemma report_first_step (profile : Profiles) (smtp : Transport)
      (first : SleepStatistics) (others : list SleepStatistics) :
  notified profile first = true ->
  let d0 := mk_dispatch first (WeeklyReport (stat_user first) (payload_of first))
                        (smtp 0%nat) in
  for_each (report_body profile smtp) (first :: others) (mk_report_run [] 0 None)
  = for_each (report_body profile smtp) others
             (mk_report_run [d0] (if accepted d0 then 1 else 0)
                            (Some (payload_of first))).
Proof.
  intros Hn.
  pose proof (report_body_step profile smtp first (mk_report_run [] 0 None)
                               (payload_of first)
                               (notified_has_profile profile first Hn)
                               (or_introl Hn)) as Hstep.
  cbv zeta in Hstep. rewrite Hn in Hstep.
  cbn [for_each]. rewrite Hstep. reflexivity.
Qed.

(** How a run of [send_weekly_reports] ends.  With no weekly row of
    last Monday it ends having sent nothing.  Otherwise it raises before
    anything is sent when the owner of the first row has no profile
    ([RelatedObjectDoesNotExist]) or has notifications off
    ([UnboundLocalError]); and when the owner of the first row has
    notifications enabled, it runs to its end exactly when the owner of
    every later row has a profile, and raises
    [RelatedObjectDoesNotExist] at the first later row whose owner has
    none. *)
Theorem weekly_report_raises_on_first_owner_off :
  forall (profile : Profiles) (smtp : Transport) (now : datetime)
         (table : list SleepStatistics),
    let run := send_weekly_reports profile smtp now table in
    (weekly_rows (last_monday now) table = [] ->
     run = Done (mk_report_run [] 0 None))
    /\ (forall first others,
           weekly_rows (last_monday now) table = first :: others ->
           (has_profile profile first = false
            <-> run = Raised RelatedObjectDoesNotExist (mk_report_run [] 0 None))
           /\ (has_profile profile first = true /\ notified profile first = false
               <-> run = Raised (UnboundLocalError "statistics")
                                (mk_report_run [] 0 None))
           /\ (notified profile first = true
               /\ forallb (has_profile profile) others = true
               <-> exists st, run = Done st)
           /\ (notified profile first = true
               /\ forallb (has_profile profile) others = false
               <-> exists st, run = Raised RelatedObjectDoesNotExist st
                              /\ report_outbox st <> [])).
Proof.
  intros profile smtp now table run. subst run. unfold send_weekly_reports. split.
  - intros ->. reflexivity.
  - intros first others ->.
    destruct (has_profile profile first) eqn:Hp; [destruct (notified profile first) eqn:Hn|].
    + rewrite (report_first_step profile smtp first others Hn). cbv zeta.
      set (d0 := mk_dispatch first _ _).
      set (st1 := mk_report_run [d0] _ _).
      destruct (forallb (has_profile profile) others) eqn:Hall.
      * destruct (report_loop profile smtp others st1 _ eq_refl Hall)
          as (st & new & Hrun & _).
        rewrite Hrun.
        split; [split; [discriminate | discriminate]|].
        split; [split; [intros [_ H]; discriminate | discriminate]|].
        split; [split; [intros _; now exists st | auto]|].
        split; [intros [_ H]; discriminate | intros (s & H & _); discriminate].
      * destruct (report_loop_stops profile smtp others st1 _ eq_refl Hall)
          as (st & new & Hrun & Hout & _).
        rewrite Hrun. cbn [report_outbox st1] in Hout.
        assert (report_outbox st <> []) as Hne by (rewrite Hout; discriminate).
        split; [split; [discriminate|]|].
        { intros H. injection H as Hst. subst st. exfalso. now apply Hne. }
        split; [split; [intros [_ H]; discriminate | discriminate]|].
        split; [split; [intros [_ H]; discriminate | intros [s H]; discriminate]|].
        split; [intros _; now exists st | auto].
    + cbn [for_each].
      rewrite (report_body_unbound profile smtp first (mk_report_run [] 0 None) Hp Hn eq_refl).
      split; [split; discriminate|].
      split; [split; auto|].
      split; [split; [intros [H _]; discriminate | intros [s H]; discriminate]|].
      split; [intros [H _]; discriminate|].
      intros (s & H & Hne). inversion H.
    + cbn [for_each].
      rewrite (report_body_no_profile profile smtp first (mk_report_run [] 0 None) Hp).
      assert (notified profile first = false) as Hn.
      { destruct (notified profile first) eqn:Hn; [|reflexivity].
        apply notified_has_profile in Hn. congruence. }
      split; [split; auto|].
      split; [split; [intros [H _]; discriminate | discriminate]|].
      split; [split; [intros [H _]; congruence | intros [s H]; discriminate]|].
      split; [intros [H _]; congruence|].
      intros (s & H & Hne). injection H as Hs. subst s. exfalso. now apply Hne.
Qed.

(** The witness of raising: the row of user 2 (notifications off)
    first; and rows of users 1 and 3, user 3 having no profile. *)
Lemma weekly_report_raises_on_first_owner_off_witness :
  send_weekly_reports quiet_2 smtp_up monday_morning
                      [week_of 2 (6 # 1) 4; week_of 1 (7 # 1) 5]
  = Raised (UnboundLocalError "statistics") (mk_report_run [] 0 None)
  /\ exists st,
      send_weekly_reports quiet_2_without_3 smtp_up monday_morning
                          [week_of 1 (7 # 1) 5; week_of 3 (8 # 1) 7]
      = Raised RelatedObjectDoesNotExist st
      /\ report_outbox st <> [].
Proof.
  split.
  - apply (proj2 (weekly_report_raises_on_first_owner_off
                    quiet_2 smtp_up monday_morning
                    [week_of 2 (6 # 1) 4; week_of 1 (7 # 1) 5]) _ _ eq_refl).
    split; reflexivity.
  - apply (proj2 (weekly_report_raises_on_first_owner_off
                    quiet_2_without_3 smtp_up monday_morning
                    [week_of 1 (7 # 1) 5; week_of 3 (8 # 1) 7]) _ _ eq_refl).
    split; reflexivity.
Defined.

(** When [send_weekly_reports] ends, it has handed the transport one
    report for each weekly row of last Monday, and the number in its
    return string is the number of reports the transport accepted, at
    most the number of rows. *)
Theorem weekly_report_counts_accepted :
  forall (profile : Profiles) (smtp : Transport) (now : datetime)
         (table : list SleepStatistics) (st : ReportRun),
    send_weekly_reports profile smtp now table = Done st ->
    List.length (report_outbox st) = List.length (weekly_rows (last_monday now) table)
    /\ map origin (report_outbox st) = weekly_rows (last_monday now) table
    /\ report_sent_count st
       = Z.of_nat (List.length (filter accepted (report_outbox st)))
    /\ 0 <= report_sent_count st
       <= Z.of_nat (List.length (weekly_rows (last_monday now) table)).
Proof.
  intros profile smtp now table st Hdone. unfold send_weekly_reports in Hdone.
  destruct (weekly_rows (last_monday now) table) as [|first others] eqn:Hrows.
  - inversion Hdone. cbn. repeat split; lia.
  - destruct (has_profile profile first) eqn:Hp;
      [|cbn [for_each] in Hdone;
        rewrite (report_body_no_profile profile smtp first (mk_report_run [] 0 None) Hp) in Hdone;
        discriminate].
    destruct (notified profile first) eqn:Hn;
      [|cbn [for_each] in Hdone;
        rewrite (report_body_unbound profile smtp first (mk_report_run [] 0 None) Hp Hn eq_refl) in Hdone;
        discriminate].
    rewrite (report_first_step profile smtp first others Hn) in Hdone.
    cbv zeta in Hdone.
    set (d0 := mk_dispatch first _ _) in Hdone.
    set (st1 := mk_report_run [d0] _ _) in Hdone.
    destruct (forallb (has_profile profile) others) eqn:Hall.
    + destruct (report_loop profile smtp others st1 _ eq_refl Hall)
        as (st' & new & Hrun & Hout & Hmap & Hcount & _).
      rewrite Hrun in Hdone. inversion Hdone; subst st'.
      cbn [report_outbox report_sent_count st1] in Hout, Hcount.
      assert (map origin (report_outbox st) = first :: others) as Horigin
        by (rewrite Hout; cbn [app map origin d0]; now rewrite Hmap).
      assert (report_sent_count st
              = Z.of_nat (List.length (filter accepted (report_outbox st)))) as Hsent.
      { rewrite Hcount, Hout. cbn [app filter].
        destruct (accepted d0); cbn [List.length]; lia. }
      pose proof (filter_length_le accepted (report_outbox st)) as Hle.
      assert (List.length (report_outbox st) = List.length (first :: others)) as Hlen
        by (rewrite <- Horigin; now rewrite length_map).
      split; [exact Hlen|]. split; [exact Horigin|]. split; [exact Hsent|]. lia.
    + destruct (report_loop_stops profile smtp others st1 _ eq_refl Hall)
        as (st' & new & Hrun & _).
      rewrite Hrun in Hdone. discriminate.
Qed.

Lemma weekly_report_counts_accepted_witness :
  exists st,
    send_weekly_reports quiet_2 smtp_first_only monday_morning
      [week_of 1 (7 # 1) 5; week_of 2 (6 # 1) 4; week_of 3 (8 # 1) 7] = Done st
    /\ List.length (report_outbox st) = 3%nat
    /\ report_sent_count st = 1.
Proof.
  eexists. split; [reflexivity|].
  destruct (weekly_report_counts_accepted
              quiet_2 smtp_first_only monday_morning
              [week_of 1 (7 # 1) 5; week_of 2 (6 # 1) 4; week_of 3 (8 # 1) 7] _ eq_refl)
    as (Hlen & _ & Hcount & _).
  split; [exact Hlen | exact Hcount].
Defined.

(** When the first weekly row of last Monday belongs to a user with
    notifications enabled and the owner of every later row has a
    profile, [send_weekly_reports] runs to its end and hands one report
    to the transport for every such row, in their order, rows of users
    with notifications off included.  The report of a row whose owner
    has notifications enabled carries the payload of that row; the
    report of a row whose owner has them off carries the payload of the
    last earlier row whose owner has them enabled. *)
Theorem weekly_reports_carry_over :
  forall (profile : Profiles) (smtp : Transport) (now : datetime)
         (table : list SleepStatistics) (first : SleepStatistics)
         (others : list SleepStatistics),
    weekly_rows (last_monday now) table = first :: others ->
    notified profile first = true ->
    forallb (has_profile profile) others = true ->
    exists st,
      send_weekly_reports profile smtp now table = Done st
      /\ map origin (report_outbox st) = first :: others
      /\ forall i r,
          nth_error (first :: others) i = Some r ->
          exists d,
            nth_error (report_outbox st) i = Some d
            /\ origin d = r
            /\ delivered d = smtp i
            /\ (notified profile r = true ->
                message d = WeeklyReport (stat_user r) (payload_of r))
            /\ (notified profile r = false ->
                exists e,
                  last_notified profile (firstn i (first :: others)) = Some e
                  /\ message d = WeeklyReport (stat_user r) (payload_of e)).
Proof.
  intros profile smtp now table first others Hrows Hfirst Hall.
  unfold send_weekly_reports. rewrite Hrows.
  rewrite (report_first_step profile smtp first others Hfirst). cbv zeta.
  set (d0 := mk_dispatch first _ _).
  set (st1 := mk_report_run [d0] _ _).
  destruct (report_loop profile smtp others st1 (payload_of first) eq_refl Hall)
    as (st & new & Hrun & Hout & Hmap & _ & Hnth).
  cbn [report_outbox st1] in Hout, Hnth. exists st. split; [assumption|]. split.
  - rewrite Hout. cbn [app map origin d0]. now rewrite Hmap.
  - rewrite Hout. intros [|i] r Hi; cbn [nth_error] in Hi.
    + inversion Hi; subst r. exists d0. cbn [app nth_error]. repeat split.
      intros Hoff. congruence.
    + destruct (Hnth i r Hi) as (d & Hd & Ho & Hdel & Hm).
      exists d. cbn [app nth_error]. repeat split; try assumption.
      * intros Hon. now rewrite Hm, Hon.
      * intros Hoff. rewrite Hoff in Hm. cbn [firstn].
        rewrite last_notified_cons.
        destruct (last_notified profile (firstn i others)) as [e|] eqn:He.
        -- exists e. split; [reflexivity|]. exact Hm.
        -- exists first. rewrite Hfirst. split; [reflexivity|]. exact Hm.
Qed.

(** The witness of the carry-over: user 1 (notifications on), then user
    2 (notifications off), then user 3: the report of user 2 carries
    the figures of user 1. *)
Lemma weekly_reports_carry_over_witness :
  exists st,
    send_weekly_reports quiet_2 smtp_up monday_morning
      [week_of 1 (7 # 1) 5; week_of 2 (6 # 1) 4; week_of 3 (8 # 1) 7] = Done st
    /\ map message (report_outbox st)
       = [WeeklyReport 1 (payload_of (week_of 1 (7 # 1) 5));
          WeeklyReport 2 (payload_of (week_of 1 (7 # 1) 5));
          WeeklyReport 3 (payload_of (week_of 3 (8 # 1) 7))].
Proof.
  destruct (weekly_reports_carry_over
              quiet_2 smtp_up monday_morning
              [week_of 1 (7 # 1) 5; week_of 2 (6 # 1) 4; week_of 3 (8 # 1) 7]
              (week_of 1 (7 # 1) 5) [week_of 2 (6 # 1) 4; week_of 3 (8 # 1) 7]
              eq_refl eq_refl eq_refl) as (st & Hrun & _).
  exists st. split; [exact Hrun|].
  vm_compute in Hrun. inversion Hrun. reflexivity.
Defined.

(* ------------------------------------------------------------------ *)
(** ** The views that use the tasks *)

Import Views.







